(** * Sommelier assistant: response cache keys, fuzzy matching, metrics

    A shallow embedding of the caching layer of
    [src/sommelier/sommelier_ai_assistant.py] (class [SommelierAssistant]):
    query essence and stable object ids, the Jaccard similarity search of
    [find_previous_response], the retry loop of [generate_response], the
    byte-bounded query of [process_query] and the session metrics.

    Conventions.
    - A Python [str] is held as its UTF-8 encoding, a [string] of bytes:
      [s.encode()] is the string itself, [len(s)] counts the bytes that start
      a code point, and a slice [s[:n]] keeps whole code points.  Substring
      tests, [split] and [replace] on well-formed UTF-8 agree with their
      code-point versions.  [str.lower], [str.isspace] and the classes [\d]
      and [\s] are those of the ASCII range, so the embedding is that of
      the source on ASCII text; a statement that would fail for other
      text (Python lower-cases and classifies all of Unicode) carries the
      hypothesis [is_ascii].
    - [hashlib.md5] is the function of RFC 1321, written out on 32-bit words
      held in [Z].
    - The weights that [_extract_key_terms] only sorts by are IEEE doubles
      ([PrimFloat]).  The similarity, a quotient of two set sizes that is
      only compared, is an exact rational.  The rates and costs of the
      session metrics are doubles held as the rationals they denote, with
      the rounding of every operation written out (module [Float]).
    - Clocks, uuids, the Algolia index and the HTTP endpoint are inputs, read
      through the oracles of [env]; so is the outcome of [_select_prompt],
      which consults a semantic matcher that is not part of this file.
      Console output is left out. *)

From Stdlib Require Import ZArith QArith Qabs Qround Qpower List String Ascii Lia Lqa Bool.
From Stdlib Require Import Floats Uint63 DecimalString.
From stdpp Require Import gmap strings.
Import ListNotations.

Local Open Scope string_scope.
Local Open Scope list_scope.

(** ** Python string primitives *)

Module Py.

Definition code (c : ascii) : nat := nat_of_ascii c.

Definition is_upper (c : ascii) : bool :=
  Nat.leb 65 (code c) && Nat.leb (code c) 90.

Definition lower_char (c : ascii) : ascii :=
  if is_upper c then ascii_of_nat (code c + 32) else c.

(** [s.lower()] *)
Fixpoint lower (s : string) : string :=
  match s with
  | EmptyString => EmptyString
  | String c r => String (lower_char c) (lower r)
  end.

(** [c.isspace()] on ASCII: TAB, LF, VT, FF, CR, FS, GS, RS, US and space. *)
Definition isspace (c : ascii) : bool :=
  (Nat.leb 9 (code c) && Nat.leb (code c) 13)
  || (Nat.leb 28 (code c) && Nat.leb (code c) 32).

Fixpoint lstrip (s : string) : string :=
  match s with
  | EmptyString => EmptyString
  | String c r => if isspace c then lstrip r else s
  end.

Fixpoint rstrip (s : string) : string :=
  match s with
  | EmptyString => EmptyString
  | String c r =>
      match rstrip r with
      | EmptyString => if isspace c then EmptyString else String c EmptyString
      | r' => String c r'
      end
  end.

(** [s.strip()] *)
Definition strip (s : string) : string := rstrip (lstrip s).

(** [s.split()]: maximal runs of non-space characters. *)
Fixpoint split (s : string) : list string :=
  match s with
  | EmptyString => []
  | String c r =>
      if isspace c then split r
      else match r with
           | EmptyString => [String c EmptyString]
           | String c' _ =>
               if isspace c' then String c EmptyString :: split r
               else match split r with
                    | w :: ws => String c w :: ws
                    | [] => [String c EmptyString]
                    end
           end
  end.

(** [sub in s] *)
Fixpoint contains (sub s : string) : bool :=
  String.prefix sub s
  || match s with
     | EmptyString => false
     | String _ r => contains sub r
     end.

(** [any(t in s for t in terms)] *)
Definition any_in (terms : list string) (s : string) : bool :=
  existsb (fun t => contains t s) terms.

(** [s.replace(old, new)] for a non-empty [old] (every call of the source has
    one): non-overlapping occurrences, leftmost first.  [skip] counts the
    characters of a matched occurrence still to pass over. *)
Fixpoint replace_aux (old new : string) (skip : nat) (s : string) : string :=
  match s with
  | EmptyString => EmptyString
  | String c r =>
      match skip with
      | S k => replace_aux old new k r
      | O =>
          if String.prefix old s
          then String.append new (replace_aux old new (String.length old - 1) r)
          else String c (replace_aux old new 0 r)
      end
  end.

Definition replace (old new s : string) : string := replace_aux old new 0 s.

(** [s.split(sep)] for a non-empty [sep]. *)
Fixpoint split_on_aux (sep : string) (skip : nat) (cur s : string) : list string :=
  match s with
  | EmptyString => [cur]
  | String c r =>
      match skip with
      | S k => split_on_aux sep k cur r
      | O =>
          if String.prefix sep s
          then cur :: split_on_aux sep (String.length sep - 1) EmptyString r
          else split_on_aux sep 0 (String.append cur (String c EmptyString)) r
      end
  end.

Definition split_on (sep s : string) : list string :=
  split_on_aux sep 0 EmptyString s.

(** [sep.join(l)] *)
Fixpoint join (sep : string) (l : list string) : string :=
  match l with
  | [] => EmptyString
  | [x] => x
  | x :: r => String.append x (String.append sep (join sep r))
  end.

(** A UTF-8 continuation byte, [10xxxxxx]. *)
Definition is_cont (c : ascii) : bool :=
  Nat.leb 128 (code c) && Nat.leb (code c) 191.

(** [len(s)]: the number of code points. *)
Fixpoint len (s : string) : nat :=
  match s with
  | EmptyString => 0
  | String c r => if is_cont c then len r else S (len r)
  end.

(** [s[:n]]: the first [n] code points. *)
Fixpoint take (n : nat) (s : string) : string :=
  match s with
  | EmptyString => EmptyString
  | String c r =>
      if is_cont c then String c (take n r)
      else match n with
           | O => EmptyString
           | S k => String c (take k r)
           end
  end.

(** [s.encode('utf-8')], and its length in bytes. *)
Definition encode (s : string) : string := s.
Definition byte_len (s : string) : nat := String.length (encode s).

Definition mem_char (c : ascii) (chars : string) : bool :=
  existsb (Ascii.eqb c) (list_ascii_of_string chars).

(** [s.rstrip(chars)] *)
Fixpoint rstrip_chars (chars s : string) : string :=
  match s with
  | EmptyString => EmptyString
  | String c r =>
      match rstrip_chars chars r with
      | EmptyString => if mem_char c chars then EmptyString else String c EmptyString
      | r' => String c r'
      end
  end.

(** [x in l] for a list of strings *)
Definition mem (x : string) (l : list string) : bool :=
  existsb (String.eqb x) l.

(** [l[-1]] of a non-empty list; [split_on] never returns the empty list. *)
Definition last_of (l : list string) : string := List.last l EmptyString.

(** The f-string rendering of a value that is a [str] or [None]. *)
Definition fmt (v : option string) : string :=
  match v with
  | Some s => s
  | None => "None"
  end.

(** Truthiness of a value that is a [str] or [None]. *)
Definition truthy (v : option string) : bool :=
  match v with
  | Some (String _ _) => true
  | _ => false
  end.

End Py.

(** ** MD5 (RFC 1321), as [hashlib.md5(data).hexdigest()] *)

Module MD5.

Local Open Scope Z_scope.

Definition w32 (x : Z) : Z := x mod 2 ^ 32.

Definition add32 (x y : Z) : Z := w32 (x + y).

Definition not32 (x : Z) : Z := Z.lxor x 0xffffffff.

Definition rotl32 (x c : Z) : Z :=
  w32 (Z.lor (Z.shiftl x c) (Z.shiftr x (32 - c))).

(** [floor(2^32 * abs(sin(i + 1)))] *)
Definition K : list Z :=
  [ 0xd76aa478; 0xe8c7b756; 0x242070db; 0xc1bdceee;
    0xf57c0faf; 0x4787c62a; 0xa8304613; 0xfd469501;
    0x698098d8; 0x8b44f7af; 0xffff5bb1; 0x895cd7be;
    0x6b901122; 0xfd987193; 0xa679438e; 0x49b40821;
    0xf61e2562; 0xc040b340; 0x265e5a51; 0xe9b6c7aa;
    0xd62f105d; 0x02441453; 0xd8a1e681; 0xe7d3fbc8;
    0x21e1cde6; 0xc33707d6; 0xf4d50d87; 0x455a14ed;
    0xa9e3e905; 0xfcefa3f8; 0x676f02d9; 0x8d2a4c8a;
    0xfffa3942; 0x8771f681; 0x6d9d6122; 0xfde5380c;
    0xa4beea44; 0x4bdecfa9; 0xf6bb4b60; 0xbebfbc70;
    0x289b7ec6; 0xeaa127fa; 0xd4ef3085; 0x04881d05;
    0xd9d4d039; 0xe6db99e5; 0x1fa27cf8; 0xc4ac5665;
    0xf4292244; 0x432aff97; 0xab9423a7; 0xfc93a039;
    0x655b59c3; 0x8f0ccc92; 0xffeff47d; 0x85845dd1;
    0x6fa87e4f; 0xfe2ce6e0; 0xa3014314; 0x4e0811a1;
    0xf7537e82; 0xbd3af235; 0x2ad7d2bb; 0xeb86d391 ].

(** Per-round left-rotation amounts. *)
Definition shifts : list Z :=
  [ 7; 12; 17; 22; 7; 12; 17; 22; 7; 12; 17; 22; 7; 12; 17; 22;
    5; 9; 14; 20; 5; 9; 14; 20; 5; 9; 14; 20; 5; 9; 14; 20;
    4; 11; 16; 23; 4; 11; 16; 23; 4; 11; 16; 23; 4; 11; 16; 23;
    6; 10; 15; 21; 6; 10; 15; 21; 6; 10; 15; 21; 6; 10; 15; 21 ].

Record state := mkState { sA : Z; sB : Z; sC : Z; sD : Z }.

Definition init : state :=
  mkState 0x67452301 0xefcdab89 0x98badcfe 0x10325476.

(** The auxiliary function of round [i] and the index of the message word
    it reads. *)
Definition mix (i : nat) (b c d : Z) : Z * nat :=
  if Nat.ltb i 16 then (Z.lor (Z.land b c) (Z.land (not32 b) d), i)
  else if Nat.ltb i 32 then
    (Z.lor (Z.land d b) (Z.land (not32 d) c), Nat.modulo (5 * i + 1) 16)
  else if Nat.ltb i 48 then
    (Z.lxor b (Z.lxor c d), Nat.modulo (3 * i + 5) 16)
  else (Z.lxor c (Z.lor b (not32 d)), Nat.modulo (7 * i) 16).

Definition step (m : list Z) (st : state) (i : nat) : state :=
  let '(f, g) := mix i (sB st) (sC st) (sD st) in
  let f' := add32 (add32 (add32 f (sA st)) (nth i K 0)) (nth g m 0) in
  mkState (sD st) (add32 (sB st) (rotl32 f' (nth i shifts 0))) (sB st) (sC st).

(** One 512-bit block, given as sixteen little-endian words. *)
Definition compress (st : state) (m : list Z) : state :=
  let r := fold_left (step m) (seq 0 64) st in
  mkState (add32 (sA st) (sA r)) (add32 (sB st) (sB r))
          (add32 (sC st) (sC r)) (add32 (sD st) (sD r)).

Definition le_bytes (n : nat) (x : Z) : list Z :=
  map (fun k => Z.shiftr x (8 * Z.of_nat k) mod 256) (seq 0 n).

(** Padding: a 1 bit, zeros up to 56 modulo 64, the bit length on 64 bits. *)
Definition pad (msg : list Z) : list Z :=
  let n := List.length msg in
  let z := Nat.modulo (119 - Nat.modulo n 64) 64 in
  msg ++ [128] ++ repeat 0 z ++ le_bytes 8 ((8 * Z.of_nat n) mod 2 ^ 64).

Fixpoint word_le (bs : list Z) : Z :=
  match bs with
  | [] => 0
  | b :: r => b + 256 * word_le r
  end.

(** Little-endian 32-bit words of a byte list. *)
Fixpoint words_of (fuel : nat) (bs : list Z) : list Z :=
  match fuel, bs with
  | S k, _ :: _ => word_le (firstn 4 bs) :: words_of k (skipn 4 bs)
  | _, _ => []
  end.

(** The blocks of a padded message, sixteen words each. *)
Fixpoint blocks (fuel : nat) (ws : list Z) : list (list Z) :=
  match fuel, ws with
  | S k, _ :: _ => firstn 16 ws :: blocks k (skipn 16 ws)
  | _, _ => []
  end.

Definition digest_state (msg : list Z) : state :=
  let p := pad msg in
  let ws := words_of (List.length p) p in
  fold_left compress (blocks (List.length ws) ws) init.

Definition hex_digit (d : Z) : ascii :=
  ascii_of_nat (Z.to_nat (if d <? 10 then 48 + d else 87 + d)).

Definition hex_byte (b : Z) : string :=
  String (hex_digit (b / 16)) (String (hex_digit (b mod 16)) EmptyString).

Fixpoint hex (bs : list Z) : string :=
  match bs with
  | [] => EmptyString
  | b :: r => String.append (hex_byte b) (hex r)
  end.

Definition state_bytes (st : state) : list Z :=
  le_bytes 4 (sA st) ++ le_bytes 4 (sB st) ++ le_bytes 4 (sC st) ++ le_bytes 4 (sD st).

(** The bytes of [s.encode()]. *)
Definition bytes_of (s : string) : list Z :=
  map (fun c => Z.of_nat (nat_of_ascii c)) (list_ascii_of_string (Py.encode s)).

(** [hashlib.md5(s.encode()).hexdigest()] *)
Definition hexdigest (s : string) : string :=
  hex (state_bytes (digest_state (bytes_of s))).

End MD5.

(** ** The regular expressions of [_extract_price_range]

    The six patterns are sequences of literals, [\s+], [\$?] and captured
    [(\d+)].  In each of them a repetition is followed by a character outside
    the repeated class (or by the end of the pattern), so greedy matching
    never has to give characters back and a left-to-right matcher decides
    [re.search]. *)

Module Re.

Inductive item :=
| Lit (s : string)      (* literal text *)
| Spaces                (* \s+ *)
| OptLit (s : string)   (* literal? *)
| Digits.               (* (\d+), a capturing group *)

Definition isdigit (c : ascii) : bool :=
  Nat.leb 48 (Py.code c) && Nat.leb (Py.code c) 57.

Fixpoint drop (n : nat) (s : string) : string :=
  match n, s with
  | S k, String _ r => drop k r
  | _, _ => s
  end.

(** The longest prefix of characters satisfying [p], and the rest. *)
Fixpoint span (p : ascii -> bool) (s : string) : string * string :=
  match s with
  | EmptyString => (EmptyString, EmptyString)
  | String c r =>
      if p c then let '(a, b) := span p r in (String c a, b)
      else (EmptyString, s)
  end.

(** Match the items at the start of [s]; the captured groups in order. *)
Fixpoint match_here (pat : list item) (s : string) : option (list string) :=
  match pat with
  | [] => Some []
  | Lit l :: pat' =>
      if String.prefix l s then match_here pat' (drop (String.length l) s) else None
  | Spaces :: pat' =>
      match span Py.isspace s with
      | (EmptyString, _) => None
      | (_, r) => match_here pat' r
      end
  | OptLit l :: pat' =>
      if String.prefix l s then match_here pat' (drop (String.length l) s)
      else match_here pat' s
  | Digits :: pat' =>
      match span isdigit s with
      | (EmptyString, _) => None
      | (d, r) => option_map (cons d) (match_here pat' r)
      end
  end.

(** [re.search(pat, s)]: the groups of the leftmost match. *)
Fixpoint search (pat : list item) (s : string) : option (list string) :=
  match match_here pat s with
  | Some g => Some g
  | None =>
      match s with
      | EmptyString => None
      | String _ r => search pat r
      end
  end.

End Re.

(** ** Query essence and stable ids *)

Definition suspicious_tokens : list string :=
  ["assistant:"; "user:"; "assistant"; "user"; "sommelier:"].

(** [for token in suspicious_tokens: if token in query: query = query.replace(token, "")] *)
Definition remove_suspicious (query : string) : string :=
  fold_left (fun q token => if Py.contains token q then Py.replace token "" q else q)
            suspicious_tokens query.

Definition pairing_terms : list string :=
  ["pair"; "pairing"; "goes with"; "good with"; "match"; "matching"; "complement"].

Definition _is_food_pairing_query (query : string) : bool :=
  let query := remove_suspicious (Py.strip (Py.lower query)) in
  let is_pairing := Py.any_in pairing_terms query in
  if Py.contains "that" query || Py.contains "this" query then
    let food_related := Py.any_in ["food"; "dish"; "meal"; "restaurant"; "cuisine"] query in
    is_pairing && food_related
  else is_pairing.

Definition food_categories : list string :=
  [ "steak"; "beef"; "pork"; "lamb"; "veal"; "chicken"; "turkey"; "duck"; "goose";
    "meat"; "burgers"; "barbecue"; "bbq"; "ribs"; "bacon"; "ham"; "sausage";
    "fish"; "salmon"; "tuna"; "cod"; "halibut"; "trout"; "seafood"; "shrimp"; "lobster";
    "crab"; "oyster"; "mussel"; "clam"; "scallop"; "squid"; "octopus"; "eel";
    "pasta"; "pizza"; "risotto"; "lasagna"; "spaghetti"; "gnocchi"; "ravioli";
    "cheese"; "cheddar"; "brie"; "camembert"; "gouda"; "blue cheese"; "goat cheese";
    "parmesan"; "feta"; "mozzarella"; "ricotta"; "dairy";
    "chocolate"; "dessert"; "cake"; "pie"; "tart"; "cookie"; "pudding"; "ice cream";
    "vegetable"; "salad"; "greens"; "tomato"; "mushroom"; "truffle"; "potato";
    "eggplant"; "zucchini"; "cucumber"; "carrot"; "asparagus"; "broccoli";
    "italian"; "french"; "indian"; "chinese"; "japanese"; "mexican"; "thai"; "spanish" ].

Definition pronouns : list string := ["that"; "this"; "these"; "those"; "it"].

(** The final validation loop of [_extract_food_items]. *)
Definition clean_foods (found_foods : list string) : list string :=
  flat_map (fun food =>
              let food := Py.rstrip_chars ".,?!:;" food in
              if String.eqb (Py.strip food) "" || Py.mem (Py.strip food) pronouns
              then [] else [food])
           found_foods.

Definition _extract_food_items (query : string) : list string :=
  if Py.contains "option" (Py.lower query) || Py.contains "sounds good" (Py.lower query)
     || Py.any_in ["that wine"; "that option"] (Py.lower query)
  then []
  else
    let query := Py.strip (Py.lower query) in
    if Py.any_in ["first suggestion"; "second suggestion"; "third suggestion";
                  "that suggestion"; "option"; "sounds good"] query
    then []
    else
      let query := remove_suspicious query in
      let found_foods := List.filter (fun food => Py.contains food query) food_categories in
      let found_foods :=
        match found_foods with
        | [] =>
            if Py.contains "pair" query || Py.contains "pairing" query then
              match Py.split_on "with" query with
              | _ :: part :: _ =>
                  let after_with := Py.strip part in
                  let food_part := Py.join " " (firstn 3 (Py.split after_with)) in
                  if Py.any_in suspicious_tokens food_part then [] else [food_part]
              | _ => []
              end
            else []
        | _ => found_foods
        end in
      match found_foods with
      | [] =>
          if (Py.contains "that" query || Py.contains "this" query)
             && (Py.contains "pair" query || Py.contains "dish" query
                 || Py.contains "food" query)
          then []
          else clean_foods found_foods
      | _ => clean_foods found_foods
      end.

(** The first key of an insertion-ordered dict one of whose terms occurs in
    the query. *)
Fixpoint first_key (table : list (string * list string)) (query : string) : option string :=
  match table with
  | [] => None
  | (key, terms) :: rest =>
      if Py.any_in terms query then Some key else first_key rest query
  end.

Definition wine_types : list (string * list string) :=
  [ ("red", ["red"; "cabernet"; "merlot"; "pinot noir"; "syrah"; "shiraz"; "malbec"; "zinfandel"]);
    ("white", ["white"; "chardonnay"; "sauvignon blanc"; "pinot grigio"; "riesling"; "moscato"]);
    ("sparkling", ["sparkling"; "champagne"; "prosecco"; "cava"; "bubbly"]);
    ("rose", ["rosé"; "rose"; "pink wine"]) ].

Definition _extract_wine_type (query : string) : option string :=
  first_key wine_types query.

Definition price_patterns : list (list Re.item) :=
  [ [Re.Lit "under"; Re.Spaces; Re.Lit "$"; Re.Digits];
    [Re.Lit "less than"; Re.Spaces; Re.Lit "$"; Re.Digits];
    [Re.Lit "around"; Re.Spaces; Re.Lit "$"; Re.Digits];
    [Re.Lit "$"; Re.Digits; Re.Lit "-"; Re.OptLit "$"; Re.Digits];
    [Re.Lit "$"; Re.Digits];
    [Re.Digits; Re.Spaces; Re.Lit "dollars"] ].

(** The loop over [price_patterns]: the first pattern that matches decides. *)
Fixpoint first_price (pats : list (list Re.item)) (query : string) : option string :=
  match pats with
  | [] => None
  | pat :: rest =>
      match Re.search pat query with
      | Some [g1] => Some (String.append "price_" g1)
      | Some [g1; g2] =>
          Some (String.append "price_" (String.append g1 (String.append "_to_" g2)))
      | _ => first_price rest query
      end
  end.

Definition _extract_price_range (query : string) : option string :=
  match first_price price_patterns query with
  | Some p => Some p
  | None =>
      if Py.contains "cheap" query || Py.contains "inexpensive" query
         || Py.contains "budget" query
      then Some "price_budget"
      else if Py.contains "expensive" query || Py.contains "premium" query
              || Py.contains "luxury" query
      then Some "price_premium"
      else None
  end.

Definition regions : list (string * list string) :=
  [ ("france", ["french"; "france"; "bordeaux"; "burgundy"; "champagne"; "rhone"; "loire"]);
    ("italy", ["italian"; "italy"; "tuscany"; "piedmont"; "veneto"; "sicily"]);
    ("spain", ["spanish"; "spain"; "rioja"; "catalonia"; "ribera"]);
    ("usa", ["american"; "california"; "napa"; "sonoma"; "oregon"; "washington"]);
    ("australia", ["australian"; "australia"; "barossa"; "margaret river"]);
    ("new_zealand", ["new zealand"; "marlborough"]);
    ("argentina", ["argentinian"; "argentina"; "mendoza"]);
    ("chile", ["chilean"; "chile"]);
    ("germany", ["german"; "germany"; "mosel"; "rheingau"]) ].

Definition _extract_region (query : string) : option string :=
  first_key regions (Py.lower query).

Definition stopwords : list string :=
  [ "what"; "which"; "how"; "is"; "are"; "the"; "a"; "an"; "in"; "with"; "for"; "to";
    "of"; "would"; "should"; "could"; "will"; "can"; "do"; "does"; "has"; "have"; "had";
    "i"; "you"; "he"; "she"; "we"; "they"; "it"; "this"; "that"; "these"; "those";
    "am"; "is"; "are"; "was"; "were"; "be"; "been"; "being"; "there"; "their"; "me";
    "and"; "or"; "but"; "if"; "then"; "so"; "because"; "since"; "while"; "when"; "where";
    "why"; "how"; "all"; "any"; "both"; "each"; "few"; "more"; "most"; "other"; "some";
    "such"; "no"; "nor"; "not"; "only"; "own"; "same"; "than"; "too"; "very"; "just";
    "should"; "now"; "also"; "very"; "really"; "quite" ].

Definition wine_stopwords : list string :=
  [ "wine"; "wines"; "drink"; "bottle"; "glass"; "recommend"; "suggestion";
    "taste"; "flavor"; "recommend"; "tell"; "about"; "know"; "like"; "good" ].

Definition important_terms : list string :=
  [ "cabernet"; "merlot"; "chardonnay"; "pinot"; "sauvignon"; "riesling"; "shiraz";
    "zinfandel"; "syrah"; "malbec"; "champagne"; "prosecco"; "bordeaux"; "burgundy";
    "vintage"; "terroir"; "tannin"; "acidity"; "oak"; "body"; "dry"; "sweet"; "pairing";
    "decant"; "cellar"; "sommelier"; "vineyard"; "winery"; "german"; "french"; "italian";
    "spanish" ].

(** [float(n)] for a length or an index. *)
Definition float_of_nat (n : nat) : float :=
  PrimFloat.of_uint63 (Uint63.of_Z (Z.of_nat n)).

(** The body of the weighting loop for the word at index [i] of [n] words. *)
Definition weigh (n i : nat) (word : string) : list (string * float) :=
  let word_lower := Py.lower word in
  if Py.mem word_lower stopwords then []
  else if Nat.leb (Py.len word_lower) 2 then []
  else
    let weight :=
      if Py.mem word_lower wine_stopwords && Nat.ltb 3 n then 0.5%float
      else if Py.mem word_lower important_terms then 2%float
      else 1%float in
    let position_factor := PrimFloat.div (float_of_nat (i + 1)) (float_of_nat n) in
    [(word_lower, PrimFloat.add weight position_factor)].

Fixpoint weigh_all (n i : nat) (words : list string) : list (string * float) :=
  match words with
  | [] => []
  | w :: r => weigh n i w ++ weigh_all n (S i) r
  end.

(** [l.sort(key=weight, reverse=True)]: descending, and stable, so words of
    equal weight keep the order of the query. *)
Fixpoint insert_desc (x : string * float) (l : list (string * float)) : list (string * float) :=
  match l with
  | [] => [x]
  | y :: r => if PrimFloat.ltb (snd x) (snd y) then y :: insert_desc x r else x :: l
  end.

Definition sort_desc (l : list (string * float)) : list (string * float) :=
  fold_right insert_desc [] l.

Definition _extract_key_terms (query : string) : string :=
  let words := Py.split query in
  let weighted_words := sort_desc (weigh_all (List.length words) 0 words) in
  let top_words := map fst (firstn 5 weighted_words) in
  match top_words with
  | [] => query
  | _ => Py.join " " top_words
  end.

Definition exact_stopwords : list string :=
  ["a"; "an"; "the"; "is"; "are"; "that"; "this"; "with"; "for"; "to"; "in"; "of"; "and"; "or"].

(** The stopword-stripped text, replaced by ten hex digits of its MD5 when it
    is longer than thirty characters. *)
Definition exact_part (normalized : string) : string :=
  let exact_words := Py.split normalized in
  let exact_query :=
    Py.join " " (List.filter (fun word => negb (Py.mem word exact_stopwords)) exact_words) in
  if Nat.ltb 30 (Py.len exact_query)
  then "q_" +:+ Py.take 10 (MD5.hexdigest exact_query)
  else exact_query.

(** [constraints]: the extracted values that are not [None], in order. *)
Definition constraints_of (normalized : string) : list string :=
  let opt (o : option string) := match o with Some x => [x] | None => [] end in
  opt (_extract_wine_type normalized)
  ++ opt (_extract_price_range normalized)
  ++ opt (_extract_region normalized).

(** What [_get_query_essence] computes from [normalized]. *)
Definition essence_of_normalized (normalized : string) : string :=
  let exact_query := exact_part normalized in
  let food_items :=
    if _is_food_pairing_query normalized then _extract_food_items normalized else [] in
  match food_items with
  | _ :: _ => "exact_" +:+ exact_query +:+ "_pair_with_" +:+ Py.join " " food_items
  | [] =>
      let constraints :=
        if Py.any_in ["recommend"; "suggest"; "looking for"; "what wine"] normalized
        then constraints_of normalized else [] in
      match constraints with
      | _ :: _ => "exact_" +:+ exact_query +:+ "_recommend_" +:+ Py.join " " constraints
      | [] => "exact_" +:+ exact_query +:+ "_" +:+ _extract_key_terms normalized
      end
  end.

Definition _get_query_essence (query : string) : string :=
  essence_of_normalized (Py.strip (Py.lower query)).

(** The string that [_generate_stable_id] hashes.  [conversation_id] is the
    attribute [self.conversation_id]: the segment is left out when it is
    [None] or empty. *)
Definition components (conversation_id : option string)
    (query_essence : string) (data_source_id prompt_id : option string) : string :=
  let conv_component :=
    if Py.truthy conversation_id then "|conv_" +:+ Py.fmt conversation_id else "" in
  query_essence +:+ "|" +:+ Py.fmt data_source_id +:+ "|" +:+ Py.fmt prompt_id
    +:+ conv_component.

Definition _generate_stable_id (conversation_id : option string)
    (query_essence : string) (data_source_id prompt_id : option string) : string :=
  "sommelier_" +:+ MD5.hexdigest (components conversation_id query_essence data_source_id prompt_id).

(** ** Session metrics *)

(** *** Doubles

    A finite double is held as the rational number it denotes.  An
    operation of the source on floats is the exact operation followed by
    [fl], the rounding of IEEE 754 binary64 to the nearest double, ties to
    the even mantissa, with gradual underflow.  A result beyond the largest
    double would overflow; the quantities of this file stay far below it
    (a count would have to exceed [10^300]). *)

(** The nearest integer, ties to the even one. *)
Definition round_half_even (x : Q) : Z :=
  let f := Qfloor x in
  let r := (x - inject_Z f)%Q in
  match Qcompare r (1 # 2) with
  | Lt => f
  | Gt => (f + 1)%Z
  | Eq => if Z.even f then f else (f + 1)%Z
  end.

Module Float.

(** [floor (log2 x)] for [0 < x]. *)
Definition ilog2 (x : Q) : Z :=
  let e := (Z.log2 (Qnum x) - Z.log2 (Zpos (Qden x)))%Z in
  if Qle_bool (2 ^ e) x then e else (e - 1)%Z.

(** The exponent of the last place of the double nearest to [x]: 53
    significant bits, and never below [2^-1074]. *)
Definition ulp_exp (x : Q) : Z := Z.max (ilog2 (Qabs x) - 52) (-1074).

(** The nearest double. *)
Definition fl (x : Q) : Q :=
  if Qeq_bool x 0 then 0
  else Qred (inject_Z (round_half_even (x / 2 ^ ulp_exp x)) * 2 ^ ulp_exp x).

(** [x + y], [x - y], [x * y] and [x / y] on floats; [a / b] on two [int]s is the
    same correctly rounded quotient. *)
Definition add (x y : Q) : Q := fl (x + y).
Definition sub (x y : Q) : Q := fl (x - y).
Definition mul (x y : Q) : Q := fl (x * y).
Definition div (x y : Q) : Q := fl (x / y).

End Float.

(** [round(x, n)] on a float: the double nearest to the decimal with [n]
    places that is nearest to the exact value of [x], ties to the even last
    digit (CPython rounds the exact binary value and converts the decimal
    back). *)
Definition round (x : Q) (n : nat) : Q :=
  let scale := inject_Z (10 ^ Z.of_nat n) in
  Float.fl (inject_Z (round_half_even (x * scale)) / scale).

Definition Qnat (n : nat) : Q := inject_Z (Z.of_nat n).

(** [sum(l) / len(l)] on a list of floats: the terms are added from left to
    right, each partial sum rounded (from Python 3.12 on [sum] compensates
    these roundings, which can change the last bits of the quotient). *)
Definition mean (l : list Q) : Q :=
  Float.div (fold_left Float.add l 0%Q) (Qnat (List.length l)).

Record type_stats := mkStats { total : nat; hits : nat; misses : nat }.

Record query_entry := mkQueryEntry {
  qe_timestamp : string;
  qe_query : string;
  qe_cache_hit : bool;
  qe_response_time : Q;
  qe_query_type : option string;
  qe_object_id : option string }.

Record error_entry := mkErrorEntry {
  ee_timestamp : string;
  ee_type : option string;
  ee_details : option string }.

(** The keys written by [calculate_derived_metrics]. *)
Record derived := mkDerived {
  cache_hit_rate : Q;
  cache_miss_rate : Q;
  avg_response_time : Q;
  avg_cache_hit_time : Q;
  avg_generation_time : Q;
  estimated_tokens_saved : nat;
  estimated_cost_saved : Q;
  potential_cost_without_caching : Q;
  actual_cost_with_caching : Q;
  cost_reduction_percentage : Q }.

(** The dict [self.current_session].  [end_time], [errors] and the derived
    keys are absent from a new session. *)
Record session := mkSession {
  start_time : string;
  end_time : option string;
  total_queries : nat;
  cache_hits : nat;
  cache_misses : nat;
  api_errors : nat;
  response_times : list Q;
  cache_hit_times : list Q;
  generation_times : list Q;
  query_types : gmap string type_stats;
  query_log : list query_entry;
  algolia_operations : gmap string nat;
  errors : option (list error_entry);
  derived_metrics : option derived }.

Definition initial_operations : gmap string nat :=
  list_to_map
    [ ("search_operations", 0); ("get_operations", 0); ("browse_operations", 0);
      ("save_operations", 0); ("update_operations", 0); ("delete_operations", 0);
      ("total_operations", 0); ("operations_cost", 0) ].

(** The dict literal of [__init__] and [reset_metrics]. *)
Definition new_session (now : string) : session :=
  {| start_time := now; end_time := None;
     total_queries := 0; cache_hits := 0; cache_misses := 0; api_errors := 0;
     response_times := []; cache_hit_times := []; generation_times := [];
     query_types := ∅; query_log := [];
     algolia_operations := initial_operations;
     errors := None; derived_metrics := None |}.

(** The literal [0.002]: the double nearest to it. *)
Definition estimated_cost_per_1k_tokens : Q := Float.fl (2 # 1000).
Definition estimated_tokens_per_response : nat := 1000.

Module Session.

(** [(count * estimated_tokens_per_response / 1000) * estimated_cost_per_1k_tokens]:
    a quotient of two [int]s, then a product of floats. *)
Definition cost_of (count : nat) : Q :=
  Float.mul (Float.div (Qnat (count * estimated_tokens_per_response)) 1000)
            estimated_cost_per_1k_tokens.

(** [potential_cost], before it is rounded for storage. *)
Definition potential_cost (s : session) : Q := cost_of (total_queries s).

Definition cost_saved (s : session) : Q := cost_of (cache_hits s).

Definition actual_cost (s : session) : Q := cost_of (cache_misses s).

Definition avg (l : list Q) : Q :=
  match l with
  | [] => 0
  | _ => round (mean l) 2
  end.

(** [count / total * 100] on two [int]s and a float. *)
Definition percent (count total : nat) : Q :=
  Float.mul (Float.div (Qnat count) (Qnat total)) 100.

Definition derive (s : session) : derived :=
  let total := total_queries s in
  let hits := cache_hits s in
  let misses := cache_misses s in
  {| cache_hit_rate :=
       if Nat.ltb 0 total then round (percent hits total) 2 else 0;
     cache_miss_rate :=
       if Nat.ltb 0 total then round (percent misses total) 2 else 0;
     avg_response_time := avg (response_times s);
     avg_cache_hit_time := avg (cache_hit_times s);
     avg_generation_time := avg (generation_times s);
     estimated_tokens_saved := hits * estimated_tokens_per_response;
     estimated_cost_saved := round (cost_saved s) 4;
     potential_cost_without_caching := round (potential_cost s) 4;
     actual_cost_with_caching := round (actual_cost s) 4;
     cost_reduction_percentage :=
       round (if Qlt_le_dec 0 (potential_cost s)
              then Float.mul (Float.div (cost_saved s) (potential_cost s)) 100 else 0) 2 |}.

Definition set_derived (d : option derived) (s : session) : session :=
  {| start_time := start_time s; end_time := end_time s;
     total_queries := total_queries s; cache_hits := cache_hits s;
     cache_misses := cache_misses s; api_errors := api_errors s;
     response_times := response_times s; cache_hit_times := cache_hit_times s;
     generation_times := generation_times s;
     query_types := query_types s; query_log := query_log s;
     algolia_operations := algolia_operations s;
     errors := errors s; derived_metrics := d |}.

Definition calculate_derived_metrics (s : session) : session :=
  set_derived (Some (derive s)) s.

Definition set_end_time (now : string) (s : session) : session :=
  {| start_time := start_time s; end_time := Some now;
     total_queries := total_queries s; cache_hits := cache_hits s;
     cache_misses := cache_misses s; api_errors := api_errors s;
     response_times := response_times s; cache_hit_times := cache_hit_times s;
     generation_times := generation_times s;
     query_types := query_types s; query_log := query_log s;
     algolia_operations := algolia_operations s;
     errors := errors s; derived_metrics := derived_metrics s |}.

(** The per-type table update of [log_query]. *)
Definition bump_type (query_type : string) (is_cache_hit : bool)
    (m : gmap string type_stats) : gmap string type_stats :=
  let st := default (mkStats 0 0 0) (m !! query_type) in
  <[query_type :=
      mkStats (total st + 1)
              (if is_cache_hit then hits st + 1 else hits st)
              (if is_cache_hit then misses st else misses st + 1)]> m.

Definition log_query (now : string) (query : string) (is_cache_hit : bool)
    (response_time : Q) (query_type object_id : option string) (s : session) : session :=
  let entry :=
    {| qe_timestamp := now;
       qe_query := if Nat.ltb 100 (Py.len query) then Py.take 100 query +:+ "..." else query;
       qe_cache_hit := is_cache_hit;
       qe_response_time := response_time;
       qe_query_type := query_type;
       qe_object_id := object_id |} in
  {| start_time := start_time s; end_time := end_time s;
     total_queries := total_queries s + 1;
     cache_hits := if is_cache_hit then cache_hits s + 1 else cache_hits s;
     cache_misses := if is_cache_hit then cache_misses s else cache_misses s + 1;
     api_errors := api_errors s;
     response_times := response_times s ++ [response_time];
     cache_hit_times :=
       if is_cache_hit then cache_hit_times s ++ [response_time] else cache_hit_times s;
     generation_times :=
       if is_cache_hit then generation_times s else generation_times s ++ [response_time];
     query_types :=
       if Py.truthy query_type
       then bump_type (Py.fmt query_type) is_cache_hit (query_types s)
       else query_types s;
     query_log := query_log s ++ [entry];
     algolia_operations := algolia_operations s;
     errors := errors s; derived_metrics := derived_metrics s |}.

Definition log_error (now : string) (error_type details : option string) (s : session) : session :=
  let entry :=
    {| ee_timestamp := now;
       ee_type := error_type;
       ee_details :=
         if Py.truthy details then Some (Py.take 200 (Py.fmt details)) else None |} in
  {| start_time := start_time s; end_time := end_time s;
     total_queries := total_queries s; cache_hits := cache_hits s;
     cache_misses := cache_misses s;
     api_errors := api_errors s + 1;
     response_times := response_times s; cache_hit_times := cache_hit_times s;
     generation_times := generation_times s;
     query_types := query_types s; query_log := query_log s;
     algolia_operations := algolia_operations s;
     errors := Some (default [] (errors s) ++ [entry]);
     derived_metrics := derived_metrics s |}.

Definition _track_algolia_operation (operation_type : string) (count : nat)
    (s : session) : session :=
  let ops := algolia_operations s in
  let ops := match ops !! operation_type with
             | None => <[operation_type := 0]> ops
             | Some _ => ops
             end in
  let ops := <[operation_type := default 0 (ops !! operation_type) + count]> ops in
  let ops := <["total_operations" := default 0 (ops !! "total_operations") + count]> ops in
  {| start_time := start_time s; end_time := end_time s;
     total_queries := total_queries s; cache_hits := cache_hits s;
     cache_misses := cache_misses s; api_errors := api_errors s;
     response_times := response_times s; cache_hit_times := cache_hit_times s;
     generation_times := generation_times s;
     query_types := query_types s; query_log := query_log s;
     algolia_operations := ops;
     errors := errors s; derived_metrics := derived_metrics s |}.

End Session.

(** ** Similarity *)

(** [set(text.lower().split())] *)
Definition word_set (text : string) : gset string :=
  list_to_set (Py.split (Py.lower text)).

(** [_calculate_text_similarity]: the Jaccard index of the two word sets, as
    a rational in lowest terms; [0.0] when either set is empty. *)
Definition _calculate_text_similarity (text1 text2 : string) : Q :=
  let words1 := word_set text1 in
  let words2 := word_set text2 in
  if decide (words1 = ∅ ∨ words2 = ∅) then 0
  else
    let intersection := size (words1 ∩ words2) in
    let union := size (words1 ∪ words2) in
    Qred (Qnat intersection / Qnat union).

(** A record of the index [algolia_rag_responses].  The keys that the source
    reads with [.get] may be missing. *)
Record hit := mkHit {
  objectID : string;
  hit_query : option string;
  hit_response : option string;
  hit_conversationID : option string;
  hit_createdAt : option string }.

(** [s.split("user:")[-1].strip()] when the marker occurs, else [s]. *)
Definition user_part (s : string) : string :=
  if Py.contains "user:" s
  then Py.strip (Py.last_of (Py.split_on "user:" s))
  else s.

(** [hit.get('query', '').lower().strip()], then its user part. *)
Definition hit_user_query (h : hit) : string :=
  user_part (Py.strip (Py.lower (default "" (hit_query h)))).

Definition Qgtb (x y : Q) : bool := negb (Qle_bool x y).

(** The loop over the hits: [(best_match, best_score)] after each one. *)
Definition best_step (user_query_only : string) (acc : option hit * Q) (h : hit)
    : option hit * Q :=
  let similarity := _calculate_text_similarity user_query_only (hit_user_query h) in
  if Qgtb similarity (snd acc) then (Some h, similarity) else acc.

(** The fuzzy search of [find_previous_response]: the best hit above the
    threshold, if any. *)
Definition find_best_match (user_query_only : string) (hits : list hit) : option hit :=
  fst (fold_left (best_step user_query_only) hits (None, 7 # 10)).

(** [sorted(hits, key=createdAt, reverse=True)[0]]: the first hit among those
    with the greatest [createdAt]. *)
Definition createdAt_of (h : hit) : string := default "" (hit_createdAt h).

Definition newest (hits : list hit) : option hit :=
  match hits with
  | [] => None
  | h :: r =>
      Some (fold_left
              (fun best x => if String.ltb (createdAt_of best) (createdAt_of x) then x else best)
              r h)
  end.

(** ** The assistant and its environment *)

Inductive role := User | Assistant.

(** [role.capitalize()] *)
Definition role_label (r : role) : string :=
  match r with
  | User => "User"
  | Assistant => "Assistant"
  end.

Record message := mkMessage { msg_role : role; content : string }.

Inductive outcome (A : Type) :=
| Ok (a : A)
| Raise (msg : string).
Arguments Ok {A} a.
Arguments Raise {A} msg.

(** What [requests.post] followed by [raise_for_status] and [json] does. *)
Inductive http_outcome :=
| HttpOk (cached : bool) (response : option string)
      (* 2xx; the header [x-algolia-cached]; the key [response] of the body *)
| HttpError (status_code : option nat) (msg : string)
      (* a RequestException; the status of [e.response] when there is one *)
| OtherError (msg : string).
      (* any other exception *)

(** The body of a request to [generate/response]. *)
Record request := mkRequest {
  rq_query : string;
  rq_dataSourceID : option string;
  rq_promptID : option string;
  rq_useCache : bool;
  rq_objectID : string;
  rq_conversationID : option string;
  rq_attributesToRetrieve : list string;
  rq_additionalFilters : option string }.

Record stored := mkStored {
  st_objectID : string;
  st_query : string;
  st_response : string;
  st_dataSourceID : option string;
  st_promptID : option string;
  st_conversationID : option string;
  st_createdAt : string }.

(** The outside world, read at the [n]-th interaction. *)
Record env := mkEnv {
  iso_now : nat -> string;                 (* datetime.now().isoformat() *)
  time_now : nat -> Q;                     (* time.time() *)
  uuid8 : nat -> string;                   (* str(uuid.uuid4())[:8] *)
  select_prompt : nat -> string -> option string -> outcome (option string);
  get_object : nat -> string -> string -> outcome hit;
  search : nat -> string -> string -> nat -> option string -> outcome (list hit);
  post : nat -> request -> http_outcome;
  save_object : nat -> stored -> outcome unit;
  write_file : nat -> bool;                (* whether writing the metrics file succeeds *)
  file_opened : nat -> bool }.             (* when it fails: whether [open] had emptied the file *)

(** The attributes of the assistant, and the trace of its effects. *)
Record state := mkState {
  conversation_id : option string;
  conversation_history : list message;
  current_session : session;
  all_sessions : list session;
  data_sources : gmap string string;
  prompts : gmap string string;
  clock : nat;                             (* interactions so far *)
  metrics_file : option (list session);    (* the sessions in the file, if it holds a document *)
  slept : list Z;                          (* arguments of time.sleep *)
  posted : list request;                   (* requests sent *)
  saved : list stored }.                   (* objects written to the index *)

Definition M (A : Type) : Type := state -> A * state.

Definition ret {A} (a : A) : M A := fun s => (a, s).
Definition bind {A B} (c : M A) (k : A -> M B) : M B :=
  fun s => let '(a, s') := c s in k a s'.
Definition gets {A} (f : state -> A) : M A := fun s => (f s, s).
Definition modify (f : state -> state) : M unit := fun s => (tt, f s).

Notation "x <- c ;; k" := (bind c (fun x => k))
  (at level 100, c at next level, right associativity).
Notation "c ;;; k" := (bind c (fun _ => k))
  (at level 100, right associativity).

Definition with_session (f : session -> session) (s : state) : state :=
  {| conversation_id := conversation_id s;
     conversation_history := conversation_history s;
     current_session := f (current_session s);
     all_sessions := all_sessions s;
     data_sources := data_sources s; prompts := prompts s;
     clock := clock s; metrics_file := metrics_file s;
     slept := slept s; posted := posted s; saved := saved s |}.

Definition with_conversation (c : option string) (h : list message) (s : state) : state :=
  {| conversation_id := c;
     conversation_history := h;
     current_session := current_session s;
     all_sessions := all_sessions s;
     data_sources := data_sources s; prompts := prompts s;
     clock := clock s; metrics_file := metrics_file s;
     slept := slept s; posted := posted s; saved := saved s |}.

Definition with_world (k : nat) (f : option (list session)) (sl : list Z)
    (p : list request) (sv : list stored) (s : state) : state :=
  {| conversation_id := conversation_id s;
     conversation_history := conversation_history s;
     current_session := current_session s;
     all_sessions := all_sessions s;
     data_sources := data_sources s; prompts := prompts s;
     clock := k; metrics_file := f; slept := sl; posted := p; saved := sv |}.

(** One interaction with the outside: read the oracle, advance the clock. *)
Definition ask {A} (oracle : nat -> A) : M A :=
  fun s => (oracle (clock s),
            with_world (S (clock s)) (metrics_file s) (slept s) (posted s) (saved s) s).

Definition sleep (seconds : Z) : M unit :=
  modify (fun s => with_world (clock s) (metrics_file s) (slept s ++ [seconds])
                              (posted s) (saved s) s).

Definition set_conversation_id (c : option string) : M unit :=
  modify (fun s => with_conversation c (conversation_history s) s).

Definition append_history (msgs : list message) : M unit :=
  modify (fun s => with_conversation (conversation_id s) (conversation_history s ++ msgs) s).

(** ** Metrics operations of the assistant *)

Section Assistant.

Variable E : env.

Definition log_query (query : string) (is_cache_hit : bool) (response_time : Q)
    (query_type object_id : option string) : M unit :=
  now <- ask (iso_now E) ;;
  modify (with_session
            (Session.log_query now query is_cache_hit response_time query_type object_id)).

Definition log_error (error_type details : option string) : M unit :=
  now <- ask (iso_now E) ;;
  modify (with_session (Session.log_error now error_type details)).

Definition calculate_derived_metrics : M unit :=
  modify (with_session Session.calculate_derived_metrics).

(** [save_metrics]: the file receives the sessions loaded at start-up and the
    current one; a failed write is reported and otherwise ignored.  The file
    is opened with mode ['w'], which empties it, before anything is written:
    a write that fails after that leaves no document in the file. *)
Definition save_metrics : M unit :=
  now <- ask (iso_now E) ;;
  modify (with_session (Session.set_end_time now)) ;;;
  calculate_derived_metrics ;;;
  last_updated <- ask (iso_now E) ;;
  outcome <- ask (fun n => (write_file E n, file_opened E n)) ;;
  match outcome with
  | (true, _) =>
      modify (fun s => with_world (clock s)
                         (Some (all_sessions s ++ [current_session s]))
                         (slept s) (posted s) (saved s) s)
  | (false, true) =>
      modify (fun s => with_world (clock s) None (slept s) (posted s) (saved s) s)
  | (false, false) => ret tt
  end.

Definition reset_metrics : M unit :=
  save_metrics ;;;
  now <- ask (iso_now E) ;;
  modify (with_session (fun _ => new_session now)).

(** The wrappers that count the operations on the index. *)
Definition search_index (index_name query : string) (hitsPerPage : nat)
    (filters : option string) : M (outcome (list hit)) :=
  modify (with_session (Session._track_algolia_operation "search_operations" 1)) ;;;
  ask (fun n => search E n index_name query hitsPerPage filters).

Definition get_object_op (index_name object_id : string) : M (outcome hit) :=
  modify (with_session (Session._track_algolia_operation "get_operations" 1)) ;;;
  ask (fun n => get_object E n index_name object_id).

(** ** Cache lookup *)

Definition find_previous_response (query : string) (data_source_id prompt_id : option string)
    : M (option hit) :=
  let normalized_query := Py.strip (Py.lower query) in
  let user_query_only := user_part normalized_query in
  let query_essence := _get_query_essence query in
  conv <- gets conversation_id ;;
  let object_id := _generate_stable_id conv query_essence data_source_id prompt_id in
  direct_result <- get_object_op "algolia_rag_responses" object_id ;;
  match direct_result with
  | Ok h => ret (Some h)
  | Raise _ =>
      results <- search_index "algolia_rag_responses" user_query_only 10
                   (Some ("dataSourceID:" +:+ Py.fmt data_source_id)) ;;
      match results with
      | Raise _ => ret None
      | Ok hits =>
          match find_best_match user_query_only hits with
          | Some best_match => ret (Some best_match)
          | None =>
              if _is_food_pairing_query normalized_query then
                match _extract_food_items normalized_query with
                | [] => ret None
                | food_keywords =>
                    food_results <- search_index "algolia_rag_responses"
                                      (Py.join " " food_keywords) 5
                                      (Some ("dataSourceID:" +:+ Py.fmt data_source_id)) ;;
                    match food_results with
                    | Raise _ => ret None
                    | Ok food_hits => ret (newest food_hits)
                    end
                end
              else ret None
          end
      end
  end.

(** ** Prompt type, data source and conversation context *)

Definition has_prompt (s : state) (k : string) : bool :=
  bool_decide (is_Some (prompts s !! k)).

(** The content of the most recent assistant message, lower-cased. *)
Definition last_assistant (history : list message) : option string :=
  match List.filter (fun m => match msg_role m with Assistant => true | User => false end)
               (rev history) with
  | m :: _ => Some (Py.lower (content m))
  | [] => None
  end.

Definition _infer_prompt_type_from_query (s : state) (query : string) : option string :=
  let query_lower := Py.lower query in
  match conversation_history s with
  | [] => None
  | _ =>
    if Py.any_in ["pair"; "go with"; "serve with"; "dish"; "meal"; "food"] query_lower
       && has_prompt s "food_pairing" then Some "food_pairing"
    else if Py.any_in ["recommend"; "suggest"; "alternative"; "similar"; "prefer"] query_lower
            && has_prompt s "recommendations" then Some "recommendations"
    else if Py.any_in ["taste"; "flavor"; "aroma"; "smell"; "drink"; "palate"] query_lower
            && has_prompt s "tasting" then Some "tasting"
    else if Nat.leb 2 (List.length (conversation_history s)) then
      match last_assistant (conversation_history s) with
      | Some (String _ _ as last_assistant_msg) =>
          if Py.any_in ["recommend"; "suggest"; "try this"; "excellent choice"] last_assistant_msg
             && has_prompt s "recommendations" then Some "recommendations"
          else if Py.any_in ["pair"; "complement"; "go well with"; "match"] last_assistant_msg
                  && has_prompt s "food_pairing" then Some "food_pairing"
          else if Py.any_in ["taste"; "flavor"; "palate"; "aroma"; "bouquet"] last_assistant_msg
                  && has_prompt s "tasting" then Some "tasting"
          else None
      | _ => None
      end
    else None
  end.

Definition _select_data_source (s : state) (query : string) : option string :=
  let query_lower := Py.lower query in
  let has k := bool_decide (is_Some (data_sources s !! k)) in
  if Py.contains "red" query_lower && has "red_wines" then data_sources s !! "red_wines"
  else if Py.contains "white" query_lower && has "white_wines" then data_sources s !! "white_wines"
  else if Py.any_in ["sparkling"; "champagne"; "prosecco"; "bubbly"] query_lower
          && has "sparkling_wines" then data_sources s !! "sparkling_wines"
  else if Py.any_in ["rosé"; "rose"] query_lower && has "rose_wines"
  then data_sources s !! "rose_wines"
  else if Py.any_in ["premium"; "expensive"; "high quality"; "best"] query_lower
          && has "premium_wines" then data_sources s !! "premium_wines"
  else data_sources s !! "all_wines".

Definition nl : string := String (ascii_of_nat 10) EmptyString.

Definition context_line (msg : message) : string :=
  let content := content msg in
  let content := if Nat.ltb 100 (Py.len content) then Py.take 97 content +:+ "..." else content in
  nl +:+ role_label (msg_role msg) +:+ ": " +:+ content.

(** [l[-2:] if len(l) >= 2 else l] *)
Definition recent_messages (history : list message) : list message :=
  if Nat.leb 2 (List.length history)
  then skipn (List.length history - 2) history
  else history.

Definition _build_conversation_context (history : list message) : string :=
  match history with
  | [] => "You are a knowledgeable sommelier AI assistant. This is the start of a new conversation."
  | _ =>
      let context :=
        fold_left (fun context msg => context +:+ context_line msg)
                  (recent_messages history)
                  "You are a knowledgeable sommelier AI assistant. Continue the conversation naturally." in
      if Nat.ltb 450 (Py.byte_len context)
      then "You are a knowledgeable sommelier AI assistant. Continue the conversation naturally based on previous messages about wine."
      else context
  end.

(** The truncation of the query in [process_query]. *)
Definition truncate_query (query : string) : string :=
  if Nat.ltb 450 (Py.len query) then Py.take 450 query +:+ "..." else query.

(** The value of [full_query] that [process_query] hands to
    [generate_response], for the already truncated query. *)
Definition full_query_of (history : list message) (query : string) : string :=
  let context := _build_conversation_context history in
  let full_query := context +:+ nl +:+ nl +:+ "User: " +:+ query in
  if Nat.ltb 512 (Py.byte_len full_query) then "User: " +:+ query else full_query.

(** ** Generation with retries *)

Definition _determine_attributes (query : string) : list string :=
  let normalized := Py.lower query in
  ["name"; "winery_name"; "year"; "country_name"; "region_name"; "type_name"; "grape_names"]
  ++ (if Py.contains "pair" normalized || Py.contains "food" normalized
      then ["ai_food_pairings"; "ai_taste_profile"] else [])
  ++ (if Py.contains "taste" normalized || Py.contains "flavor" normalized
      then ["ai_taste_profile"; "ai_primary_tastes"; "ai_secondary_tastes"; "ai_tertiary_tastes"]
      else [])
  ++ (if Py.contains "quality" normalized || Py.contains "rating" normalized
      then ["average_rating"; "ai_quality_score"; "ai_quality_assessment"] else [])
  ++ (if Py.contains "price" normalized || Py.contains "value" normalized
         || Py.contains "cost" normalized
      then ["price"; "price_range"; "ai_price_tier"; "ai_value_rating"] else []).

(** The filter on food tags added to the request of a food-pairing query. *)
Definition food_filter (query : string) : option string :=
  if _is_food_pairing_query query then
    match Py.join " OR "
            (map (fun item => "_tags:" +:+ item)
                 (List.filter (fun item => negb (String.eqb (Py.strip item) ""))
                              (_extract_food_items query))) with
    | EmptyString => None
    | f => Some f
    end
  else None.

(** The dict that [generate_response] returns; it always has the key
    [conversationID], so it is never an empty (falsy) dict. *)
Record response_data := mkResponseData {
  rd_response : option string;
  rd_conversationID : option string }.

(** [str(n)] *)
Definition str_nat (n : nat) : string := NilEmpty.string_of_uint (Nat.to_uint n).

(** [e.response.status_code == 429], false when the exception carries no
    response. *)
Definition is_rate_limit (status_code : option nat) : bool :=
  match status_code with
  | Some code => Nat.eqb code 429
  | None => false
  end.

Definition max_retries : nat := 3.
Definition base_retry_delay : Z := 2.

(** The loop [for attempt in range(max_retries)], with [remaining] attempts
    left, and the statements after it. *)
Fixpoint attempts (remaining attempt : nat) (retry_delay : Z) (data : request)
    : M response_data :=
  match remaining with
  | O =>
      conv <- gets conversation_id ;;
      ret (mkResponseData
             (Some "I apologize, but I couldn't generate a response after multiple attempts. Please try again later.")
             conv)
  | S remaining' =>
      modify (fun s => with_world (clock s) (metrics_file s) (slept s)
                                  (posted s ++ [data]) (saved s) s) ;;;
      result <- ask (fun n => post E n data) ;;
      match result with
      | HttpOk cached response =>
          conv <- gets conversation_id ;;
          (if negb cached && negb (Py.truthy conv) then
             sleep 1 ;;;
             _ <- ask (fun n => get_object E n "algolia_rag_responses" (rq_objectID data)) ;;
             ret tt
           else ret tt) ;;;
          match cached, response with
          | false, Some text =>
              now <- ask (iso_now E) ;;
              let corrected_object :=
                mkStored (rq_objectID data) (rq_query data) text
                         (rq_dataSourceID data) (rq_promptID data) conv now in
              written <- ask (fun n => save_object E n corrected_object) ;;
              match written with
              | Ok _ =>
                  modify (fun s => with_world (clock s) (metrics_file s) (slept s) (posted s)
                                     (saved s ++ [corrected_object]) s)
              | Raise _ => ret tt
              end
          | _, _ => ret tt
          end ;;;
          ret (mkResponseData response conv)
      | HttpError status_code msg =>
          log_error (Some "API Error")
                    (Some ("Attempt " +:+ str_nat (attempt + 1) +:+ ": " +:+ msg)) ;;;
          if is_rate_limit status_code then
            sleep retry_delay ;;;
            attempts remaining' (attempt + 1) (retry_delay * 2) data
          else
            conv <- gets conversation_id ;;
            ret (mkResponseData
                   (Some "I encountered an error while processing your request. Please try again.")
                   conv)
      | OtherError msg =>
          log_error (Some "General Error")
                    (Some ("Attempt " +:+ str_nat (attempt + 1) +:+ ": " +:+ msg)) ;;;
          sleep retry_delay ;;;
          attempts remaining' (attempt + 1) (retry_delay * 2) data
      end
  end.

Definition generate_response (query : string) (data_source_id prompt_id object_id : option string)
    : M response_data :=
  conv <- gets conversation_id ;;
  (if Py.truthy conv then ret tt
   else u <- ask (uuid8 E) ;; set_conversation_id (Some ("conv-" +:+ u))) ;;;
  conv <- gets conversation_id ;;
  let query_essence := _get_query_essence query in
  let object_id :=
    if Py.truthy object_id then Py.fmt object_id
    else _generate_stable_id conv query_essence data_source_id prompt_id in
  let data :=
    {| rq_query := query;
       rq_dataSourceID := data_source_id;
       rq_promptID := prompt_id;
       rq_useCache := negb (Py.truthy conv);
       rq_objectID := object_id;
       rq_conversationID := conv;
       rq_attributesToRetrieve := _determine_attributes query;
       rq_additionalFilters := food_filter query |} in
  attempts max_retries 0 base_retry_delay data.

(** ** The orchestrator *)

Record reply := mkReply {
  reply_response : string;
  reply_conversationID : option string }.

(** [prompt_type or "auto"] *)
Definition or_auto (prompt_type : option string) : option string :=
  if Py.truthy prompt_type then prompt_type else Some "auto".

(** The wording chosen by the [except] clause of [process_query]. *)
Definition error_reply (error_message : string) : string :=
  if Py.contains "filters:" error_message then
    "I'm having trouble understanding the context of your follow-up question. Could you please provide more details about what you're asking about specifically?"
  else if Py.contains "rate limit" (Py.lower error_message) then
    "I'm currently experiencing high demand. Please try again in a moment."
  else if Py.contains "timeout" (Py.lower error_message) then
    "It's taking longer than expected to process your request. Could you try asking in a simpler way?"
  else
    "I encountered an issue while processing your question. Could you try rephrasing or asking a new question?".

(** [process_query].  Inside its [try], [_select_prompt] is the one call that
    can raise: the cache lookup and the generation catch their own
    exceptions. *)
Definition process_query (query : string) (prompt_type conversation_id_arg : option string)
    : M reply :=
  start_time <- ask (time_now E) ;;
  (if Py.truthy conversation_id_arg then set_conversation_id conversation_id_arg else ret tt) ;;;
  s <- gets (fun s => s) ;;
  let prompt_type :=
    if Py.truthy (conversation_id s) && negb (Py.truthy prompt_type)
    then _infer_prompt_type_from_query s query else prompt_type in
  selected <- ask (fun n => select_prompt E n query prompt_type) ;;
  match selected with
  | Raise error_message =>
      log_error (Some "Query Processing Error") (Some error_message) ;;;
      end_time <- ask (time_now E) ;;
      log_query query false (Float.sub end_time start_time) (or_auto prompt_type) None ;;;
      conv <- gets conversation_id ;;
      ret (mkReply (error_reply error_message) conv)
  | Ok prompt_id =>
      let data_source_id := _select_data_source s query in
      let query := truncate_query query in
      let full_query := full_query_of (conversation_history s) query in
      let query_essence := _get_query_essence query in
      let object_id := _generate_stable_id (conversation_id s) query_essence data_source_id prompt_id in
      previous_response <- find_previous_response query data_source_id prompt_id ;;
      match previous_response with
      | Some previous =>
          let response_text := default "" (hit_response previous) in
          conv <- gets conversation_id ;;
          (match hit_conversationID previous with
           | Some c => if Py.truthy conv then ret tt else set_conversation_id (Some c)
           | None => ret tt
           end) ;;;
          append_history [mkMessage User query; mkMessage Assistant response_text] ;;;
          end_time <- ask (time_now E) ;;
          log_query query true (Float.sub end_time start_time) (or_auto prompt_type) (Some object_id) ;;;
          conv <- gets conversation_id ;;
          ret (mkReply response_text conv)
      | None =>
          response_data <- generate_response full_query data_source_id prompt_id (Some object_id) ;;
          let response_text := default "" (rd_response response_data) in
          (if Py.truthy (rd_conversationID response_data)
           then set_conversation_id (rd_conversationID response_data) else ret tt) ;;;
          append_history [mkMessage User query; mkMessage Assistant response_text] ;;;
          end_time <- ask (time_now E) ;;
          log_query query false (Float.sub end_time start_time) (or_auto prompt_type) (Some object_id) ;;;
          conv <- gets conversation_id ;;
          ret (mkReply response_text conv)
      end
  end.

End Assistant.

(** ** Vocabulary of the statements *)

(** A lower-case hexadecimal digit, and a string made of them. *)
Definition is_hex (c : ascii) : bool := Py.mem_char c "0123456789abcdef".

Definition all_hex (s : string) : bool := forallb is_hex (list_ascii_of_string s).

(** Two texts that differ at most in the case of their letters. *)
Definition same_up_to_case (q q' : string) : Prop :=
  Forall2 (fun c c' => Py.lower_char c = Py.lower_char c')
          (list_ascii_of_string q) (list_ascii_of_string q').

(** A conversation id as [_generate_stable_id] tells them apart: the empty
    string counts as no conversation. *)
Definition conv_norm (c : option string) : option string :=
  if Py.truthy c then c else None.

(** The conversation ids ["a"], ["aa"], ["aaa"], ... *)
Fixpoint a_run (n : nat) : string :=
  match n with
  | O => "a"
  | S k => String "a" (a_run k)
  end.

(** The 128 bits of an MD5 state as one number. *)
Definition state_code (st : MD5.state) : Z :=
  (MD5.sA st + 2 ^ 32 * MD5.sB st + 2 ^ 64 * MD5.sC st + 2 ^ 96 * MD5.sD st)%Z.

Definition word_ok (x : Z) : Prop := (0 <= x < 2 ^ 32)%Z.

Definition state_ok (st : MD5.state) : Prop :=
  word_ok (MD5.sA st) /\ word_ok (MD5.sB st) /\ word_ok (MD5.sC st) /\ word_ok (MD5.sD st).

(** The similarity of a stored hit to the user's query, as the search
    computes it. *)
Definition score (user_query_only : string) (h : hit) : Q :=
  _calculate_text_similarity user_query_only (hit_user_query h).

(** The threshold [best_score = 0.7]. *)
Definition threshold : Q := 7 # 10.

(** The relations between the counters and the latency lists. *)
Definition session_ok (m : session) : Prop :=
  total_queries m = cache_hits m + cache_misses m
  /\ List.length (response_times m) = total_queries m
  /\ List.length (cache_hit_times m) = cache_hits m
  /\ List.length (generation_times m) = cache_misses m.

(** A computation that keeps [session_ok]. *)
Definition keeps {A : Type} (c : M A) : Prop :=
  forall s, session_ok (current_session s) -> session_ok (current_session (snd (c s))).

(** The states of the assistant: a new session, then any sequence of the
    operations that touch the metrics. *)
Inductive reachable (E : env) : state -> Prop :=
| reach_new (s : state) (now : string) :
    current_session s = new_session now -> reachable E s
| reach_log_query (s : state) query is_cache_hit response_time query_type object_id :
    reachable E s ->
    reachable E (snd (log_query E query is_cache_hit response_time query_type object_id s))
| reach_log_error (s : state) error_type details :
    reachable E s -> reachable E (snd (log_error E error_type details s))
| reach_reset_metrics (s : state) :
    reachable E s -> reachable E (snd (reset_metrics E s))
| reach_calculate_derived_metrics (s : state) :
    reachable E s -> reachable E (snd (calculate_derived_metrics s))
| reach_save_metrics (s : state) :
    reachable E s -> reachable E (snd (save_metrics E s))
| reach_search_index (s : state) index_name query hitsPerPage filters :
    reachable E s -> reachable E (snd (search_index E index_name query hitsPerPage filters s))
| reach_get_object (s : state) index_name object_id :
    reachable E s -> reachable E (snd (get_object_op E index_name object_id s))
| reach_process_query (s : state) query prompt_type conversation_id_arg :
    reachable E s -> reachable E (snd (process_query E query prompt_type conversation_id_arg s)).

(** An environment in which the index holds nothing and the generation
    endpoint gives every request the same outcome. *)
Definition fixed_env (answer : http_outcome) : env :=
  {| iso_now := fun n => "2025-03-01T12:00:" +:+ str_nat (10 + n);
     time_now := fun n => Qnat n;
     uuid8 := fun _ => "1a2b3c4d";
     select_prompt := fun _ _ _ => Ok (Some "prompt-sommelier");
     get_object := fun _ _ _ => Raise "ObjectID does not exist";
     search := fun _ _ _ _ _ => Ok [];
     post := fun _ _ => answer;
     save_object := fun _ _ => Ok tt;
     write_file := fun _ => true;
     file_opened := fun _ => true |}.

Definition rate_limited : http_outcome :=
  HttpError (Some 429) "429 Client Error: Too Many Requests".

(** The assistant right after start-up. *)
Definition start_state : state :=
  {| conversation_id := None;
     conversation_history := [];
     current_session := new_session "2025-03-01T12:00:00";
     all_sessions := [];
     data_sources := {[ "all_wines" := "ds-all" ]};
     prompts := {[ "sommelier" := "prompt-sommelier" ]};
     clock := 0; metrics_file := None; slept := []; posted := []; saved := [] |}.

(** [s * n] *)
Fixpoint times (n : nat) (s : string) : string :=
  match n with
  | O => ""
  | S k => s +:+ times k s
  end.

(** A text of ASCII characters only. *)
Definition is_ascii (s : string) : bool :=
  forallb (fun c => Nat.ltb (Py.code c) 128) (list_ascii_of_string s).

(** The delays of [n] consecutive retries starting from [delay]. *)
Fixpoint backoff (n : nat) (delay : Z) : list Z :=
  match n with
  | O => []
  | S k => delay :: backoff k (delay * 2)
  end.

Definition apology_after_retries : string :=
  "I apologize, but I couldn't generate a response after multiple attempts. Please try again later.".

Definition apology_request_error : string :=
  "I encountered an error while processing your request. Please try again.".

Definition high_demand : string :=
  "I'm currently experiencing high demand. Please try again in a moment.".

(** What a computation leaves alone when it changes neither the
    conversation nor the query counters. *)
Definition same_conversation (s s' : state) : Prop :=
  conversation_id s' = conversation_id s
  /\ conversation_history s' = conversation_history s.

Definition same_counters (s s' : state) : Prop :=
  total_queries (current_session s') = total_queries (current_session s)
  /\ cache_hits (current_session s') = cache_hits (current_session s)
  /\ cache_misses (current_session s') = cache_misses (current_session s).

Definition same_trace (s s' : state) : Prop :=
  slept s' = slept s /\ posted s' = posted s
  /\ api_errors (current_session s') = api_errors (current_session s).

(** [wp c Q s]: running [c] from [s] gives a result and a state that
    satisfy [Q]. *)
Definition wp {A : Type} (c : M A) (Q : A -> state -> Prop) (s : state) : Prop :=
  Q (fst (c s)) (snd (c s)).

(** What the loop has established after the hits [seen]. *)
Definition best_inv (q : string) (seen : list hit) (acc : option hit * Q) : Prop :=
  match fst acc with
  | None =>
      snd acc = threshold /\ Forall (fun x => (score q x <= threshold)%Q) seen
  | Some h =>
      snd acc = score q h /\ (threshold < score q h)%Q
      /\ exists before after,
           seen = before ++ h :: after
           /\ Forall (fun x => (score q x < score q h)%Q) before
           /\ Forall (fun x => (score q x <= score q h)%Q) after
  end.

(** The last character of a string, if any. *)
Fixpoint last_char (s : string) : option ascii :=
  match s with
  | EmptyString => None
  | String c EmptyString => Some c
  | String _ r => last_char r
  end.

(** A food item fit for a search or a tag filter: not blank, not a bare
    pronoun, and not ending in one of the characters [.,?!:;]. *)
Definition valid_food (food : string) : Prop :=
  Py.strip food <> ""
  /\ Py.mem (Py.strip food) pronouns = false
  /\ match last_char food with
     | Some c => Py.mem_char c ".,?!:;" = false
     | None => True
     end.

(** A word as [str.split()] yields them: not empty, no white space. *)
Definition is_word (w : string) : bool :=
  match w with
  | EmptyString => false
  | _ => forallb (fun c => negb (Py.isspace c)) (list_ascii_of_string w)
  end.

(** A string of white space only. *)
Definition all_space (p : string) : bool :=
  forallb Py.isspace (list_ascii_of_string p).

(** A word that [_extract_key_terms] may select from [query]: the lower-case
    form of one of its words, not a stopword, longer than two characters. *)
Definition key_term_of (query w : string) : Prop :=
  Py.mem w stopwords = false
  /\ 2 < Py.len w
  /\ exists word, In word (Py.split query) /\ w = Py.lower word.

(** A string that does not begin with white space. *)
Definition starts_clean (s : string) : Prop :=
  match s with
  | EmptyString => True
  | String c _ => Py.isspace c = false
  end.

(** A computation that keeps a property [I] of the session. *)
Definition holds (I : session -> Prop) {A : Type} (c : M A) : Prop :=
  forall s, I (current_session s) -> I (current_session (snd (c s))).

(** A counter of [algolia_operations]; a missing key counts as 0. *)
Definition op_count (k : string) (m : session) : nat :=
  default 0 (algolia_operations m !! k).

(** The hit rate shown per query type by [print_metrics_summary] and by the
    metrics route: [round(hits / total * 100, 2) if total > 0 else 0]. *)
Definition type_hit_rate (st : type_stats) : Q :=
  if Nat.ltb 0 (total st) then round (Session.percent (hits st) (total st)) 2 else 0.

(** What the query log and the error list of a session satisfy. *)
Definition logs_ok (m : session) : Prop :=
  List.length (query_log m) = total_queries m
  /\ Forall (fun e => Py.len (qe_query e) <= 103) (query_log m)
  /\ List.length (default [] (errors m)) = api_errors m.

Definition type_ok (total_queries : nat) (st : type_stats) : Prop :=
  total st = hits st + misses st /\ 0 < total st <= total_queries.

Definition types_ok (m : session) : Prop :=
  forall k st, query_types m !! k = Some st -> type_ok (total_queries m) st.

Definition ops_ok (m : session) : Prop :=
  op_count "total_operations" m
  = op_count "search_operations" m + op_count "get_operations" m
    + op_count "browse_operations" m + op_count "save_operations" m
    + op_count "update_operations" m + op_count "delete_operations" m.

(** What a cache lookup leaves alone: everything but the clock and the
    operation counters. *)
Definition only_index_reads (s s' : state) : Prop :=
  same_conversation s s' /\ same_counters s s' /\ same_trace s s'
  /\ saved s' = saved s /\ metrics_file s' = metrics_file s
  /\ query_log (current_session s') = query_log (current_session s).

(** An object that the index [algolia_rag_responses] returned, by id or in
    the hits of a search. *)
Definition from_index (E : env) (h : hit) : Prop :=
  (exists n o, get_object E n "algolia_rag_responses" o = Ok h)
  \/ (exists n q k f hits, search E n "algolia_rag_responses" q k f = Ok hits /\ In h hits).

(** A non-empty run of the digits 0 to 9. *)
Definition is_number (s : string) : Prop :=
  s <> "" /\ forallb Re.isdigit (list_ascii_of_string s) = true.

(** The rational that a finite hardware double denotes, and the double of a
    small integer: used to compare [Float] with the hardware. *)
Definition Q_of_float (f : float) : Q :=
  match Prim2SF f with
  | S754_finite s m e => Qred ((if s then -1 else 1) * inject_Z (Zpos m) * 2 ^ e)%Q
  | _ => 0%Q
  end.

Definition float_of_Z (z : Z) : float := PrimFloat.of_uint63 (Uint63.of_Z z).

(** * Properties *)

#[local] Arguments String.append !_ _ / : simpl nomatch.

(** ** MD5: test vectors and the shape of a digest *)

Example md5_empty : MD5.hexdigest "" = "d41d8cd98f00b204e9800998ecf8427e".
Proof. vm_compute. reflexivity. Qed.

Example md5_abc : MD5.hexdigest "abc" = "900150983cd24fb0d6963f7d28e17f72".
Proof. vm_compute. reflexivity. Qed.

Example md5_two_blocks :
  MD5.hexdigest
    "12345678901234567890123456789012345678901234567890123456789012345678901234567890"
  = "57edf4a22be3c955ac49da2e2107b67a".
Proof. vm_compute. reflexivity. Qed.

Lemma le_bytes_range (n : nat) (x : Z) :
  Forall (fun b => (0 <= b < 256)%Z) (MD5.le_bytes n x).
Proof.
  unfold MD5.le_bytes. apply List.Forall_forall. intros b Hb.
  apply List.in_map_iff in Hb. destruct Hb as (k & <- & _).
  apply Z.mod_pos_bound. lia.
Qed.

Lemma state_bytes_range (st : MD5.state) :
  Forall (fun b => (0 <= b < 256)%Z) (MD5.state_bytes st).
Proof.
  unfold MD5.state_bytes. repeat (apply Forall_app; split); apply le_bytes_range.
Qed.

Lemma state_bytes_length (st : MD5.state) : List.length (MD5.state_bytes st) = 16.
Proof. reflexivity. Qed.

Lemma hex_digit_is_hex (d : Z) : (0 <= d < 16)%Z -> is_hex (MD5.hex_digit d) = true.
Proof.
  intros H.
  assert (Hd : In d (map Z.of_nat (seq 0 16))).
  { apply List.in_map_iff. exists (Z.to_nat d). split; [lia | apply in_seq; lia]. }
  cbn in Hd. intuition (subst; reflexivity).
Qed.

Lemma hex_shape (bs : list Z) :
  Forall (fun b => (0 <= b < 256)%Z) bs ->
  String.length (MD5.hex bs) = 2 * List.length bs /\ all_hex (MD5.hex bs) = true.
Proof.
  induction 1 as [| b r Hb _ [IHlen IHhex]]; [split; reflexivity |].
  split.
  - cbn [MD5.hex]. unfold MD5.hex_byte. simpl. lia.
  - cbn [MD5.hex]. unfold MD5.hex_byte, all_hex in *. simpl.
    rewrite !hex_digit_is_hex, IHhex; [reflexivity | |].
    + apply Z.mod_pos_bound. lia.
    + split; [apply Z.div_pos; lia | apply Z.div_lt_upper_bound; lia].
Qed.

Lemma hexdigest_shape (s : string) :
  String.length (MD5.hexdigest s) = 32 /\ all_hex (MD5.hexdigest s) = true.
Proof.
  unfold MD5.hexdigest.
  destruct (hex_shape _ (state_bytes_range (MD5.digest_state (MD5.bytes_of s)))) as [Hl Hh].
  rewrite state_bytes_length in Hl. split; [exact Hl | exact Hh].
Qed.

(** ** Strings *)

Lemma append_inv_head (p a b : string) : p +:+ a = p +:+ b -> a = b.
Proof.
  induction p as [| c p IH]; simpl; intros H; [exact H |].
  injection H as H. auto.
Qed.

Lemma lower_same_up_to_case (q q' : string) :
  same_up_to_case q q' -> Py.lower q = Py.lower q'.
Proof.
  unfold same_up_to_case. revert q'.
  induction q as [| c q IH]; intros [| c' q'] H; simpl in *; inversion H; subst.
  - reflexivity.
  - f_equal; auto.
Qed.

Lemma a_run_length (n : nat) : String.length (a_run n) = S n.
Proof. induction n; simpl; congruence. Qed.

Lemma a_run_inj (i j : nat) : a_run i = a_run j -> i = j.
Proof.
  intros H. apply (f_equal String.length) in H. rewrite !a_run_length in H. lia.
Qed.

Lemma a_run_truthy (n : nat) : Py.truthy (Some (a_run n)) = true.
Proof. destruct n; reflexivity. Qed.

(** ** Counting *)

Lemma pigeonhole (N : nat) (f : nat -> nat) :
  (forall i, i <= N -> f i < N) -> exists i j, i < j <= N /\ f i = f j.
Proof.
  revert f. induction N as [| n IH]; intros f Hf.
  - specialize (Hf 0 (le_n 0)). lia.
  - destruct (existsb (fun i => Nat.eqb (f i) (f (S n))) (seq 0 (S n))) eqn:Hex.
    + apply existsb_exists in Hex. destruct Hex as (i & Hi & Heq).
      apply List.in_seq in Hi. apply Nat.eqb_eq in Heq.
      exists i, (S n). lia.
    + assert (Hne : forall i, i <= n -> f i <> f (S n)).
      { intros i Hi Heq.
        assert (Ht : existsb (fun i => Nat.eqb (f i) (f (S n))) (seq 0 (S n)) = true).
        { apply existsb_exists. exists i. split.
          - apply List.in_seq. lia.
          - apply Nat.eqb_eq. exact Heq. }
        congruence. }
      set (g := fun i => if Nat.ltb (f i) (f (S n)) then f i else f i - 1).
      destruct (IH g) as (i & j & Hij & Hg).
      { intros i Hi. unfold g.
        pose proof (Hf i ltac:(lia)). pose proof (Hf (S n) ltac:(lia)).
        pose proof (Hne i Hi).
        destruct (Nat.ltb_spec (f i) (f (S n))); lia. }
      exists i, j. split; [lia |]. unfold g in Hg.
      pose proof (Hne i ltac:(lia)). pose proof (Hne j ltac:(lia)).
      destruct (Nat.ltb_spec (f i) (f (S n))); destruct (Nat.ltb_spec (f j) (f (S n))); lia.
Qed.

Lemma no_injection_into_range (B : Z) (g : nat -> Z) :
  (forall n, (0 <= g n < B)%Z) -> exists i j, i <> j /\ g i = g j.
Proof.
  intros Hg.
  destruct (pigeonhole (Z.to_nat B) (fun n => Z.to_nat (g n))) as (i & j & Hij & Heq).
  - intros i _. specialize (Hg i). lia.
  - exists i, j. split; [lia |].
    pose proof (Hg i). pose proof (Hg j). lia.
Qed.

(** ** MD5 states stay on 32 bits *)

Lemma add32_ok (x y : Z) : word_ok (MD5.add32 x y).
Proof. unfold word_ok, MD5.add32, MD5.w32. apply Z.mod_pos_bound. reflexivity. Qed.

Lemma compress_ok (st : MD5.state) (m : list Z) : state_ok (MD5.compress st m).
Proof.
  unfold MD5.compress, state_ok. cbn [MD5.sA MD5.sB MD5.sC MD5.sD].
  repeat split; apply add32_ok.
Qed.

Lemma digest_state_ok (msg : list Z) : state_ok (MD5.digest_state msg).
Proof.
  unfold MD5.digest_state.
  generalize (MD5.blocks (List.length (MD5.words_of (List.length (MD5.pad msg)) (MD5.pad msg)))
                         (MD5.words_of (List.length (MD5.pad msg)) (MD5.pad msg))).
  intros bl.
  assert (H0 : state_ok MD5.init).
  { unfold state_ok, word_ok, MD5.init. cbn [MD5.sA MD5.sB MD5.sC MD5.sD]. lia. }
  revert H0. generalize MD5.init. induction bl as [| b bl IH]; intros st Hst.
  - exact Hst.
  - cbn [fold_left]. apply IH. apply compress_ok.
Qed.

Lemma state_code_range (st : MD5.state) :
  state_ok st -> (0 <= state_code st < 2 ^ 128)%Z.
Proof.
  unfold state_ok, word_ok, state_code. destruct st as [a b c d].
  cbn [MD5.sA MD5.sB MD5.sC MD5.sD]. lia.
Qed.

Lemma state_code_inj (s t : MD5.state) :
  state_ok s -> state_ok t -> state_code s = state_code t -> s = t.
Proof.
  unfold state_ok, word_ok, state_code.
  destruct s as [a b c d], t as [a' b' c' d'].
  cbn [MD5.sA MD5.sB MD5.sC MD5.sD]. intros Hs Ht H.
  assert (a = a' /\ b = b' /\ c = c' /\ d = d') as (-> & -> & -> & ->) by lia.
  reflexivity.
Qed.

(** ** Query essence and cache keys *)

(** C1 (as the code has it).  The two steak questions are both classified as
    food-pairing queries and both yield the single food item [steak]; their
    essences end in the same [_pair_with_steak] but each starts with its own
    stopword-stripped text, so the essences differ, and so do, for instance,
    the keys under data source [ds1], prompt [p1] and no conversation. *)
Theorem scenario_A_steak :
  let q1 := "What wine pairs with steak?" in
  let q2 := "what pairs well with a good steak" in
  _is_food_pairing_query (Py.strip (Py.lower q1)) = true
  /\ _is_food_pairing_query (Py.strip (Py.lower q2)) = true
  /\ _extract_food_items (Py.strip (Py.lower q1)) = ["steak"]
  /\ _extract_food_items (Py.strip (Py.lower q2)) = ["steak"]
  /\ _get_query_essence q1 = "exact_what wine pairs steak?_pair_with_steak"
  /\ _get_query_essence q2 = "exact_what pairs well good steak_pair_with_steak"
  /\ _get_query_essence q1 <> _get_query_essence q2
  /\ _generate_stable_id None (_get_query_essence q1) (Some "ds1") (Some "p1")
     <> _generate_stable_id None (_get_query_essence q2) (Some "ds1") (Some "p1").
Proof.
  cbv zeta. repeat split; try (vm_compute; reflexivity); vm_compute; discriminate.
Qed.

(** C1 as stated fails: the two essences are not equal, and the keys under
    one data source and prompt are not all equal. *)
Lemma scenario_A_essences_not_equal :
  ~ (_get_query_essence "What wine pairs with steak?"
       = _get_query_essence "what pairs well with a good steak"
     /\ forall ds p : option string,
          _generate_stable_id None (_get_query_essence "What wine pairs with steak?") ds p
          = _generate_stable_id None (_get_query_essence "what pairs well with a good steak") ds p).
Proof.
  intros [H _]. vm_compute in H. discriminate.
Qed.

(** C2.  The key is a function of the essence, the two ids and the
    conversation id alone: queries with equal essences get the same key, and
    every key is [sommelier_] followed by 32 lower-case hex digits. *)
Theorem stable_id_deterministic (q1 q2 : string) (ds p c : option string) :
  _get_query_essence q1 = _get_query_essence q2 ->
  _generate_stable_id c (_get_query_essence q1) ds p
  = _generate_stable_id c (_get_query_essence q2) ds p
  /\ exists h : string,
       _generate_stable_id c (_get_query_essence q1) ds p = "sommelier_" +:+ h
       /\ String.length h = 32
       /\ all_hex h = true.
Proof.
  intros He. split.
  - rewrite He. reflexivity.
  - unfold _generate_stable_id.
    exists (MD5.hexdigest (components c (_get_query_essence q1) ds p)).
    destruct (hexdigest_shape (components c (_get_query_essence q1) ds p)) as [Hl Hh].
    auto.
Qed.

Lemma stable_id_deterministic_witness :
  _generate_stable_id (Some "conv-1a2b3c4d")
    (_get_query_essence "What wine pairs with steak?") (Some "ds1") None
  = _generate_stable_id (Some "conv-1a2b3c4d")
      (_get_query_essence "  WHAT wine pairs with STEAK?") (Some "ds1") None
  /\ exists h : string,
       _generate_stable_id (Some "conv-1a2b3c4d")
         (_get_query_essence "What wine pairs with steak?") (Some "ds1") None
       = "sommelier_" +:+ h
       /\ String.length h = 32
       /\ all_hex h = true.
Proof.
  apply (stable_id_deterministic "What wine pairs with steak?"
           "  WHAT wine pairs with STEAK?" (Some "ds1") None (Some "conv-1a2b3c4d")).
  vm_compute. reflexivity.
Defined.

(** C3 (as the code has it).  The essence reads the query only through its
    lower-casing: two texts of ASCII characters that differ in the case of
    letters have the same essence. *)
Theorem essence_case_invariant (q q' : string) :
  is_ascii q = true -> is_ascii q' = true ->
  same_up_to_case q q' -> _get_query_essence q = _get_query_essence q'.
Proof.
  intros _ _ H. unfold _get_query_essence.
  rewrite (lower_same_up_to_case q q' H). reflexivity.
Qed.

Lemma essence_case_invariant_witness :
  _get_query_essence "Recommend a RED wine under $30"
  = _get_query_essence "recommend a red Wine UNDER $30".
Proof.
  apply essence_case_invariant; [reflexivity | reflexivity |].
  unfold same_up_to_case. simpl. repeat constructor.
Defined.

(** C3 as stated fails: a role marker put in front of a query stays in the
    exact part of the essence. *)
Lemma role_marker_changes_essence :
  _get_query_essence "user: what wine pairs with steak?"
    = "exact_user: what wine pairs steak?_pair_with_steak"
  /\ _get_query_essence "what wine pairs with steak?"
    = "exact_what wine pairs steak?_pair_with_steak"
  /\ _get_query_essence "user: what wine pairs with steak?"
     <> _get_query_essence "what wine pairs with steak?".
Proof.
  repeat split; try (vm_compute; reflexivity). vm_compute. discriminate.
Qed.

Lemma conv_component_inj (c1 c2 : option string) (base : string) :
  conv_norm c1 <> conv_norm c2 ->
  base +:+ (if Py.truthy c1 then "|conv_" +:+ Py.fmt c1 else "")
  <> base +:+ (if Py.truthy c2 then "|conv_" +:+ Py.fmt c2 else "").
Proof.
  intros Hn H. apply append_inv_head in H. apply Hn. unfold conv_norm.
  destruct c1 as [[| a1 s1] |], c2 as [[| a2 s2] |]; simpl in *;
    try reflexivity; try discriminate.
  injection H as -> ->. reflexivity.
Qed.

(** C4 (as the code has it).  For a fixed essence, data source and prompt,
    two conversation ids that differ (the empty string counting as absent)
    give different strings to hash; the two keys are equal exactly when the
    MD5 digests of these strings are. *)
Theorem conversation_separates_components (e : string) (ds p c1 c2 : option string) :
  conv_norm c1 <> conv_norm c2 ->
  components c1 e ds p <> components c2 e ds p
  /\ (_generate_stable_id c1 e ds p = _generate_stable_id c2 e ds p
      <-> MD5.hexdigest (components c1 e ds p) = MD5.hexdigest (components c2 e ds p)).
Proof.
  intros Hn. split.
  - unfold components. intros H.
    do 4 apply append_inv_head in H.
    revert H. apply (conv_component_inj c1 c2 (Py.fmt p) Hn).
  - unfold _generate_stable_id. split; intros H.
    + apply (append_inv_head "sommelier_"). exact H.
    + rewrite H. reflexivity.
Qed.

Lemma conversation_separates_components_witness :
  components (Some "conv-1a2b3c4d") "exact_red_red" (Some "ds1") (Some "p1")
  <> components None "exact_red_red" (Some "ds1") (Some "p1")
  /\ (_generate_stable_id (Some "conv-1a2b3c4d") "exact_red_red" (Some "ds1") (Some "p1")
      = _generate_stable_id None "exact_red_red" (Some "ds1") (Some "p1")
      <-> MD5.hexdigest (components (Some "conv-1a2b3c4d") "exact_red_red" (Some "ds1") (Some "p1"))
          = MD5.hexdigest (components None "exact_red_red" (Some "ds1") (Some "p1"))).
Proof.
  apply (conversation_separates_components "exact_red_red" (Some "ds1") (Some "p1")
           (Some "conv-1a2b3c4d") None).
  vm_compute. discriminate.
Defined.

Lemma equal_states_equal_keys (c1 c2 : option string) (e : string) (ds p : option string) :
  MD5.digest_state (MD5.bytes_of (components c1 e ds p))
  = MD5.digest_state (MD5.bytes_of (components c2 e ds p)) ->
  _generate_stable_id c1 e ds p = _generate_stable_id c2 e ds p.
Proof.
  intros H. unfold _generate_stable_id, MD5.hexdigest. rewrite H. reflexivity.
Qed.

(** C4 as stated fails, twice over.  An empty conversation id is keyed like
    an absent one; and no function into the 2^128 MD5 states can separate all
    the non-empty ids ["a"], ["aa"], ... either. *)
Lemma conversation_ids_can_share_a_key :
  (Some "" <> (None : option string)
   /\ forall (e : string) (ds p : option string),
        _generate_stable_id (Some "") e ds p = _generate_stable_id None e ds p)
  /\ ~ (forall (e : string) (ds p c1 c2 : option string),
          Py.truthy c1 = true -> Py.truthy c2 = true -> c1 <> c2 ->
          _generate_stable_id c1 e ds p <> _generate_stable_id c2 e ds p).
Proof.
  split.
  - split; [discriminate | reflexivity].
  - intros H.
    destruct (no_injection_into_range (2 ^ 128)
                (fun n => state_code
                            (MD5.digest_state
                               (MD5.bytes_of (components (Some (a_run n)) "" None None)))))
      as (i & j & Hij & Heq).
    + intros n. apply state_code_range, digest_state_ok.
    + apply state_code_inj in Heq; try apply digest_state_ok.
      apply (H "" None None (Some (a_run i)) (Some (a_run j)));
        try apply a_run_truthy.
      * intros Hc. injection Hc as Hc. apply a_run_inj in Hc. contradiction.
      * apply equal_states_equal_keys. exact Heq.
Qed.

(** ** Similarity *)

Lemma isspace_lower_char (c : ascii) : Py.isspace (Py.lower_char c) = Py.isspace c.
Proof. destruct c as [[] [] [] [] [] [] [] []]; reflexivity. Qed.

Lemma split_nil_lower (s : string) : Py.split s = [] -> Py.split (Py.lower s) = [].
Proof.
  induction s as [| c r IH]; [reflexivity |].
  cbn [Py.split Py.lower]. rewrite isspace_lower_char.
  destruct (Py.isspace c); [exact IH |].
  destruct r as [| c' r']; [discriminate |].
  cbn [Py.lower]. rewrite isspace_lower_char.
  destruct (Py.isspace c'); [discriminate |].
  destruct (Py.split (String c' r')); discriminate.
Qed.

Lemma lower_split_nil (s : string) : Py.split (Py.lower s) = [] -> Py.split s = [].
Proof.
  induction s as [| c r IH]; [reflexivity |].
  cbn [Py.split Py.lower]. rewrite isspace_lower_char.
  destruct (Py.isspace c); [exact IH |].
  destruct r as [| c' r']; [discriminate |].
  cbn [Py.lower]. rewrite isspace_lower_char.
  destruct (Py.isspace c'); [discriminate |].
  destruct (Py.split (String (Py.lower_char c') (Py.lower r'))); discriminate.
Qed.

Lemma word_set_empty (a : string) : word_set a = ∅ <-> Py.split a = [].
Proof.
  unfold word_set. split; intros H.
  - apply lower_split_nil.
    destruct (Py.split (Py.lower a)) as [| w ws]; [reflexivity |].
    exfalso. assert (Hw : w ∈ (list_to_set (w :: ws) : gset string)).
    { apply elem_of_list_to_set. left. }
    rewrite H in Hw. set_solver.
  - rewrite (split_nil_lower a H). reflexivity.
Qed.

Lemma Qnat_ratio_one (n : nat) : n <> 0 -> Qred (Qnat n / Qnat n) = 1%Q.
Proof.
  intros Hn. change 1%Q with (Qred 1). apply Qred_complete.
  apply Qmult_inv_r. unfold Qnat, Qeq. simpl. lia.
Qed.

(** C6 (as the code has it).  A text with at least one word has similarity 1
    with itself, a text without words has similarity 0 with itself, and
    similarity is symmetric. *)
Theorem similarity_reflexive_symmetric (a b : string) :
  (Py.split a <> [] -> _calculate_text_similarity a a = 1%Q)
  /\ (Py.split a = [] -> _calculate_text_similarity a a = 0%Q)
  /\ _calculate_text_similarity a b = _calculate_text_similarity b a.
Proof.
  unfold _calculate_text_similarity. repeat split.
  - intros Hw. destruct (decide (word_set a = ∅ ∨ word_set a = ∅)) as [[H | H] | _].
    + apply word_set_empty in H. contradiction.
    + apply word_set_empty in H. contradiction.
    + rewrite intersection_idemp_L, union_idemp_L. apply Qnat_ratio_one.
      intros Hs. apply size_empty_iff in Hs. apply leibniz_equiv in Hs.
      apply word_set_empty in Hs. contradiction.
  - intros Hw. apply word_set_empty in Hw.
    destruct (decide (word_set a = ∅ ∨ word_set a = ∅)) as [_ | H]; [reflexivity |].
    exfalso. apply H. left. exact Hw.
  - destruct (decide (word_set a = ∅ ∨ word_set b = ∅)) as [H | H];
      destruct (decide (word_set b = ∅ ∨ word_set a = ∅)) as [H' | H'];
      try reflexivity; try (exfalso; tauto).
    rewrite (intersection_comm_L (word_set a)), (union_comm_L (word_set a)).
    reflexivity.
Qed.

Lemma similarity_reflexive_symmetric_witness :
  Py.split "Red wine, red meat" <> []
  /\ _calculate_text_similarity "Red wine, red meat" "Red wine, red meat" = 1%Q.
Proof.
  assert (H : Py.split "Red wine, red meat" <> []) by (vm_compute; discriminate).
  split; [exact H |].
  exact (proj1 (similarity_reflexive_symmetric "Red wine, red meat" "steak") H).
Defined.

(** C6 as stated fails on the empty string (and on any string of blanks):
    its similarity with itself is 0, not 1. *)
Lemma similarity_of_empty_text :
  _calculate_text_similarity "" "" = 0%Q
  /\ _calculate_text_similarity "   " "   " = 0%Q
  /\ _calculate_text_similarity "" "" <> 1%Q.
Proof.
  repeat split; try (vm_compute; reflexivity). vm_compute. discriminate.
Qed.

Example similarity_values :
  _calculate_text_similarity "what wine goes with steak" "What wine goes with STEAK" = 1%Q
  /\ _calculate_text_similarity "red wine for steak" "white wine for fish" = (1 # 3)%Q
  /\ _calculate_text_similarity "a b c d" "a b c e" = (3 # 5)%Q.
Proof. vm_compute. repeat split; reflexivity. Qed.

(** ** The fuzzy search *)

Lemma Qgtb_true (x y : Q) : Qgtb x y = true <-> (y < x)%Q.
Proof.
  unfold Qgtb. rewrite negb_true_iff. split; intros H.
  - apply Qnot_le_lt. intros Hle. apply Qle_bool_iff in Hle. congruence.
  - destruct (Qle_bool x y) eqn:Hb; [| reflexivity].
    apply Qle_bool_iff in Hb. exfalso. exact (Qlt_not_le _ _ H Hb).
Qed.

Lemma Qgtb_false (x y : Q) : Qgtb x y = false <-> (x <= y)%Q.
Proof.
  unfold Qgtb. rewrite negb_false_iff. apply Qle_bool_iff.
Qed.

Lemma best_step_inv (q : string) (seen : list hit) (acc : option hit * Q) (x : hit) :
  best_inv q seen acc -> best_inv q (seen ++ [x]) (best_step q acc x).
Proof.
  destruct acc as [[h |] s]; unfold best_inv, best_step; cbn [fst snd];
    fold (score q x).
  - intros (-> & Hth & before & after & -> & Hb & Ha).
    destruct (Qgtb (score q x) (score q h)) eqn:Hc; cbn [fst snd].
    + apply Qgtb_true in Hc. split; [reflexivity |]. split.
      * eapply Qlt_trans; eauto.
      * exists (before ++ h :: after), []. split; [reflexivity |]. split; [| constructor].
        apply Forall_app. split.
        -- eapply List.Forall_impl; [| exact Hb]. cbn. intros y Hy. eapply Qlt_trans; eauto.
        -- constructor; [exact Hc |].
           eapply List.Forall_impl; [| exact Ha]. cbn. intros y Hy. eapply Qle_lt_trans; eauto.
    + apply Qgtb_false in Hc. split; [reflexivity |]. split; [exact Hth |].
      exists before, (after ++ [x]). split; [rewrite <- app_assoc; reflexivity |].
      split; [exact Hb |]. apply Forall_app. split; [exact Ha |].
      constructor; [exact Hc | constructor].
  - intros (-> & Hall).
    destruct (Qgtb (score q x) threshold) eqn:Hc; cbn [fst snd].
    + apply Qgtb_true in Hc. split; [reflexivity |]. split; [exact Hc |].
      exists seen, []. split; [reflexivity |]. split; [| constructor].
      eapply List.Forall_impl; [| exact Hall]. cbn. intros y Hy. eapply Qle_lt_trans; eauto.
    + apply Qgtb_false in Hc. split; [reflexivity |].
      apply Forall_app. split; [exact Hall |]. constructor; [exact Hc | constructor].
Qed.

Lemma best_loop_inv (q : string) (todo seen : list hit) (acc : option hit * Q) :
  best_inv q seen acc ->
  best_inv q (seen ++ todo) (fold_left (best_step q) todo acc).
Proof.
  revert seen acc. induction todo as [| x todo IH]; intros seen acc H.
  - rewrite app_nil_r. exact H.
  - cbn [fold_left].
    replace (seen ++ x :: todo) with ((seen ++ [x]) ++ todo)
      by (rewrite <- app_assoc; reflexivity).
    apply IH, best_step_inv, H.
Qed.

(** C5.  The search returns nothing on an empty pool; a hit it returns
    scores strictly above 0.7, strictly above every hit before it and at
    least as high as every hit after it; and it returns nothing exactly when
    no hit scores above 0.7. *)
Theorem find_best_match_above_threshold (q : string) (hits : list hit) :
  find_best_match q [] = None
  /\ (forall h, find_best_match q hits = Some h ->
        (threshold < score q h)%Q
        /\ exists before after,
             hits = before ++ h :: after
             /\ Forall (fun x => (score q x < score q h)%Q) before
             /\ Forall (fun x => (score q x <= score q h)%Q) after)
  /\ (find_best_match q hits = None <->
      Forall (fun x => (score q x <= threshold)%Q) hits).
Proof.
  split; [reflexivity |].
  pose proof (best_loop_inv q hits [] (None, threshold)) as H.
  cbn [app] in H. unfold find_best_match. fold threshold.
  assert (H0 : best_inv q [] (None, threshold)) by (split; [reflexivity | constructor]).
  specialize (H H0). unfold best_inv in H.
  destruct (fst (fold_left (best_step q) hits (None, threshold))) as [h |].
  - destruct H as (_ & Hth & Hdec). split.
    + intros h' Heq. injection Heq as <-. split; [exact Hth | exact Hdec].
    + split; [discriminate |]. intros Hall. exfalso.
      destruct Hdec as (before & after & -> & _ & _).
      apply Forall_app in Hall. destruct Hall as [_ Hall].
      inversion Hall; subst. eapply Qlt_not_le; eauto.
  - destruct H as (_ & Hall). split; [discriminate |]. split; auto.
Qed.

Example find_best_match_example :
  let h1 := mkHit "sommelier_1" (Some "what wine goes with fish") (Some "r1") None None in
  let h2 := mkHit "sommelier_2" (Some "User: What wine pairs with steak") (Some "r2") None None in
  let h3 := mkHit "sommelier_3" (Some "what wine pairs with steak") (Some "r3") None None in
  find_best_match "what wine pairs with steak" [h1; h2; h3] = Some h2
  /\ find_best_match "what wine pairs with lamb" [h1; h2; h3] = None.
Proof. vm_compute. split; reflexivity. Qed.

(** ** Session metrics: the counters and the lists agree *)

Lemma new_session_ok (now : string) : session_ok (new_session now).
Proof. repeat split. Qed.

Lemma log_query_ok now query is_cache_hit response_time query_type object_id (m : session) :
  session_ok m ->
  session_ok (Session.log_query now query is_cache_hit response_time query_type object_id m).
Proof.
  unfold session_ok. intros (Ht & Hr & Hh & Hg).
  destruct is_cache_hit; cbn [Session.log_query total_queries cache_hits cache_misses
    response_times cache_hit_times generation_times];
    rewrite ?length_app; cbn [List.length]; lia.
Qed.

Lemma log_error_ok now error_type details (m : session) :
  session_ok m -> session_ok (Session.log_error now error_type details m).
Proof. exact (fun H => H). Qed.

Lemma track_ok operation_type count (m : session) :
  session_ok m -> session_ok (Session._track_algolia_operation operation_type count m).
Proof. exact (fun H => H). Qed.

Lemma keeps_ret {A} (a : A) : keeps (ret a).
Proof. intros s H. exact H. Qed.

Lemma keeps_bind {A B} (c : M A) (k : A -> M B) :
  keeps c -> (forall a, keeps (k a)) -> keeps (bind c k).
Proof.
  intros Hc Hk s Hs. unfold bind. specialize (Hc s Hs).
  destruct (c s) as [a s']. exact (Hk a s' Hc).
Qed.

Lemma keeps_gets {A} (f : state -> A) : keeps (gets f).
Proof. intros s H. exact H. Qed.

Lemma keeps_ask {A} (oracle : nat -> A) : keeps (ask oracle).
Proof. intros s H. exact H. Qed.

Lemma keeps_modify (f : state -> state) :
  (forall s, session_ok (current_session s) -> session_ok (current_session (f s))) ->
  keeps (modify f).
Proof. intros Hf s H. exact (Hf s H). Qed.

Lemma keeps_sleep (seconds : Z) : keeps (sleep seconds).
Proof. intros s H. exact H. Qed.

Lemma keeps_set_conversation_id (c : option string) : keeps (set_conversation_id c).
Proof. intros s H. exact H. Qed.

Lemma keeps_append_history (msgs : list message) : keeps (append_history msgs).
Proof. intros s H. exact H. Qed.

Lemma keeps_log_query E query is_cache_hit response_time query_type object_id :
  keeps (log_query E query is_cache_hit response_time query_type object_id).
Proof.
  apply keeps_bind; [apply keeps_ask |]. intros now. apply keeps_modify.
  intros s H. apply log_query_ok, H.
Qed.

Lemma keeps_log_error E error_type details : keeps (log_error E error_type details).
Proof.
  apply keeps_bind; [apply keeps_ask |]. intros now. apply keeps_modify.
  intros s H. exact H.
Qed.

Lemma keeps_calculate_derived_metrics : keeps calculate_derived_metrics.
Proof. apply keeps_modify. intros s H. exact H. Qed.

Lemma keeps_save_metrics E : keeps (save_metrics E).
Proof.
  unfold save_metrics.
  apply keeps_bind; [apply keeps_ask | intros now].
  apply keeps_bind; [apply keeps_modify; intros s H; exact H | intros _].
  apply keeps_bind; [apply keeps_calculate_derived_metrics | intros _].
  apply keeps_bind; [apply keeps_ask | intros last_updated].
  apply keeps_bind; [apply keeps_ask | intros [[|] [|]]].
  - apply keeps_modify. intros s H. exact H.
  - apply keeps_modify. intros s H. exact H.
  - apply keeps_modify. intros s H. exact H.
  - apply keeps_ret.
Qed.

Lemma keeps_reset_metrics E : keeps (reset_metrics E).
Proof.
  unfold reset_metrics.
  apply keeps_bind; [apply keeps_save_metrics | intros _].
  apply keeps_bind; [apply keeps_ask | intros now].
  apply keeps_modify. intros s _. apply new_session_ok.
Qed.

Lemma keeps_search_index E index_name query hitsPerPage filters :
  keeps (search_index E index_name query hitsPerPage filters).
Proof.
  apply keeps_bind; [apply keeps_modify; intros s H; exact H | intros _].
  apply keeps_ask.
Qed.

Lemma keeps_get_object_op E index_name object_id :
  keeps (get_object_op E index_name object_id).
Proof.
  apply keeps_bind; [apply keeps_modify; intros s H; exact H | intros _].
  apply keeps_ask.
Qed.

(** One step through a computation built from the operations above. *)
Ltac keep_step :=
  lazymatch goal with
  | |- keeps (bind _ _) => apply keeps_bind; [| intros ?]
  | |- keeps (ret _) => apply keeps_ret
  | |- keeps (gets _) => apply keeps_gets
  | |- keeps (ask _) => apply keeps_ask
  | |- keeps (sleep _) => apply keeps_sleep
  | |- keeps (set_conversation_id _) => apply keeps_set_conversation_id
  | |- keeps (append_history _) => apply keeps_append_history
  | |- keeps (log_query _ _ _ _ _ _) => apply keeps_log_query
  | |- keeps (log_error _ _ _) => apply keeps_log_error
  | |- keeps (search_index _ _ _ _ _) => apply keeps_search_index
  | |- keeps (get_object_op _ _ _) => apply keeps_get_object_op
  | |- keeps (modify _) => apply keeps_modify; intros ? ?; assumption
  | |- keeps (match ?x with _ => _ end) => destruct x
  end.

Ltac keep := repeat keep_step.

Lemma keeps_find_previous_response E query data_source_id prompt_id :
  keeps (find_previous_response E query data_source_id prompt_id).
Proof. unfold find_previous_response. keep. Qed.

Lemma keeps_attempts E (remaining attempt : nat) (retry_delay : Z) (data : request) :
  keeps (attempts E remaining attempt retry_delay data).
Proof.
  revert attempt retry_delay.
  induction remaining as [| n IH]; intros attempt retry_delay; cbn [attempts].
  - keep.
  - keep; apply IH.
Qed.

Lemma keeps_generate_response E query data_source_id prompt_id object_id :
  keeps (generate_response E query data_source_id prompt_id object_id).
Proof. unfold generate_response. keep. apply keeps_attempts. Qed.

Lemma keeps_process_query E query prompt_type conversation_id_arg :
  keeps (process_query E query prompt_type conversation_id_arg).
Proof.
  unfold process_query. keep;
    try apply keeps_find_previous_response; try apply keeps_generate_response; keep.
Qed.

Lemma reachable_session_ok E (s : state) :
  reachable E s -> session_ok (current_session s).
Proof.
  induction 1 as [s now Hnew | | | | | | | |].
  - rewrite Hnew. apply new_session_ok.
  - apply keeps_log_query. assumption.
  - apply keeps_log_error. assumption.
  - apply keeps_reset_metrics. assumption.
  - apply keeps_calculate_derived_metrics. assumption.
  - apply keeps_save_metrics. assumption.
  - apply keeps_search_index. assumption.
  - apply keeps_get_object_op. assumption.
  - apply keeps_process_query. assumption.
Qed.

Lemma take_len (n : nat) (s : string) : Py.len (Py.take n s) <= n.
Proof.
  revert n. induction s as [| c r IH]; intros n; cbn [Py.take Py.len]; [lia |].
  destruct (Py.is_cont c) eqn:Hc.
  - cbn [Py.len]. rewrite Hc. apply IH.
  - destruct n as [| k]; cbn [Py.len]; [lia |]. rewrite Hc. specialize (IH k). lia.
Qed.



(** ** Derived metrics *)

Lemma round_half_even_close (y : Q) :
  (- (1 # 2) <= inject_Z (round_half_even y) - y <= 1 # 2)%Q.
Proof.
  unfold round_half_even.
  pose proof (Qfloor_le y) as Hlo. pose proof (Qlt_floor y) as Hhi.
  rewrite inject_Z_plus in Hhi. change (inject_Z 1) with 1%Q in Hhi.
  destruct (Qcompare (y - inject_Z (Qfloor y)) (1 # 2)) eqn:Hc;
    [apply Qeq_alt in Hc; destruct (Z.even (Qfloor y))
    | apply Qlt_alt in Hc | apply Qgt_alt in Hc];
    rewrite ?inject_Z_plus; change (inject_Z 1) with 1%Q;
    generalize dependent (inject_Z (Qfloor y)); intros F; intros; lra.
Qed.

(** ** Doubles: the error of a rounding *)

Lemma pow2_pos (e : Z) : (0 < 2 ^ e)%Q.
Proof. apply Qpower_0_lt. reflexivity. Qed.

Lemma pow2_le (a b : Z) : (a <= b)%Z -> (2 ^ a <= 2 ^ b)%Q.
Proof. intros H. apply Qpower_le_compat_l; [exact H | discriminate]. Qed.

Lemma pow2_lt (a b : Z) : (a < b)%Z -> (2 ^ a < 2 ^ b)%Q.
Proof. intros H. apply Qpower_lt_compat_l; [exact H | reflexivity]. Qed.

Lemma pow2_plus (a b : Z) : (2 ^ (a + b) == 2 ^ a * 2 ^ b)%Q.
Proof. apply Qpower_plus. discriminate. Qed.

Lemma pow2_Z (n : Z) : (0 <= n)%Z -> (inject_Z (2 ^ n) == 2 ^ n)%Q.
Proof. intros H. rewrite Zpower_Qpower by exact H. reflexivity. Qed.

Lemma Qabs_le_iff (x y : Q) : (Qabs x <= y <-> - y <= x <= y)%Q.
Proof. apply Qabs_Qle_condition. Qed.

(** [ilog2] is the integer logarithm. *)
Lemma ilog2_spec (x : Q) :
  (0 < x)%Q -> (2 ^ Float.ilog2 x <= x)%Q /\ (x < 2 ^ (Float.ilog2 x + 1))%Q.
Proof.
  intros Hx. destruct x as [n d]. unfold Float.ilog2. cbn [Qnum Qden].
  assert (Hn : (0 < n)%Z).
  { unfold Qlt in Hx. cbn in Hx. lia. }
  destruct (Z.log2_spec n Hn) as [Hn1 Hn2].
  destruct (Z.log2_spec (Zpos d) (Pos2Z.is_pos d)) as [Hd1 Hd2].
  pose proof (Z.log2_nonneg n) as Hln. pose proof (Z.log2_nonneg (Zpos d)) as Hld.
  set (a := Z.log2 n) in *. set (b := Z.log2 (Zpos d)) in *.
  assert (Hup : (n # d < 2 ^ (a - b + 1))%Q).
  { replace (a - b + 1)%Z with ((a + 1) + - b)%Z by lia.
    rewrite pow2_plus, Qpower_opp, <- !pow2_Z by lia.
    apply Qlt_shift_div_l.
    - change 0%Q with (inject_Z 0). rewrite <- Zlt_Qlt. lia.
    - replace (Z.succ a) with (a + 1)%Z in Hn2 by lia.
      unfold Qlt, Qmult, inject_Z. cbn [Qnum Qden].
      generalize dependent (2 ^ (a + 1))%Z. generalize dependent (2 ^ b)%Z. intros. nia. }
  assert (Hlo : (2 ^ (a - b - 1) <= n # d)%Q).
  { replace (a - b - 1)%Z with (a + - (b + 1))%Z by lia.
    rewrite pow2_plus, Qpower_opp, <- !pow2_Z by lia.
    apply Qle_shift_div_r.
    - change 0%Q with (inject_Z 0). rewrite <- Zlt_Qlt. lia.
    - replace (Z.succ b) with (b + 1)%Z in Hd2 by lia.
      unfold Qle, Qmult, inject_Z. cbn [Qnum Qden].
      generalize dependent (2 ^ (b + 1))%Z. generalize dependent (2 ^ a)%Z. intros. nia. }
  destruct (Qle_bool (2 ^ (a - b)) (n # d)) eqn:Hc.
  - apply Qle_bool_iff in Hc. split; [exact Hc | exact Hup].
  - split; [exact Hlo |].
    replace (a - b - 1 + 1)%Z with (a - b)%Z by lia.
    apply Qnot_le_lt. intros H. apply Qle_bool_iff in H. congruence.
Qed.

Lemma ilog2_upper (x : Q) (k : Z) : (0 < x)%Q -> (x <= 2 ^ k)%Q -> (Float.ilog2 x <= k)%Z.
Proof.
  intros Hx Hk. destruct (ilog2_spec x Hx) as [Hlo _].
  destruct (Z_le_gt_dec (Float.ilog2 x) k) as [H | H]; [exact H | exfalso].
  assert (Hlt : (2 ^ k < 2 ^ Float.ilog2 x)%Q) by (apply pow2_lt; lia).
  apply (Qlt_irrefl x). eapply Qle_lt_trans; [exact Hk |].
  eapply Qlt_le_trans; [exact Hlt | exact Hlo].
Qed.

Lemma ilog2_lower (x : Q) (k : Z) : (0 < x)%Q -> (2 ^ k <= x)%Q -> (k <= Float.ilog2 x)%Z.
Proof.
  intros Hx Hk. destruct (ilog2_spec x Hx) as [_ Hhi].
  destruct (Z_le_gt_dec k (Float.ilog2 x)) as [H | H]; [exact H | exfalso].
  assert (Hle : (2 ^ (Float.ilog2 x + 1) <= 2 ^ k)%Q) by (apply pow2_le; lia).
  apply (Qlt_irrefl x). eapply Qlt_le_trans; [exact Hhi |].
  eapply Qle_trans; [exact Hle | exact Hk].
Qed.

Lemma Qabs_nonzero (x : Q) : ~ (x == 0)%Q -> (0 < Qabs x)%Q.
Proof.
  intros Hnz. pose proof (Qabs_nonneg x) as H.
  apply Qle_lteq in H. destruct H as [H | H]; [exact H |].
  exfalso. apply Hnz. revert H. apply Qabs_case; intros; lra.
Qed.

Lemma fl_zero (x : Q) : (x == 0)%Q -> Float.fl x = 0%Q.
Proof. intros H. unfold Float.fl. rewrite (proj2 (Qeq_bool_iff x 0) H). reflexivity. Qed.

(** A rounding moves its argument by at most half a unit of the last
    place. *)
Lemma fl_close (x : Q) :
  (Qabs (Float.fl x - x) <= 2 ^ (Float.ulp_exp x - 1))%Q.
Proof.
  unfold Float.fl. destruct (Qeq_bool x 0) eqn:Hz.
  - apply Qeq_bool_iff in Hz.
    assert (H0 : (0 - x == 0)%Q) by lra. rewrite H0.
    apply Qlt_le_weak, pow2_pos.
  - rewrite Qred_correct. set (e := Float.ulp_exp x).
    pose proof (pow2_pos e) as He.
    pose proof (round_half_even_close (x / 2 ^ e)) as Hc.
    assert (Hx : (x == x / 2 ^ e * 2 ^ e)%Q) by (field; lra).
    replace (e - 1)%Z with (e + -1)%Z by lia.
    rewrite pow2_plus. change (2 ^ (-1))%Q with (1 # 2)%Q.
    apply Qabs_Qle_condition.
    generalize dependent (inject_Z (round_half_even (x / 2 ^ e))). intros K HK.
    generalize dependent (x / 2 ^ e)%Q. intros y Hy HK.
    generalize dependent (2 ^ e)%Q. intros p Hp Hy.
    rewrite Hy. split; nra.
Qed.

(** Absolute error: below [2^k], and above the subnormal range, a rounding
    errs by at most [2^(k-53)]. *)
Lemma fl_error (x : Q) (k : Z) :
  (Qabs x <= 2 ^ k)%Q -> (-1022 <= k)%Z -> (Qabs (Float.fl x - x) <= 2 ^ (k - 53))%Q.
Proof.
  intros Hx Hk. destruct (Qeq_dec x 0) as [Hz | Hnz].
  - rewrite (fl_zero x Hz).
    assert (H0 : (0 - x == 0)%Q) by lra. rewrite H0.
    apply Qlt_le_weak, pow2_pos.
  - eapply Qle_trans; [apply fl_close |]. apply pow2_le. unfold Float.ulp_exp.
    pose proof (ilog2_upper _ _ (Qabs_nonzero x Hnz) Hx). lia.
Qed.

(** Relative error: above the subnormal range a rounding errs by at most
    [2^-53] of its argument. *)
Lemma fl_relative (x : Q) (k : Z) :
  (2 ^ k <= Qabs x)%Q -> (-1022 <= k)%Z ->
  (Qabs (Float.fl x - x) <= Qabs x * 2 ^ (-53))%Q.
Proof.
  intros Hx Hk. pose proof (pow2_pos k) as Hk0.
  assert (Hpos : (0 < Qabs x)%Q) by lra.
  destruct (ilog2_spec _ Hpos) as [Hlo _].
  pose proof (ilog2_lower (Qabs x) k Hpos Hx) as H0.
  eapply Qle_trans; [apply fl_close |]. unfold Float.ulp_exp.
  rewrite Z.max_l by lia.
  replace (Float.ilog2 (Qabs x) - 52 - 1)%Z with (Float.ilog2 (Qabs x) + -53)%Z by lia.
  rewrite pow2_plus. pose proof (pow2_pos (-53)) as Hp.
  generalize dependent (2 ^ (-53))%Q. generalize dependent (2 ^ Float.ilog2 (Qabs x))%Q.
  generalize dependent (Qabs x). intros. nra.
Qed.

Lemma fl_relative_pos (x : Q) (k : Z) :
  (2 ^ k <= x)%Q -> (-1022 <= k)%Z ->
  (x * (1 - (1 # 9007199254740992)) <= Float.fl x <= x * (1 + (1 # 9007199254740992)))%Q.
Proof.
  intros Hx Hk. pose proof (pow2_pos k) as Hk0.
  assert (Habs : (Qabs x == x)%Q) by (apply Qabs_pos; lra).
  pose proof (fl_relative x k) as H. rewrite Habs in H. specialize (H Hx Hk).
  change (2 ^ (-53))%Q with (1 # 9007199254740992)%Q in H.
  apply Qabs_le_iff in H. lra.
Qed.

Lemma round_half_even_proper (x y : Q) : (x == y)%Q -> round_half_even x = round_half_even y.
Proof.
  intros H. unfold round_half_even.
  assert (Hf : Qfloor x = Qfloor y) by (rewrite H; reflexivity).
  rewrite Hf.
  assert (Hc : Qcompare (x - inject_Z (Qfloor y)) (1 # 2)
               = Qcompare (y - inject_Z (Qfloor y)) (1 # 2)) by (rewrite H; reflexivity).
  rewrite Hc. reflexivity.
Qed.

Lemma ilog2_proper (x y : Q) : (0 < x)%Q -> (x == y)%Q -> Float.ilog2 x = Float.ilog2 y.
Proof.
  intros Hx Heq. assert (Hy : (0 < y)%Q) by (rewrite <- Heq; exact Hx).
  destruct (ilog2_spec x Hx) as [Ha1' Ha2']. destruct (ilog2_spec y Hy) as [Hb1 Hb2].
  assert (Ha1 : (2 ^ Float.ilog2 x <= y)%Q) by (eapply Qle_trans; [exact Ha1' | rewrite Heq; apply Qle_refl]).
  assert (Ha2 : (y < 2 ^ (Float.ilog2 x + 1))%Q) by (eapply Qle_lt_trans; [| exact Ha2']; rewrite Heq; apply Qle_refl).
  destruct (Z.lt_trichotomy (Float.ilog2 x) (Float.ilog2 y)) as [Hlt | [He | Hgt]];
    [exfalso | exact He | exfalso].
  - assert (Hp : (2 ^ (Float.ilog2 x + 1) <= 2 ^ Float.ilog2 y)%Q) by (apply pow2_le; lia).
    apply (Qlt_irrefl y). eapply Qlt_le_trans; [exact Ha2 |].
    eapply Qle_trans; [exact Hp | exact Hb1].
  - assert (Hp : (2 ^ (Float.ilog2 y + 1) <= 2 ^ Float.ilog2 x)%Q) by (apply pow2_le; lia).
    apply (Qlt_irrefl y). eapply Qlt_le_trans; [exact Hb2 |].
    eapply Qle_trans; [exact Hp | exact Ha1].
Qed.

(** [fl] is a function of the number, not of the fraction that holds it. *)
Lemma fl_proper (x y : Q) : (x == y)%Q -> Float.fl x = Float.fl y.
Proof.
  intros Heq. destruct (Qeq_dec x 0) as [Hz | Hnz].
  - rewrite (fl_zero x Hz), (fl_zero y); [reflexivity | rewrite <- Heq; exact Hz].
  - assert (Hny : ~ (y == 0)%Q) by (rewrite <- Heq; exact Hnz).
    unfold Float.fl.
    assert (Hbx : Qeq_bool x 0 = false).
    { destruct (Qeq_bool x 0) eqn:Hb; [| reflexivity].
      exfalso. apply Hnz, Qeq_bool_iff, Hb. }
    assert (Hby : Qeq_bool y 0 = false).
    { destruct (Qeq_bool y 0) eqn:Hb; [| reflexivity].
      exfalso. apply Hny, Qeq_bool_iff, Hb. }
    rewrite Hbx, Hby.
    assert (He : Float.ulp_exp x = Float.ulp_exp y).
    { unfold Float.ulp_exp. f_equal. f_equal.
      apply ilog2_proper; [apply Qabs_nonzero, Hnz | rewrite Heq; reflexivity]. }
    rewrite He. apply Qred_complete.
    rewrite (round_half_even_proper (x / 2 ^ Float.ulp_exp y) (y / 2 ^ Float.ulp_exp y))
      by (rewrite Heq; reflexivity).
    reflexivity.
Qed.

(** The model against the hardware: some operations computed both ways. *)
Example doubles_agree :
  Q_of_float (PrimFloat.mul (PrimFloat.div (float_of_Z 67) (float_of_Z 160)) (float_of_Z 100))
  = Session.percent 67 160
  /\ Q_of_float (PrimFloat.mul (PrimFloat.div (float_of_Z 93) (float_of_Z 160)) (float_of_Z 100))
     = Session.percent 93 160
  /\ Q_of_float (PrimFloat.div (float_of_Z 1) (float_of_Z 3)) = Float.div 1%Q 3%Q
  /\ Q_of_float (PrimFloat.div (float_of_Z 2) (float_of_Z 1000)) = estimated_cost_per_1k_tokens
  /\ Q_of_float (PrimFloat.mul (PrimFloat.div (float_of_Z 9000) (float_of_Z 1000))
                               (PrimFloat.div (float_of_Z 2) (float_of_Z 1000)))
     = Session.cost_of 9
  /\ Q_of_float (PrimFloat.add (PrimFloat.div (float_of_Z 1) (float_of_Z 10))
                               (PrimFloat.div (float_of_Z 2) (float_of_Z 10)))
     = Float.add (Float.div 1%Q 10%Q) (Float.div 2%Q 10%Q)
  /\ Q_of_float (PrimFloat.div (float_of_Z 4188) (float_of_Z 100))
     = round (Session.percent 67 160) 2
  /\ Q_of_float (PrimFloat.div (float_of_Z 5813) (float_of_Z 100))
     = round (Session.percent 93 160) 2
  /\ Q_of_float (PrimFloat.div (float_of_Z 1437) (float_of_Z 100))
     = round (Session.percent 23 160) 2
  /\ Q_of_float (PrimFloat.div (float_of_Z 9063) (float_of_Z 100))
     = round (Float.mul (Float.div (Session.cost_of 87) (Session.cost_of 96)) 100) 2.
Proof. cbv zeta. repeat split; vm_compute; reflexivity. Qed.

(** ** Derived metrics *)

Lemma Qnat_plus (a b : nat) : (Qnat (a + b) == Qnat a + Qnat b)%Q.
Proof. unfold Qnat. rewrite Nat2Z.inj_add, inject_Z_plus. reflexivity. Qed.

Lemma Qnat_pos (n : nat) : 0 < n -> (0 < Qnat n)%Q.
Proof.
  intros H. unfold Qnat. change 0%Q with (inject_Z 0). rewrite <- Zlt_Qlt. lia.
Qed.

Lemma Qnat_mono (a b : nat) : a <= b -> (Qnat a <= Qnat b)%Q.
Proof. intros H. unfold Qnat. rewrite <- Zle_Qle. lia. Qed.

Lemma ratio_bounds (h t : nat) :
  h <= t -> 0 < t -> (0 <= Qnat h / Qnat t <= 1)%Q.
Proof.
  intros Hle Hpos. pose proof (Qnat_pos t Hpos) as Ht.
  pose proof (Qnat_mono 0 h ltac:(lia)) as H0. change (Qnat 0) with 0%Q in H0.
  pose proof (Qnat_mono h t Hle) as H1.
  split.
  - apply Qle_shift_div_l; [exact Ht | lra].
  - apply Qle_shift_div_r; [exact Ht | lra].
Qed.

Lemma rates_sum (h m : nat) :
  0 < h + m ->
  (Qnat h / Qnat (h + m) * 10000 + Qnat m / Qnat (h + m) * 10000 == 10000)%Q.
Proof.
  intros H. pose proof (Qnat_pos _ H) as Hp. rewrite Qnat_plus in *.
  field. intros H0. rewrite H0 in Hp. exact (Qlt_irrefl _ Hp).
Qed.

(** [count / total * 100] in doubles is within [10^-12] of the exact
    percentage. *)
Lemma percent_close (h t : nat) :
  h <= t -> 0 < t ->
  (Qabs (Session.percent h t - Qnat h / Qnat t * 100) <= 1 # 1000000000000)%Q.
Proof.
  intros Hle Hpos. destruct (ratio_bounds h t Hle Hpos) as [H0 H1].
  unfold Session.percent, Float.mul, Float.div. set (x := (Qnat h / Qnat t)%Q) in *.
  assert (Hq : (Qabs (Float.fl x - x) <= 2 ^ (0 - 53))%Q).
  { apply fl_error; [| lia]. apply Qabs_le_iff. change (2 ^ 0)%Q with 1%Q. lra. }
  apply Qabs_le_iff in Hq.
  change (2 ^ (0 - 53))%Q with (1 # 9007199254740992)%Q in Hq.
  set (q := Float.fl x) in *.
  assert (Hp : (Qabs (Float.fl (q * 100) - q * 100) <= 2 ^ (8 - 53))%Q).
  { apply fl_error; [| lia]. apply Qabs_le_iff. change (2 ^ 8)%Q with 256%Q. lra. }
  apply Qabs_le_iff in Hp. apply Qabs_le_iff.
  change (2 ^ (8 - 53))%Q with (1 # 35184372088832)%Q in Hp.
  generalize dependent (Float.fl (q * 100)). intros p Hp. lra.
Qed.

(** The number of hundredths that [round(_, 2)] keeps of a percentage. *)
Lemma hundredths_close (h t : nat) :
  h <= t -> 0 < t ->
  (Qabs (inject_Z (round_half_even (Session.percent h t * 100)) - Qnat h / Qnat t * 10000)
   <= (1 # 2) + (1 # 10000000000))%Q
  /\ (0 <= round_half_even (Session.percent h t * 100) <= 10000)%Z.
Proof.
  intros Hle Hpos. destruct (ratio_bounds h t Hle Hpos) as [H0 H1].
  pose proof (percent_close h t Hle Hpos) as Hp. apply Qabs_le_iff in Hp.
  pose proof (round_half_even_close (Session.percent h t * 100)) as Hk.
  remember (Session.percent h t) as p eqn:Ep. clear Ep.
  remember (round_half_even (p * 100)) as k eqn:Ek. clear Ek.
  remember (Qnat h / Qnat t)%Q as x eqn:Ex. clear Ex.
  assert (Hc : (Qabs (inject_Z k - x * 10000) <= (1 # 2) + (1 # 10000000000))%Q).
  { apply Qabs_le_iff. lra. }
  split; [exact Hc |]. apply Qabs_le_iff in Hc.
  assert (Hlo : (inject_Z (-1) < inject_Z k)%Q) by (change (inject_Z (-1)) with (-1)%Q; lra).
  assert (Hhi : (inject_Z k < inject_Z 10001)%Q) by (change (inject_Z 10001) with 10001%Q; lra).
  rewrite <- Zlt_Qlt in Hlo, Hhi. lia.
Qed.

(** The double stored for [k] hundredths, [0 <= k <= 10000]. *)
Lemma stored_hundredths (k : Z) :
  (0 <= k <= 10000)%Z ->
  (Qabs (Float.fl (inject_Z k / 100) - inject_Z k / 100) <= 1 # 70368744177664)%Q
  /\ (0 <= Float.fl (inject_Z k / 100) <= 100)%Q.
Proof.
  intros [Hlo Hhi].
  assert (Hk : (0 <= inject_Z k <= 10000)%Q).
  { change 0%Q with (inject_Z 0). change 10000%Q with (inject_Z 10000).
    rewrite <- !Zle_Qle. lia. }
  assert (He : (Qabs (Float.fl (inject_Z k / 100) - inject_Z k / 100) <= 2 ^ (7 - 53))%Q).
  { apply fl_error; [| lia]. apply Qabs_le_iff. change (2 ^ 7)%Q with 128%Q.
    unfold Qdiv. change (/ 100)%Q with (1 # 100)%Q. lra. }
  change (2 ^ (7 - 53))%Q with (1 # 70368744177664)%Q in He.
  split; [exact He |]. apply Qabs_le_iff in He.
  destruct (Z.eq_dec k 0%Z) as [-> | Hnz]; [split; vm_compute; discriminate |].
  destruct (Z.eq_dec k 10000%Z) as [-> | Hn]; [split; vm_compute; discriminate |].
  assert (Hk' : (1 <= inject_Z k <= 9999)%Q).
  { change 1%Q with (inject_Z 1). change 9999%Q with (inject_Z 9999).
    rewrite <- !Zle_Qle. lia. }
  unfold Qdiv in *. change (/ 100)%Q with (1 # 100)%Q in *.
  generalize dependent (Float.fl (inject_Z k * (1 # 100))). intros r He.
  generalize dependent (inject_Z k). intros K _ HK He. lra.
Qed.

Lemma round2_is (x : Q) : round x 2 = Float.fl (inject_Z (round_half_even (x * 100)) / 100).
Proof. reflexivity. Qed.

(** The two rates of a session with [h] hits and [m] misses. *)
Lemma rates_of_counts (h m : nat) :
  0 < h + m ->
  let kh := round_half_even (Session.percent h (h + m) * 100) in
  let km := round_half_even (Session.percent m (h + m) * 100) in
  (0 <= kh <= 10000)%Z /\ (0 <= km <= 10000)%Z
  /\ (9999 <= kh + km <= 10001)%Z
  /\ (Qabs (round (Session.percent h (h + m)) 2 + round (Session.percent m (h + m)) 2 - 100)
      <= (1 # 100) + (1 # 1000000000000))%Q.
Proof.
  intros Hpos kh km.
  destruct (hundredths_close h (h + m) ltac:(lia) Hpos) as [Hh Hhb].
  destruct (hundredths_close m (h + m) ltac:(lia) Hpos) as [Hm Hmb].
  fold kh in Hh, Hhb. fold km in Hm, Hmb.
  pose proof (rates_sum h m Hpos) as Hs.
  apply Qabs_le_iff in Hh, Hm.
  assert (Hsum : (9999 <= kh + km <= 10001)%Z).
  { assert (Hlo : (inject_Z 9998 < inject_Z (kh + km))%Q).
    { rewrite inject_Z_plus. change (inject_Z 9998) with 9998%Q.
      generalize dependent (inject_Z kh). generalize dependent (inject_Z km).
      generalize dependent (Qnat h / Qnat (h + m))%Q.
      generalize dependent (Qnat m / Qnat (h + m))%Q. intros. lra. }
    assert (Hhi : (inject_Z (kh + km) < inject_Z 10002)%Q).
    { rewrite inject_Z_plus. change (inject_Z 10002) with 10002%Q.
      generalize dependent (inject_Z kh). generalize dependent (inject_Z km).
      generalize dependent (Qnat h / Qnat (h + m))%Q.
      generalize dependent (Qnat m / Qnat (h + m))%Q. intros. lra. }
    rewrite <- Zlt_Qlt in Hlo, Hhi. lia. }
  split; [exact Hhb |]. split; [exact Hmb |]. split; [exact Hsum |].
  rewrite !round2_is. fold kh km.
  destruct (stored_hundredths kh Hhb) as [Eh _].
  destruct (stored_hundredths km Hmb) as [Em _].
  apply Qabs_le_iff in Eh, Em. apply Qabs_le_iff.
  assert (Hq : (9999 <= inject_Z kh + inject_Z km <= 10001)%Q).
  { rewrite <- inject_Z_plus. change 9999%Q with (inject_Z 9999).
    change 10001%Q with (inject_Z 10001). rewrite <- !Zle_Qle. exact Hsum. }
  unfold Qdiv in *. change (/ 100)%Q with (1 # 100)%Q in *.
  generalize dependent (Float.fl (inject_Z kh * (1 # 100))). intros rh Eh.
  generalize dependent (Float.fl (inject_Z km * (1 # 100))). intros rm Em.
  clear Hh Hm Hs.
  generalize dependent (inject_Z kh). generalize dependent (inject_Z km). intros. lra.
Qed.

Lemma cost_of_zero : Session.cost_of 0 = 0%Q.
Proof. vm_compute. reflexivity. Qed.

(** [0.002] as a double. *)
Lemma cost_per_1k_close :
  (Qabs (estimated_cost_per_1k_tokens - (2 # 1000)) <= 1 # 1000000000000000000)%Q.
Proof. vm_compute. discriminate. Qed.

Lemma small_pow2 : (2 ^ (-10) <= 1 # 1000)%Q.
Proof. vm_compute. discriminate. Qed.

(** The cost of [n] responses is [0.002 n] up to three roundings. *)
Lemma cost_of_close (n : nat) :
  (Qabs (Session.cost_of n - Qnat n * (2 # 1000)) <= Qnat n * (1 # 100000000000000000))%Q.
Proof.
  destruct n as [| n].
  - rewrite cost_of_zero. vm_compute. discriminate.
  - unfold Session.cost_of, Float.mul, Float.div, estimated_tokens_per_response.
    assert (Hx : (Qnat (S n * 1000) / 1000 == Qnat (S n))%Q).
    { unfold Qnat. rewrite Nat2Z.inj_mul, inject_Z_mult.
      change (inject_Z (Z.of_nat 1000)) with 1000%Q. field. }
    pose proof (Qnat_mono 1 (S n) ltac:(lia)) as H1. change (Qnat 1) with 1%Q in H1.
    set (x := (Qnat (S n * 1000) / 1000)%Q) in *.
    assert (Hf := fl_relative_pos x 0).
    change (2 ^ 0)%Q with 1%Q in Hf. specialize (Hf ltac:(lra) ltac:(lia)).
    pose proof cost_per_1k_close as Hc. apply Qabs_le_iff in Hc.
    set (c := estimated_cost_per_1k_tokens) in *.
    set (f := Float.fl x) in *.
    assert (Hy : (1 # 1000 <= f * c)%Q).
    { generalize dependent f. generalize dependent c. generalize dependent x.
      generalize dependent (Qnat (S n)). intros. nra. }
    assert (Hg := fl_relative_pos (f * c) (-10)).
    pose proof small_pow2 as Hs.
    specialize (Hg ltac:(lra) ltac:(lia)).
    apply Qabs_le_iff.
    generalize dependent (Float.fl (f * c)). intros g Hg.
    generalize dependent f. generalize dependent c. generalize dependent x.
    generalize dependent (Qnat (S n)). intros N HN x Hx c Hc f Hf Hy. intros.
    rewrite Hx in Hf. clear Hx x Hs.
    split; nra.
Qed.


Lemma potential_cost_zero (m : session) :
  total_queries m = 0 -> (Session.potential_cost m == 0)%Q.
Proof. intros H. unfold Session.potential_cost. rewrite H, cost_of_zero. reflexivity. Qed.

Lemma cost_of_large (n : nat) : 0 < n -> (19 # 10000 <= Session.cost_of n)%Q.
Proof.
  intros H. pose proof (cost_of_close n) as Hc. apply Qabs_le_iff in Hc.
  pose proof (Qnat_mono 1 n H) as H1. change (Qnat 1) with 1%Q in H1.
  generalize dependent (Session.cost_of n). generalize dependent (Qnat n). intros. lra.
Qed.

(** A cost is stored as 0 only for no response at all. *)
Lemma stored_cost_pos (n : nat) : 0 < n -> (0 < round (Session.cost_of n) 4)%Q.
Proof.
  intros H. pose proof (cost_of_large n H) as Hc.
  unfold round. change (inject_Z (10 ^ Z.of_nat 4)) with 10000%Q.
  pose proof (round_half_even_close (Session.cost_of n * 10000)) as Hk.
  remember (Session.cost_of n) as c eqn:Ec. clear Ec.
  remember (round_half_even (c * 10000)) as k eqn:Ek. clear Ek.
  assert (Hx : (2 ^ (-14) <= inject_Z k / 10000)%Q).
  { change (2 ^ (-14))%Q with (1 # 16384)%Q.
    unfold Qdiv. change (/ 10000)%Q with (1 # 10000)%Q. lra. }
  pose proof (fl_relative_pos _ (-14) Hx ltac:(lia)) as Hf.
  change (2 ^ (-14))%Q with (1 # 16384)%Q in Hx.
  generalize dependent (Float.fl (inject_Z k / 10000)).
  generalize dependent (inject_Z k / 10000)%Q. intros. lra.
Qed.

Lemma reduction_zero (m : session) :
  (Session.potential_cost m == 0)%Q ->
  cost_reduction_percentage (Session.derive m) = 0%Q.
Proof.
  intros H. unfold Session.derive. cbn [cost_reduction_percentage].
  destruct (Qlt_le_dec 0 (Session.potential_cost m)) as [Hlt | _].
  - exfalso. rewrite H in Hlt. exact (Qlt_irrefl _ Hlt).
  - vm_compute. reflexivity.
Qed.

(** C9.  After [calculate_derived_metrics] in a reachable state: with at
    least one query the hit rate and the miss rate are the doubles nearest
    to two decimals of two places whose hundredths add up to 9999, 10000 or
    10001, so the stored rates add up to 100 within one unit of the last
    place, 0.01, and the [10^-12] that the two conversions to doubles can
    add; with no query both are 0; and the cost reduction is 0 whenever the
    potential cost, as computed or as stored, is 0. *)
Theorem derived_rates (E : env) (s : state) :
  reachable E s ->
  let m := current_session s in
  exists d : derived,
    derived_metrics (current_session (snd (calculate_derived_metrics s))) = Some d
    /\ (0 < total_queries m ->
        (exists kh km : Z,
           cache_hit_rate d = Float.fl (inject_Z kh / 100)
           /\ cache_miss_rate d = Float.fl (inject_Z km / 100)
           /\ (9999 <= kh + km <= 10001)%Z)
        /\ (Qabs (cache_hit_rate d + cache_miss_rate d - 100)
            <= (1 # 100) + (1 # 1000000000000))%Q)
    /\ (total_queries m = 0 -> cache_hit_rate d = 0%Q /\ cache_miss_rate d = 0%Q)
    /\ ((Session.potential_cost m == 0)%Q -> cost_reduction_percentage d = 0%Q)
    /\ (potential_cost_without_caching d = 0%Q -> cost_reduction_percentage d = 0%Q).
Proof.
  intros Hr. cbv zeta. exists (Session.derive (current_session s)).
  split; [reflexivity |].
  destruct (reachable_session_ok E s Hr) as (Ht & _).
  set (m := current_session s) in *. repeat split.
  - unfold Session.derive. cbn [cache_hit_rate cache_miss_rate].
    destruct (Nat.ltb_spec 0 (total_queries m)) as [_ | Hle]; [| lia].
    rewrite Ht in *.
    destruct (rates_of_counts (cache_hits m) (cache_misses m) H) as (_ & _ & Hsum & _).
    eexists _, _. split; [reflexivity |]. split; [reflexivity | exact Hsum].
  - unfold Session.derive. cbn [cache_hit_rate cache_miss_rate].
    destruct (Nat.ltb_spec 0 (total_queries m)) as [_ | Hle]; [| lia].
    rewrite Ht in *.
    destruct (rates_of_counts (cache_hits m) (cache_misses m) H) as (_ & _ & _ & Hb).
    exact Hb.
  - unfold Session.derive. cbn [cache_hit_rate]. rewrite H. reflexivity.
  - unfold Session.derive. cbn [cache_miss_rate]. rewrite H. reflexivity.
  - apply reduction_zero.
  - intros H0. apply reduction_zero.
    destruct (Nat.eq_dec (total_queries m) 0) as [Hz | Hnz].
    + apply potential_cost_zero, Hz.
    + exfalso.
      pose proof (stored_cost_pos (total_queries m) ltac:(lia)) as Hl.
      unfold Session.derive in H0. cbn [potential_cost_without_caching] in H0.
      unfold Session.potential_cost in H0. rewrite H0 in Hl. exact (Qlt_irrefl _ Hl).
Qed.

Lemma derived_rates_witness :
  let E := fixed_env rate_limited in
  let s := snd (log_query E "Recommend a red wine under $30" false (3 # 2) (Some "auto") None
                  (snd (log_query E "What wine pairs with steak?" true (1 # 2)
                          (Some "auto") None
                          (snd (log_query E "What wine pairs with lamb?" true (1 # 4)
                                  (Some "auto") None start_state))))) in
  exists d : derived,
    derived_metrics (current_session (snd (calculate_derived_metrics s))) = Some d
    /\ cache_hit_rate d = Float.fl (6667 # 100)
    /\ cache_miss_rate d = Float.fl (3333 # 100)
    /\ (Qabs (cache_hit_rate d + cache_miss_rate d - 100)
        <= (1 # 100) + (1 # 1000000000000))%Q.
Proof.
  cbv zeta.
  destruct (derived_rates (fixed_env rate_limited) _
              (reach_log_query _ _ "Recommend a red wine under $30" false (3 # 2)
                 (Some "auto") None
                 (reach_log_query _ _ "What wine pairs with steak?" true (1 # 2)
                    (Some "auto") None
                    (reach_log_query _ _ "What wine pairs with lamb?" true (1 # 4)
                       (Some "auto") None
                       (reach_new _ start_state "2025-03-01T12:00:00" eq_refl)))))
    as (d & Hd & Hsum & _).
  exists d. split; [exact Hd |].
  injection Hd as <-.
  split; [vm_compute; reflexivity |]. split; [vm_compute; reflexivity |].
  apply Hsum. vm_compute. lia.
Defined.

(** ** The size of the query sent to the generation endpoint *)

Lemma length_append (a b : string) :
  String.length (a +:+ b) = String.length a + String.length b.
Proof. induction a as [| c a IH]; simpl; [reflexivity | rewrite IH; reflexivity]. Qed.

Lemma ascii_not_cont (c : ascii) : Nat.ltb (Py.code c) 128 = true -> Py.is_cont c = false.
Proof.
  unfold Py.is_cont. intros H. apply Nat.ltb_lt in H.
  destruct (Nat.leb_spec 128 (Py.code c)); [lia | reflexivity].
Qed.

Lemma ascii_len (s : string) : is_ascii s = true -> Py.len s = String.length s.
Proof.
  unfold is_ascii. induction s as [| c r IH]; [reflexivity |].
  cbn [list_ascii_of_string forallb Py.len String.length].
  intros H. apply andb_true_iff in H. destruct H as [Hc Hr].
  rewrite (ascii_not_cont c Hc), (IH Hr). reflexivity.
Qed.

Lemma ascii_take_length (n : nat) (s : string) :
  is_ascii s = true -> String.length (Py.take n s) <= n.
Proof.
  unfold is_ascii. revert n. induction s as [| c r IH]; intros n; [simpl; lia |].
  cbn [list_ascii_of_string forallb Py.take].
  intros H. apply andb_true_iff in H. destruct H as [Hc Hr].
  rewrite (ascii_not_cont c Hc).
  destruct n as [| k]; cbn [String.length]; [lia |]. specialize (IH k Hr). lia.
Qed.

Lemma ascii_truncate_length (query : string) :
  is_ascii query = true -> String.length (truncate_query query) <= 453.
Proof.
  intros H. unfold truncate_query. rewrite (ascii_len query H).
  destruct (Nat.ltb_spec 450 (String.length query)) as [Hlt | Hle]; [| lia].
  rewrite length_append. pose proof (ascii_take_length 450 query H). simpl. lia.
Qed.

(** X23.  For a query of ASCII characters the request text stays within 512
    bytes, whatever the history. *)
Lemma ascii_query_within_limit (history : list message) (query : string) :
  is_ascii query = true ->
  Py.byte_len (full_query_of history (truncate_query query)) <= 512.
Proof.
  intros H. unfold full_query_of.
  destruct (Nat.ltb_spec 512
              (Py.byte_len (_build_conversation_context history +:+ nl +:+ nl +:+ "User: "
                              +:+ truncate_query query))) as [Hlt | Hle]; [| exact Hle].
  unfold Py.byte_len, Py.encode. rewrite length_append.
  pose proof (ascii_truncate_length query H). simpl. lia.
Qed.

(** C8 (what the code does on the failing input).  A query of 200 euro
    signs has 200 characters, so it is not truncated, and 600 bytes; the
    request text built for it, [User: ] and the query, has 606 bytes, and
    this is the text [process_query] posts. *)
Theorem full_query_over_limit :
  let query := times 200 "€" in
  Py.len query = 200
  /\ truncate_query query = query
  /\ Py.byte_len (full_query_of [] (truncate_query query)) = 606
  /\ map (fun r => Py.byte_len (rq_query r))
         (posted (snd (process_query (fixed_env (HttpOk false (Some "A Malbec.")))
                         query None None start_state)))
     = [606].
Proof.
  cbv zeta. repeat split; vm_compute; reflexivity.
Qed.

(** ** Retries of the generation request *)

Lemma wp_ret {A} (a : A) (Q : A -> state -> Prop) (s : state) : Q a s -> wp (ret a) Q s.
Proof. exact (fun H => H). Qed.

Lemma wp_bind {A B} (c : M A) (k : A -> M B) (Q : B -> state -> Prop) (s : state) :
  wp c (fun a => wp (k a) Q) s -> wp (bind c k) Q s.
Proof. unfold wp, bind. destruct (c s) as [a s']. exact (fun H => H). Qed.

Lemma wp_gets {A} (f : state -> A) (Q : A -> state -> Prop) (s : state) :
  Q (f s) s -> wp (gets f) Q s.
Proof. exact (fun H => H). Qed.

Lemma wp_modify (f : state -> state) (Q : unit -> state -> Prop) (s : state) :
  Q tt (f s) -> wp (modify f) Q s.
Proof. exact (fun H => H). Qed.

Lemma wp_ask {A} (oracle : nat -> A) (Q : A -> state -> Prop) (s : state) :
  Q (oracle (clock s))
    (with_world (S (clock s)) (metrics_file s) (slept s) (posted s) (saved s) s) ->
  wp (ask oracle) Q s.
Proof. exact (fun H => H). Qed.

Lemma wp_conseq {A} (c : M A) (Q Q' : A -> state -> Prop) (s : state) :
  wp c Q s -> (forall a s', Q a s' -> Q' a s') -> wp c Q' s.
Proof. unfold wp. intros H HQ. apply HQ, H. Qed.

Ltac wp_simpl :=
  cbv beta;
  cbn [clock slept posted saved metrics_file conversation_id conversation_history
       current_session all_sessions data_sources prompts
       with_world with_session with_conversation].

Ltac wp_step :=
  lazymatch goal with
  | |- wp (bind _ _) _ _ => apply wp_bind
  | |- wp (ret _) _ _ => apply wp_ret
  | |- wp (gets _) _ _ => apply wp_gets
  | |- wp (modify _) _ _ => apply wp_modify
  | |- wp (ask _) _ _ => apply wp_ask
  | |- wp (sleep _) _ _ => unfold sleep
  | |- wp (set_conversation_id _) _ _ => unfold set_conversation_id
  | |- wp (append_history _) _ _ => unfold append_history
  | |- wp (log_error _ _ _) _ _ => unfold log_error
  | |- wp (log_query _ _ _ _ _ _) _ _ => unfold log_query
  | |- wp (search_index _ _ _ _ _) _ _ => unfold search_index
  | |- wp (get_object_op _ _ _) _ _ => unfold get_object_op
  end; wp_simpl.

Ltac wp_run := repeat wp_step.

Section Retries.

Variable E : env.

Lemma attempts_rate_limited (remaining attempt : nat) (retry_delay : Z)
    (data : request) (s : state) :
  (forall n d, exists msg, post E n d = HttpError (Some 429) msg) ->
  wp (attempts E remaining attempt retry_delay data)
     (fun r s' =>
        r = mkResponseData (Some apology_after_retries) (conversation_id s)
        /\ same_conversation s s'
        /\ same_counters s s'
        /\ slept s' = slept s ++ backoff remaining retry_delay
        /\ posted s' = posted s ++ repeat data remaining
        /\ api_errors (current_session s') = api_errors (current_session s) + remaining)
     s.
Proof.
  intros Hpost. revert attempt retry_delay s.
  induction remaining as [| n IH]; intros attempt retry_delay s; cbn [attempts].
  - wp_run. cbn [backoff repeat]. rewrite !app_nil_r.
    repeat split; try reflexivity. lia.
  - wp_run. destruct (Hpost (clock s) data) as [msg ->]. wp_run.
    cbn [is_rate_limit Nat.eqb]. wp_run.
    eapply wp_conseq; [apply IH |]. wp_simpl.
    intros r s' (-> & Hconv & Hcount & Hslept & Hposted & Herr).
    unfold same_conversation, same_counters in *. wp_simpl.
    cbn [total_queries cache_hits cache_misses api_errors Session.log_error] in *.
    rewrite Hslept, Hposted, Herr, <- !app_assoc. cbn [backoff repeat app].
    repeat split; try tauto. lia.
Qed.

Lemma attempts_not_retried (status_code : option nat) (n attempt : nat) (retry_delay : Z)
    (data : request) (s : state) :
  is_rate_limit status_code = false ->
  (forall n d, exists msg, post E n d = HttpError status_code msg) ->
  wp (attempts E (S n) attempt retry_delay data)
     (fun r s' =>
        r = mkResponseData (Some apology_request_error) (conversation_id s)
        /\ same_conversation s s'
        /\ same_counters s s'
        /\ slept s' = slept s
        /\ posted s' = posted s ++ [data]
        /\ api_errors (current_session s') = api_errors (current_session s) + 1)
     s.
Proof.
  intros Hcode Hpost. cbn [attempts].
  wp_run. destruct (Hpost (clock s) data) as [msg ->]. wp_run.
  rewrite Hcode. wp_run.
  repeat split; reflexivity.
Qed.

Hypothesis index_is_empty :
  (forall n i o, exists msg, get_object E n i o = Raise msg)
  /\ (forall n i q k f, search E n i q k f = Ok []).

Lemma find_previous_response_misses (query : string) (data_source_id prompt_id : option string)
    (s : state) :
  wp (find_previous_response E query data_source_id prompt_id)
     (fun r s' => r = None /\ same_conversation s s' /\ same_counters s s' /\ same_trace s s')
     s.
Proof.
  destruct index_is_empty as [Hget Hsearch].
  unfold find_previous_response. wp_run.
  match goal with
  | |- context [get_object E ?n ?i ?o] => destruct (Hget n i o) as [msg ->]
  end.
  wp_run. rewrite Hsearch. change (find_best_match ?q []) with (@None hit). cbv iota.
  assert (Hdone : forall s0 : state,
             same_conversation s s0 -> same_counters s s0 -> same_trace s s0 ->
             wp (ret None)
                (fun (r : option hit) s' =>
                   r = None /\ same_conversation s s' /\ same_counters s s' /\ same_trace s s')
                s0).
  { intros s0 H1 H2 H3. apply wp_ret. auto. }
  destruct (_is_food_pairing_query (Py.strip (Py.lower query)));
    [destruct (_extract_food_items (Py.strip (Py.lower query))) |];
    try (apply Hdone; repeat split; reflexivity).
  wp_run. rewrite Hsearch. wp_run. repeat split; reflexivity.
Qed.

Ltac wp_facts :=
  unfold same_conversation, same_counters, same_trace in *;
  cbv beta in *;
  cbn [clock slept posted saved metrics_file conversation_id conversation_history
       current_session all_sessions data_sources prompts
       with_world with_session with_conversation
       total_queries cache_hits cache_misses api_errors
       Session.log_error Session.log_query Session._track_algolia_operation
       reply_response rd_response default] in *.

(** C7 (as the code has it).  When the index has no answer and every
    generation request fails with the same HTTP error: a 429 is retried up to
    three attempts with waits of 2, 4 and 8 seconds, any other status ends
    the loop at the first attempt without waiting; either way the caller gets
    one apology (never the high-demand wording), one miss is logged, and one
    error is logged per attempt. *)
Theorem generation_errors_policy (status_code : option nat)
    (query : string) (prompt_type conversation_id_arg : option string) (s : state) :
  (forall n q p, exists prompt_id, select_prompt E n q p = Ok prompt_id) ->
  (forall n d, exists msg, post E n d = HttpError status_code msg) ->
  let retried := is_rate_limit status_code in
  let tries := if retried then 3 else 1 in
  let r := process_query E query prompt_type conversation_id_arg s in
  let m := current_session s in
  let m' := current_session (snd r) in
  reply_response (fst r) = (if retried then apology_after_retries else apology_request_error)
  /\ reply_response (fst r) <> high_demand
  /\ slept (snd r) = slept s ++ (if retried then [2; 4; 8] else [])%Z
  /\ List.length (posted (snd r)) = List.length (posted s) + tries
  /\ api_errors m' = api_errors m + tries
  /\ total_queries m' = total_queries m + 1
  /\ cache_misses m' = cache_misses m + 1
  /\ cache_hits m' = cache_hits m.
Proof.
  intros Hsel Hpost. cbv zeta.
  change (wp (process_query E query prompt_type conversation_id_arg)
            (fun r s' =>
               reply_response r
               = (if is_rate_limit status_code then apology_after_retries
                  else apology_request_error)
               /\ reply_response r <> high_demand
               /\ slept s' = slept s ++ (if is_rate_limit status_code then [2; 4; 8] else [])%Z
               /\ List.length (posted s')
                  = List.length (posted s) + (if is_rate_limit status_code then 3 else 1)
               /\ api_errors (current_session s')
                  = api_errors (current_session s) + (if is_rate_limit status_code then 3 else 1)
               /\ total_queries (current_session s') = total_queries (current_session s) + 1
               /\ cache_misses (current_session s') = cache_misses (current_session s) + 1
               /\ cache_hits (current_session s') = cache_hits (current_session s))
            s).
  unfold process_query. wp_run.
  destruct (Py.truthy conversation_id_arg); wp_run.
  all: match goal with
       | |- context [select_prompt E ?n ?q ?p] => destruct (Hsel n q p) as [prompt_id ->]
       end.
  all: wp_run.
  all: eapply wp_conseq; [apply find_previous_response_misses |].
  all: intros r s2 (-> & Hconv2 & Hcount2 & Htrace2); wp_run.
  all: unfold generate_response, max_retries, base_retry_delay; wp_run.
  all: destruct (Py.truthy (conversation_id s2)); wp_run.
  all: destruct (is_rate_limit status_code) eqn:Hrl.
  all: try (destruct status_code as [code |]; [| discriminate Hrl];
            apply Nat.eqb_eq in Hrl; subst code;
            eapply wp_conseq; [apply (attempts_rate_limited 3 0 2 _ _ Hpost) |]).
  all: try (eapply wp_conseq; [apply (attempts_not_retried status_code 2 0 2 _ _ Hrl Hpost) |]).
  all: intros rd s3 (-> & Hconv3 & Hcount3 & Hslept3 & Hposted3 & Herr3); wp_run.
  all: cbn [rd_conversationID rd_response].
  all: match goal with |- wp (if ?b then _ else _) _ _ => destruct b end; wp_run.
  all: wp_facts.
  all: destruct Htrace2 as (Hslept2 & Hposted2 & Herr2).
  all: destruct Hcount2 as (Htotal2 & Hhits2 & Hmisses2).
  all: destruct Hcount3 as (Htotal3 & Hhits3 & Hmisses3).
  all: rewrite Hslept3, Hposted3, Herr3, Htotal3, Hhits3, Hmisses3,
         Hslept2, Hposted2, Herr2, Htotal2, Hhits2, Hmisses2.
  all: rewrite ?length_app, ?app_nil_r; cbn [backoff repeat List.length Z.mul].
  all: repeat split; try reflexivity; try discriminate; try lia.
Qed.
End Retries.

Lemma generation_errors_policy_witness :
  let r := process_query (fixed_env rate_limited) "What wine pairs with steak?"
             None None start_state in
  reply_response (fst r) = apology_after_retries
  /\ slept (snd r) = [2; 4; 8]%Z
  /\ api_errors (current_session (snd r)) = 3
  /\ cache_misses (current_session (snd r)) = 1.
Proof.
  cbv zeta.
  pose proof (generation_errors_policy (fixed_env rate_limited)
                (conj (fun n i o => ex_intro _ "ObjectID does not exist" eq_refl)
                      (fun n i q k f => eq_refl))
                (Some 429) "What wine pairs with steak?" None None start_state
                (fun n q p => ex_intro _ (Some "prompt-sommelier") eq_refl)
                (fun n d => ex_intro _ "429 Client Error: Too Many Requests" eq_refl)) as H.
  cbv zeta in H. destruct H as (H1 & _ & H3 & _ & H5 & _ & H7 & _).
  split; [exact H1 |]. split; [exact H3 |]. split; [exact H5 | exact H7].
Defined.

(** C7 as stated fails: after three rate-limit failures the reply is the
    apology of [generate_response], not the high-demand message, and the
    session holds three error entries beside the one miss. *)
Lemma three_rate_limits_logged_thrice :
  let r := process_query (fixed_env rate_limited) "What wine pairs with steak?"
             None None start_state in
  reply_response (fst r) <> high_demand
  /\ reply_response (fst r) = apology_after_retries
  /\ api_errors (current_session (snd r)) = 3
  /\ option_map (@List.length error_entry) (errors (current_session (snd r))) = Some 3
  /\ total_queries (current_session (snd r)) = 1
  /\ cache_misses (current_session (snd r)) = 1
  /\ List.length (posted (snd r)) = 3
  /\ slept (snd r) = [2; 4; 8]%Z.
Proof.
  cbv zeta. vm_compute. repeat split; try reflexivity. discriminate.
Qed.

(** A status other than 429, here a server error, is not retried. *)
Example server_error_not_retried :
  let r := process_query (fixed_env (HttpError (Some 503) "503 Server Error"))
             "What wine pairs with steak?" None None start_state in
  reply_response (fst r) = apology_request_error
  /\ slept (snd r) = []
  /\ List.length (posted (snd r)) = 1
  /\ api_errors (current_session (snd r)) = 1.
Proof. cbv zeta. vm_compute. repeat split; reflexivity. Qed.

(** The high-demand wording is reached only through the [except] clause of
    [process_query], for instance when prompt selection raises. *)
Example high_demand_from_prompt_selection :
  let E := {| iso_now := iso_now (fixed_env rate_limited);
              time_now := time_now (fixed_env rate_limited);
              uuid8 := uuid8 (fixed_env rate_limited);
              select_prompt := fun _ _ _ => Raise "Rate limit exceeded";
              get_object := get_object (fixed_env rate_limited);
              search := search (fixed_env rate_limited);
              post := post (fixed_env rate_limited);
              save_object := save_object (fixed_env rate_limited);
              write_file := write_file (fixed_env rate_limited);
              file_opened := file_opened (fixed_env rate_limited) |} in
  let r := process_query E "What wine pairs with steak?" None None start_state in
  reply_response (fst r) = high_demand
  /\ api_errors (current_session (snd r)) = 1
  /\ cache_misses (current_session (snd r)) = 1
  /\ posted (snd r) = [].
Proof. cbv zeta. vm_compute. repeat split; reflexivity. Qed.

(** * Further properties of the code *)

(** ** Similarity as a measure on word sets *)

Lemma Qnat_le (a b : nat) : a <= b -> (Qnat a <= Qnat b)%Q.
Proof. intros H. unfold Qnat. rewrite <- Zle_Qle. lia. Qed.

Lemma Qnat_eq_inv (a b : nat) : (Qnat a == Qnat b)%Q -> a = b.
Proof. unfold Qnat. intros H. apply Nat2Z.inj, inject_Z_injective. exact H. Qed.

Lemma union_size_pos (A B : gset string) : A <> ∅ -> 0 < size (A ∪ B).
Proof.
  intros HA. destruct (size (A ∪ B)) eqn:Hs; [| lia].
  exfalso. apply HA. apply size_empty_iff in Hs. set_solver.
Qed.

Lemma inter_size_le_union (A B : gset string) : size (A ∩ B) <= size (A ∪ B).
Proof. apply subseteq_size. set_solver. Qed.

(** X1.  The similarity of two texts always lies between 0 and 1. *)
Theorem similarity_in_unit_interval (a b : string) :
  (0 <= _calculate_text_similarity a b <= 1)%Q.
Proof.
  unfold _calculate_text_similarity.
  destruct (decide (word_set a = ∅ ∨ word_set b = ∅)) as [_ | Hne]; [split; discriminate |].
  assert (Ha : word_set a <> ∅) by tauto.
  pose proof (Qnat_pos _ (union_size_pos (word_set a) (word_set b) Ha)) as Hu.
  rewrite Qred_correct. split.
  - apply Qle_shift_div_l; [exact Hu |]. rewrite Qmult_0_l.
    change 0%Q with (Qnat 0). apply Qnat_le. lia.
  - apply Qle_shift_div_r; [exact Hu |]. rewrite Qmult_1_l.
    apply Qnat_le, inter_size_le_union.
Qed.

(** X2.  The similarity is 1 exactly when the two texts have the same,
    non-empty, set of lower-cased words, and 0 exactly when they share no
    word. *)
Theorem similarity_extremes (a b : string) :
  (_calculate_text_similarity a b = 1%Q
   <-> word_set a = word_set b /\ word_set a <> ∅)
  /\ (_calculate_text_similarity a b = 0%Q <-> word_set a ∩ word_set b = ∅).
Proof.
  unfold _calculate_text_similarity.
  destruct (decide (word_set a = ∅ ∨ word_set b = ∅)) as [He | Hne].
  - split; split.
    + discriminate.
    + intros [Hab Ha]. exfalso. destruct He as [He | He]; [tauto |].
      rewrite Hab in Ha. tauto.
    + intros _. destruct He as [He | He]; rewrite He; set_solver.
    + reflexivity.
  - assert (Ha : word_set a <> ∅) by tauto.
    pose proof (union_size_pos (word_set a) (word_set b) Ha) as Hpos.
    pose proof (Qnat_pos _ Hpos) as Hu.
    assert (Hu0 : ~ (Qnat (size (word_set a ∪ word_set b)) == 0)%Q).
    { intros H0. rewrite H0 in Hu. exact (Qlt_irrefl _ Hu). }
    split; split.
    + intros H1. split; [| exact Ha].
      assert (Hq : (Qnat (size (word_set a ∩ word_set b))
                    / Qnat (size (word_set a ∪ word_set b)) == 1)%Q).
      { rewrite <- (Qred_correct (_ / _)), H1. reflexivity. }
      assert (Hs : size (word_set a ∩ word_set b) = size (word_set a ∪ word_set b)).
      { apply Qnat_eq_inv.
        rewrite <- (Qmult_1_l (Qnat (size (word_set a ∪ word_set b)))), <- Hq.
        field. exact Hu0. }
      assert (Hsub : word_set a ∩ word_set b ⊆ word_set a ∪ word_set b) by set_solver.
      apply set_subseteq_size_eq in Hsub; [| lia]. set_solver.
    + intros [Hab _]. rewrite <- Hab, intersection_idemp_L, union_idemp_L.
      apply Qnat_ratio_one. rewrite <- Hab, union_idemp_L in Hpos. lia.
    + intros H0.
      assert (Hq : (Qnat (size (word_set a ∩ word_set b))
                    / Qnat (size (word_set a ∪ word_set b)) == 0)%Q).
      { rewrite <- (Qred_correct (_ / _)), H0. reflexivity. }
      assert (Hs : size (word_set a ∩ word_set b) = 0).
      { apply Qnat_eq_inv. change (Qnat 0) with 0%Q.
        rewrite <- (Qmult_0_l (Qnat (size (word_set a ∪ word_set b)))), <- Hq.
        field. exact Hu0. }
      apply size_empty_iff in Hs. apply leibniz_equiv. exact Hs.
    + intros H0. rewrite H0, size_empty. change 0%Q with (Qred 0).
      apply Qred_complete. change (Qnat 0) with 0%Q. unfold Qdiv. apply Qmult_0_l.
Qed.

(** ** The conversation context *)

Lemma recent_messages_last_two (history : list message) (m1 m2 : message) :
  recent_messages (history ++ [m1; m2]) = [m1; m2].
Proof.
  unfold recent_messages. rewrite !length_app. cbn [List.length].
  destruct (Nat.leb_spec 2 (List.length history + 2)) as [_ | H]; [| lia].
  replace (List.length history + 2 - 2) with (List.length history + 0) by lia.
  rewrite skipn_app, Nat.add_0_r, skipn_all.
  replace (List.length history - List.length history) with 0 by lia.
  reflexivity.
Qed.

(** X3.  Only the last exchange counts: with at least two messages in the
    history, the context is the one built from the last two alone. *)
Theorem context_keeps_last_exchange (history : list message) (m1 m2 : message) :
  _build_conversation_context (history ++ [m1; m2]) = _build_conversation_context [m1; m2].
Proof.
  unfold _build_conversation_context.
  rewrite recent_messages_last_two.
  destruct history as [| m history]; reflexivity.
Qed.

(** X4.  Whatever the history, and whatever the size of its messages in
    bytes, the context has at most 450 bytes. *)
Theorem context_within_450_bytes (history : list message) :
  Py.byte_len (_build_conversation_context history) <= 450.
Proof.
  unfold _build_conversation_context.
  destruct history as [| m history].
  - vm_compute. lia.
  - match goal with
    | |- context [Nat.ltb 450 ?n] => destruct (Nat.ltb_spec 450 n) as [_ | Hle]
    end.
    + vm_compute. lia.
    + exact Hle.
Qed.

Example context_of_long_messages :
  let history := [mkMessage User (times 120 "é"); mkMessage Assistant (times 300 "€")] in
  Py.byte_len (_build_conversation_context history) = 122
  /\ Py.byte_len (_build_conversation_context [mkMessage User (times 120 "é")]) = 288.
Proof. cbv zeta. split; vm_compute; reflexivity. Qed.

Lemma ascii_query_within_limit_witness :
  is_ascii "What wine pairs with steak?" = true
  /\ Py.byte_len
       (full_query_of [mkMessage User "hello"; mkMessage Assistant "Welcome!"]
          (truncate_query "What wine pairs with steak?")) <= 512.
Proof.
  split; [reflexivity |].
  apply (ascii_query_within_limit
           [mkMessage User "hello"; mkMessage Assistant "Welcome!"]
           "What wine pairs with steak?").
  reflexivity.
Defined.

(** ** The shape of an essence *)

Lemma len_append (a b : string) : Py.len (a +:+ b) = Py.len a + Py.len b.
Proof.
  induction a as [| c a IH]; [reflexivity |].
  simpl. destruct (Py.is_cont c); rewrite IH; reflexivity.
Qed.

Lemma exact_part_len (normalized : string) : Py.len (exact_part normalized) <= 30.
Proof.
  unfold exact_part.
  match goal with
  | |- context [Nat.ltb 30 ?n] => destruct (Nat.ltb_spec 30 n) as [_ | Hle]
  end.
  - rewrite len_append. pose proof (take_len 10 (MD5.hexdigest
      (Py.join " " (List.filter (fun word => negb (Py.mem word exact_stopwords))
                                (Py.split normalized))))).
    change (Py.len "q_") with 2. lia.
  - exact Hle.
Qed.

(** X5.  Every essence is [exact_], then the exact part, which has at most
    30 characters however long the query is, then [_] and the category
    part. *)
Theorem essence_shape (query : string) :
  Py.len (exact_part (Py.strip (Py.lower query))) <= 30
  /\ exists rest : string,
       _get_query_essence query
       = "exact_" +:+ exact_part (Py.strip (Py.lower query)) +:+ "_" +:+ rest.
Proof.
  split; [apply exact_part_len |].
  unfold _get_query_essence, essence_of_normalized.
  destruct (if _is_food_pairing_query (Py.strip (Py.lower query))
            then _extract_food_items (Py.strip (Py.lower query)) else []).
  - destruct (if Py.any_in ["recommend"; "suggest"; "looking for"; "what wine"]
                   (Py.strip (Py.lower query))
              then constraints_of (Py.strip (Py.lower query)) else []).
    + eexists. reflexivity.
    + eexists. reflexivity.
  - eexists. reflexivity.
Qed.

(** ** Food items *)

Lemma rstrip_chars_last (chars s : string) :
  match last_char (Py.rstrip_chars chars s) with
  | Some c => Py.mem_char c chars = false
  | None => True
  end.
Proof.
  induction s as [| c r IH]; [exact I |].
  cbn [Py.rstrip_chars].
  destruct (Py.rstrip_chars chars r) as [| c' r'] eqn:Hr.
  - destruct (Py.mem_char c chars) eqn:Hc; [exact I | exact Hc].
  - exact IH.
Qed.

Lemma clean_foods_valid (found_foods : list string) :
  Forall valid_food (clean_foods found_foods).
Proof.
  unfold clean_foods. induction found_foods as [| food l IH]; [constructor |].
  cbn [flat_map]. apply Forall_app. split; [| exact IH].
  destruct (String.eqb (Py.strip (Py.rstrip_chars ".,?!:;" food)) "") eqn:He;
    [constructor |].
  destruct (Py.mem (Py.strip (Py.rstrip_chars ".,?!:;" food)) pronouns) eqn:Hp;
    [constructor |].
  cbn [orb]. constructor; [| constructor].
  repeat split.
  - apply String.eqb_neq. exact He.
  - exact Hp.
  - apply rstrip_chars_last.
Qed.

(** X6.  Whatever the query, every food item extracted from it is not
    blank, is not a bare pronoun ([that], [this], [these], [those], [it]),
    and does not end in one of the characters [.,?!:;]. *)
Theorem food_items_valid (query : string) :
  Forall valid_food (_extract_food_items query).
Proof.
  unfold _extract_food_items.
  repeat match goal with
         | |- Forall _ [] => constructor
         | |- Forall _ (clean_foods _) => apply clean_foods_valid
         | |- Forall _ (if ?b then _ else _) => destruct b
         | |- Forall _ (match ?x with _ => _ end) => destruct x
         end.
Qed.

Example food_items_examples :
  _extract_food_items "What pairs with it?" = []
  /\ _extract_food_items "what should I pair with grilled venison tonight?!"
     = ["grilled venison tonight"]
  /\ _extract_food_items "Pairing for blue cheese and ham." = ["ham"; "cheese"; "blue cheese"]
  /\ _extract_food_items "that first option sounds good with steak" = [].
Proof. vm_compute. repeat split; reflexivity. Qed.

(** ** Words: splitting and joining *)

Lemma split_is_word (s : string) : Forall (fun w => is_word w = true) (Py.split s).
Proof.
  induction s as [| c r IH]; [constructor |].
  cbn [Py.split]. destruct (Py.isspace c) eqn:Hc; [exact IH |].
  destruct r as [| c' r'].
  - constructor; [| constructor]. cbn. rewrite Hc. reflexivity.
  - destruct (Py.isspace c') eqn:Hc'.
    + constructor; [| exact IH]. cbn. rewrite Hc. reflexivity.
    + destruct (Py.split (String c' r')) as [| w ws].
      * constructor; [| constructor]. cbn. rewrite Hc. reflexivity.
      * inversion IH as [| ? ? Hw Hws]; subst. constructor; [| exact Hws].
        destruct w as [| a w]; [discriminate |].
        cbn in *. rewrite Hc. exact Hw.
Qed.

Lemma split_word (w : string) : is_word w = true -> Py.split w = [w].
Proof.
  induction w as [| c w IH]; [discriminate |].
  cbn [is_word list_ascii_of_string forallb]. intros H.
  apply andb_true_iff in H. destruct H as [Hc Hw]. apply negb_true_iff in Hc.
  cbn [Py.split]. rewrite Hc.
  destruct w as [| c' w']; [reflexivity |].
  assert (Hw' : is_word (String c' w') = true) by exact Hw.
  cbn [list_ascii_of_string forallb] in Hw.
  apply andb_true_iff in Hw. destruct Hw as [Hc' _]. apply negb_true_iff in Hc'.
  rewrite Hc', (IH Hw'). reflexivity.
Qed.

Lemma split_space (r : string) : Py.split (String " " r) = Py.split r.
Proof. reflexivity. Qed.

Lemma split_word_space (w r : string) :
  is_word w = true -> Py.split (w +:+ String " " r) = w :: Py.split r.
Proof.
  induction w as [| c w IH]; [discriminate |].
  cbn [is_word list_ascii_of_string forallb]. intros H.
  apply andb_true_iff in H. destruct H as [Hc Hw]. apply negb_true_iff in Hc.
  destruct w as [| c' w'].
  - cbn [String.append Py.split]. rewrite Hc.
    change (Py.isspace " ") with true. cbv iota. reflexivity.
  - assert (Hw' : is_word (String c' w') = true) by exact Hw.
    pose proof (IH Hw') as IH'.
    cbn [list_ascii_of_string forallb] in Hw.
    apply andb_true_iff in Hw. destruct Hw as [Hc' _]. apply negb_true_iff in Hc'.
    cbn [String.append] in *.
    change (Py.split (String c (String c' (w' +:+ String " " r))))
      with (if Py.isspace c then Py.split (String c' (w' +:+ String " " r))
            else if Py.isspace c' then String c "" :: Py.split (String c' (w' +:+ String " " r))
                 else match Py.split (String c' (w' +:+ String " " r)) with
                      | w :: ws => String c w :: ws
                      | [] => [String c ""]
                      end).
    rewrite Hc, Hc', IH'. reflexivity.
Qed.

Lemma split_join (ws : list string) :
  Forall (fun w => is_word w = true) ws -> Py.split (Py.join " " ws) = ws.
Proof.
  induction 1 as [| w ws Hw Hws IH]; [reflexivity |].
  destruct ws as [| w' ws'].
  - cbn [Py.join]. apply split_word, Hw.
  - change (Py.join " " (w :: w' :: ws'))
      with (w +:+ String " " (Py.join " " (w' :: ws'))).
    rewrite (split_word_space _ _ Hw), IH. reflexivity.
Qed.

Lemma no_space_lower (s : string) :
  forallb (fun c => negb (Py.isspace c)) (list_ascii_of_string (Py.lower s))
  = forallb (fun c => negb (Py.isspace c)) (list_ascii_of_string s).
Proof.
  induction s as [| a s IH]; [reflexivity |].
  cbn [Py.lower list_ascii_of_string forallb]. rewrite isspace_lower_char, IH. reflexivity.
Qed.

Lemma is_word_lower (w : string) : is_word w = true -> is_word (Py.lower w) = true.
Proof.
  destruct w as [| c w]; [discriminate |].
  intros H. change (is_word (Py.lower (String c w)))
    with (forallb (fun c => negb (Py.isspace c))
                  (list_ascii_of_string (Py.lower (String c w)))).
  rewrite no_space_lower. exact H.
Qed.

(** ** Key terms *)

Lemma firstn_In_list {A} (n : nat) (l : list A) (x : A) : In x (firstn n l) -> In x l.
Proof.
  intros H. rewrite <- (firstn_skipn n l). apply in_or_app. left. exact H.
Qed.

Lemma insert_desc_In (x y : string * float) (l : list (string * float)) :
  In y (insert_desc x l) -> y = x \/ In y l.
Proof.
  induction l as [| z l IH]; cbn [insert_desc].
  - intros [H | []]. left. congruence.
  - destruct (PrimFloat.ltb (snd x) (snd z)).
    + intros [H | H]; [right; left; exact H |].
      destruct (IH H) as [-> | Hl]; [left; reflexivity | right; right; exact Hl].
    + intros [H | H]; [left; congruence | right; exact H].
Qed.

Lemma sort_desc_In (y : string * float) (l : list (string * float)) :
  In y (sort_desc l) -> In y l.
Proof.
  unfold sort_desc. induction l as [| x l IH]; cbn [fold_right]; [intros [] |].
  intros H. apply insert_desc_In in H. destruct H as [-> | H]; [left; reflexivity |].
  right. exact (IH H).
Qed.

Lemma weigh_all_In (n i : nat) (words : list string) (w : string) (f : float) :
  In (w, f) (weigh_all n i words) ->
  Py.mem w stopwords = false /\ 2 < Py.len w
  /\ exists word, In word words /\ w = Py.lower word.
Proof.
  revert i. induction words as [| word words IH]; intros i; cbn [weigh_all]; [intros [] |].
  intros H. apply in_app_or in H. destruct H as [H | H].
  - unfold weigh in H.
    destruct (Py.mem (Py.lower word) stopwords) eqn:Hs; [destruct H |].
    destruct (Nat.leb_spec (Py.len (Py.lower word)) 2) as [Hl | Hl]; [destruct H |].
    destruct H as [H | []]. injection H as <- _.
    repeat split; [exact Hs | exact Hl |]. exists word. split; [left |]; reflexivity.
  - destruct (IH _ H) as (Hs & Hl & word' & Hin & ->).
    repeat split; [exact Hs | exact Hl |]. exists word'. split; [right; exact Hin | reflexivity].
Qed.

(** X7.  [_extract_key_terms] either hands back the query as it is (when no
    word qualifies) or returns at most five words separated by single
    spaces, each the lower-case form of a word of the query that is not a
    stopword and has more than two characters. *)
Theorem key_terms_shape (query : string) :
  _extract_key_terms query = query
  \/ (List.length (Py.split (_extract_key_terms query)) <= 5
      /\ Forall (key_term_of query) (Py.split (_extract_key_terms query))
      /\ _extract_key_terms query = Py.join " " (Py.split (_extract_key_terms query))).
Proof.
  unfold _extract_key_terms.
  set (weighted := sort_desc (weigh_all (List.length (Py.split query)) 0 (Py.split query))).
  destruct (map fst (firstn 5 weighted)) as [| t top] eqn:Htop; [left; reflexivity |].
  right. rewrite <- Htop.
  assert (Hall : Forall (key_term_of query) (map fst (firstn 5 weighted))).
  { apply List.Forall_forall. intros w Hw.
    apply List.in_map_iff in Hw. destruct Hw as ([w' f] & <- & Hin).
    apply firstn_In_list, sort_desc_In, weigh_all_In in Hin. exact Hin. }
  assert (Hwords : Forall (fun w => is_word w = true) (map fst (firstn 5 weighted))).
  { eapply List.Forall_impl; [| exact Hall]. cbn.
    intros w (_ & _ & word & Hin & ->). apply is_word_lower.
    pose proof (split_is_word query) as Hq.
    rewrite List.Forall_forall in Hq. exact (Hq word Hin). }
  rewrite (split_join _ Hwords). repeat split.
  - rewrite length_map, length_firstn. lia.
  - exact Hall.
Qed.

Example key_terms_examples :
  _extract_key_terms "Tell me about the Cabernet Sauvignon grape and its soil in Bordeaux"
    = "bordeaux sauvignon cabernet soil its"
  /\ _extract_key_terms "is it so" = "is it so"
  /\ _extract_key_terms "a dry Riesling or a sweet one" = "sweet riesling dry one".
Proof. vm_compute. repeat split; reflexivity. Qed.

(** ** Normalisation of the query text *)

Lemma lower_char_idem (c : ascii) : Py.lower_char (Py.lower_char c) = Py.lower_char c.
Proof. destruct c as [[] [] [] [] [] [] [] []]; reflexivity. Qed.

Lemma lower_idem (s : string) : Py.lower (Py.lower s) = Py.lower s.
Proof.
  induction s as [| c s IH]; [reflexivity |].
  cbn [Py.lower]. rewrite lower_char_idem, IH. reflexivity.
Qed.

Lemma lower_append (a b : string) : Py.lower (a +:+ b) = Py.lower a +:+ Py.lower b.
Proof.
  induction a as [| c a IH]; [reflexivity |].
  cbn [String.append Py.lower]. rewrite IH. reflexivity.
Qed.

Lemma lower_lstrip (s : string) : Py.lower (Py.lstrip s) = Py.lstrip (Py.lower s).
Proof.
  induction s as [| c s IH]; [reflexivity |].
  cbn [Py.lstrip Py.lower]. rewrite isspace_lower_char.
  destruct (Py.isspace c); [exact IH | reflexivity].
Qed.

Lemma lower_rstrip (s : string) : Py.lower (Py.rstrip s) = Py.rstrip (Py.lower s).
Proof.
  induction s as [| c s IH]; [reflexivity |].
  cbn [Py.rstrip Py.lower]. rewrite <- IH, isspace_lower_char.
  destruct (Py.rstrip s); cbn [Py.lower]; [destruct (Py.isspace c) |]; reflexivity.
Qed.

Lemma lower_strip (s : string) : Py.lower (Py.strip s) = Py.strip (Py.lower s).
Proof. unfold Py.strip. rewrite lower_rstrip, lower_lstrip. reflexivity. Qed.

Lemma rstrip_idem (s : string) : Py.rstrip (Py.rstrip s) = Py.rstrip s.
Proof.
  induction s as [| c s IH]; [reflexivity |].
  cbn [Py.rstrip]. destruct (Py.rstrip s) as [| c' s'] eqn:Hr.
  - destruct (Py.isspace c) eqn:Hc; [reflexivity |].
    cbn [Py.rstrip]. rewrite Hc. reflexivity.
  - change (Py.rstrip (String c (String c' s')))
      with (match Py.rstrip (String c' s') with
            | EmptyString => if Py.isspace c then EmptyString else String c EmptyString
            | r' => String c r'
            end).
    rewrite IH. reflexivity.
Qed.

Lemma lstrip_starts_clean (s : string) : starts_clean (Py.lstrip s).
Proof.
  induction s as [| c s IH]; [exact I |].
  cbn [Py.lstrip]. destruct (Py.isspace c) eqn:Hc; [exact IH | exact Hc].
Qed.

Lemma lstrip_clean (s : string) : starts_clean s -> Py.lstrip s = s.
Proof. destruct s as [| c s]; [reflexivity |]. cbn. intros ->. reflexivity. Qed.

Lemma rstrip_starts_clean (s : string) : starts_clean s -> starts_clean (Py.rstrip s).
Proof.
  destruct s as [| c s]; [exact (fun H => H) |].
  cbn [starts_clean Py.rstrip]. intros Hc.
  destruct (Py.rstrip s); [rewrite Hc |]; exact Hc.
Qed.

Lemma strip_idem (s : string) : Py.strip (Py.strip s) = Py.strip s.
Proof.
  unfold Py.strip.
  rewrite (lstrip_clean (Py.rstrip (Py.lstrip s))).
  - apply rstrip_idem.
  - apply rstrip_starts_clean, lstrip_starts_clean.
Qed.

Lemma normalise_idem (query : string) :
  Py.strip (Py.lower (Py.strip (Py.lower query))) = Py.strip (Py.lower query).
Proof. rewrite lower_strip, lower_idem. apply strip_idem. Qed.

(** X8.  Normalising is idempotent: the essence of the lower-cased and
    trimmed query is the essence of the query. *)
Theorem essence_of_normalised_query (query : string) :
  _get_query_essence (Py.strip (Py.lower query)) = _get_query_essence query.
Proof. unfold _get_query_essence. rewrite normalise_idem. reflexivity. Qed.

Lemma all_space_lower (p : string) : all_space (Py.lower p) = all_space p.
Proof.
  unfold all_space. induction p as [| c p IH]; [reflexivity |].
  cbn [Py.lower list_ascii_of_string forallb]. rewrite isspace_lower_char, IH. reflexivity.
Qed.

Lemma lstrip_pad (p s : string) : all_space p = true -> Py.lstrip (p +:+ s) = Py.lstrip s.
Proof.
  unfold all_space. induction p as [| c p IH]; [reflexivity |].
  cbn [list_ascii_of_string forallb String.append Py.lstrip].
  intros H. apply andb_true_iff in H. destruct H as [-> Hp]. exact (IH Hp).
Qed.

Lemma rstrip_all_space (p : string) : all_space p = true -> Py.rstrip p = "".
Proof.
  unfold all_space. induction p as [| c p IH]; [reflexivity |].
  cbn [list_ascii_of_string forallb Py.rstrip].
  intros H. apply andb_true_iff in H. destruct H as [-> Hp]. rewrite (IH Hp). reflexivity.
Qed.

Lemma rstrip_pad (s p : string) : all_space p = true -> Py.rstrip (s +:+ p) = Py.rstrip s.
Proof.
  intros Hp. induction s as [| c s IH].
  - cbn [String.append]. apply rstrip_all_space, Hp.
  - cbn [String.append Py.rstrip]. rewrite IH. reflexivity.
Qed.

Lemma lstrip_all_space (p : string) : all_space p = true -> Py.lstrip p = "".
Proof.
  unfold all_space. induction p as [| c p IH]; [reflexivity |].
  cbn [list_ascii_of_string forallb Py.lstrip].
  intros H. apply andb_true_iff in H. destruct H as [-> Hp]. exact (IH Hp).
Qed.

Lemma strip_pad_right (s p : string) :
  all_space p = true -> Py.rstrip (Py.lstrip (s +:+ p)) = Py.rstrip (Py.lstrip s).
Proof.
  intros Hp. induction s as [| c s IH].
  - cbn [String.append]. rewrite (lstrip_all_space p Hp). reflexivity.
  - cbn [String.append Py.lstrip]. destruct (Py.isspace c); [exact IH |].
    exact (rstrip_pad (String c s) p Hp).
Qed.

(** X9.  White space around a query does not change its essence. *)
Theorem essence_ignores_outer_space (before query after : string) :
  all_space before = true -> all_space after = true ->
  _get_query_essence (before +:+ query +:+ after) = _get_query_essence query.
Proof.
  intros Hb Ha. unfold _get_query_essence, Py.strip.
  rewrite !lower_append.
  rewrite lstrip_pad by (rewrite all_space_lower; exact Hb).
  rewrite strip_pad_right by (rewrite all_space_lower; exact Ha).
  reflexivity.
Qed.

Lemma essence_ignores_outer_space_witness :
  _get_query_essence ("  " +:+ "What wine pairs with steak?" +:+ " ")
  = _get_query_essence "What wine pairs with steak?".
Proof.
  apply (essence_ignores_outer_space "  " "What wine pairs with steak?" " ");
    reflexivity.
Defined.

(** White space inside the query is kept: it can change the essence. *)
Example essence_sees_inner_space :
  _get_query_essence "what goes  with steak" <> _get_query_essence "what goes with steak".
Proof. vm_compute. discriminate. Qed.

(** ** Invariants of the session, for any property closed under its updates *)

Section SessionInvariant.

Variable I : session -> Prop.

Hypothesis I_new : forall now, I (new_session now).
Hypothesis I_log_query :
  forall now query is_cache_hit response_time query_type object_id m,
    I m -> I (Session.log_query now query is_cache_hit response_time query_type object_id m).
Hypothesis I_log_error :
  forall now error_type details m, I m -> I (Session.log_error now error_type details m).
Hypothesis I_track_search :
  forall m, I m -> I (Session._track_algolia_operation "search_operations" 1 m).
Hypothesis I_track_get :
  forall m, I m -> I (Session._track_algolia_operation "get_operations" 1 m).
Hypothesis I_end_time : forall now m, I m -> I (Session.set_end_time now m).
Hypothesis I_derived : forall m, I m -> I (Session.calculate_derived_metrics m).

Lemma holds_ret {A} (a : A) : holds I (ret a).
Proof. intros s H. exact H. Qed.

Lemma holds_bind {A B} (c : M A) (k : A -> M B) :
  holds I c -> (forall a, holds I (k a)) -> holds I (bind c k).
Proof.
  intros Hc Hk s Hs. unfold bind. specialize (Hc s Hs).
  destruct (c s) as [a s']. exact (Hk a s' Hc).
Qed.

Lemma holds_gets {A} (f : state -> A) : holds I (gets f).
Proof. intros s H. exact H. Qed.

Lemma holds_ask {A} (oracle : nat -> A) : holds I (ask oracle).
Proof. intros s H. exact H. Qed.

Lemma holds_modify (f : state -> state) :
  (forall s, I (current_session s) -> I (current_session (f s))) -> holds I (modify f).
Proof. intros Hf s H. exact (Hf s H). Qed.

Lemma holds_log_query E query is_cache_hit response_time query_type object_id :
  holds I (log_query E query is_cache_hit response_time query_type object_id).
Proof.
  apply holds_bind; [apply holds_ask |]. intros now. apply holds_modify.
  intros s H. apply I_log_query, H.
Qed.

Lemma holds_log_error E error_type details : holds I (log_error E error_type details).
Proof.
  apply holds_bind; [apply holds_ask |]. intros now. apply holds_modify.
  intros s H. apply I_log_error, H.
Qed.

Lemma holds_calculate_derived_metrics : holds I calculate_derived_metrics.
Proof. apply holds_modify. intros s H. apply I_derived, H. Qed.

Lemma holds_search_index E index_name query hitsPerPage filters :
  holds I (search_index E index_name query hitsPerPage filters).
Proof.
  apply holds_bind; [| intros _; apply holds_ask].
  apply holds_modify. intros s H. apply I_track_search, H.
Qed.

Lemma holds_get_object_op E index_name object_id :
  holds I (get_object_op E index_name object_id).
Proof.
  apply holds_bind; [| intros _; apply holds_ask].
  apply holds_modify. intros s H. apply I_track_get, H.
Qed.

Ltac hold_step :=
  lazymatch goal with
  | |- holds _ (bind _ _) => apply holds_bind; [| intros ?]
  | |- holds _ (ret _) => apply holds_ret
  | |- holds _ (gets _) => apply holds_gets
  | |- holds _ (ask _) => apply holds_ask
  | |- holds _ (sleep _) => apply holds_modify; intros ? ?; assumption
  | |- holds _ (set_conversation_id _) => apply holds_modify; intros ? ?; assumption
  | |- holds _ (append_history _) => apply holds_modify; intros ? ?; assumption
  | |- holds _ (log_query _ _ _ _ _ _) => apply holds_log_query
  | |- holds _ (log_error _ _ _) => apply holds_log_error
  | |- holds _ (search_index _ _ _ _ _) => apply holds_search_index
  | |- holds _ (get_object_op _ _ _) => apply holds_get_object_op
  | |- holds _ calculate_derived_metrics => apply holds_calculate_derived_metrics
  | |- holds _ (modify _) => apply holds_modify; intros ? ?; assumption
  | |- holds _ (match ?x with _ => _ end) => destruct x
  end.

Lemma holds_save_metrics E : holds I (save_metrics E).
Proof.
  unfold save_metrics.
  apply holds_bind; [apply holds_ask | intros now].
  apply holds_bind; [apply holds_modify; intros s H; apply I_end_time, H | intros _].
  repeat hold_step.
Qed.

Lemma holds_reset_metrics E : holds I (reset_metrics E).
Proof.
  unfold reset_metrics.
  apply holds_bind; [apply holds_save_metrics | intros _].
  apply holds_bind; [apply holds_ask | intros now].
  apply holds_modify. intros s _. apply I_new.
Qed.

Lemma holds_find_previous_response E query data_source_id prompt_id :
  holds I (find_previous_response E query data_source_id prompt_id).
Proof. unfold find_previous_response. repeat hold_step. Qed.

Lemma holds_attempts E (remaining attempt : nat) (retry_delay : Z) (data : request) :
  holds I (attempts E remaining attempt retry_delay data).
Proof.
  revert attempt retry_delay.
  induction remaining as [| n IH]; intros attempt retry_delay; cbn [attempts].
  - repeat hold_step.
  - repeat hold_step; apply IH.
Qed.

Lemma holds_generate_response E query data_source_id prompt_id object_id :
  holds I (generate_response E query data_source_id prompt_id object_id).
Proof. unfold generate_response. repeat hold_step. apply holds_attempts. Qed.

Lemma holds_process_query E query prompt_type conversation_id_arg :
  holds I (process_query E query prompt_type conversation_id_arg).
Proof.
  unfold process_query. repeat hold_step;
    try apply holds_find_previous_response; try apply holds_generate_response;
    repeat hold_step.
Qed.

Lemma reachable_invariant E (s : state) : reachable E s -> I (current_session s).
Proof.
  induction 1 as [s now Hnew | | | | | | | |].
  - rewrite Hnew. apply I_new.
  - apply holds_log_query. assumption.
  - apply holds_log_error. assumption.
  - apply holds_reset_metrics. assumption.
  - apply holds_calculate_derived_metrics. assumption.
  - apply holds_save_metrics. assumption.
  - apply holds_search_index. assumption.
  - apply holds_get_object_op. assumption.
  - apply holds_process_query. assumption.
Qed.

End SessionInvariant.

(** ** The logs, the per-type table and the operation counters *)

Lemma logged_query_len (query : string) :
  Py.len (if Nat.ltb 100 (Py.len query) then Py.take 100 query +:+ "..." else query) <= 103.
Proof.
  destruct (Nat.ltb_spec 100 (Py.len query)) as [_ | Hle]; [| lia].
  rewrite len_append. pose proof (take_len 100 query).
  change (Py.len "...") with 3. lia.
Qed.

(** X10.  In every reachable state the query log has one entry per counted
    query, no logged query text is longer than 103 characters, and the error
    counter is the number of error entries. *)
Theorem logs_consistent (E : env) (s : state) :
  reachable E s -> logs_ok (current_session s).
Proof.
  apply (reachable_invariant logs_ok); unfold logs_ok.
  - intros now. repeat split. constructor.
  - intros now query is_cache_hit response_time query_type object_id m (Hl & Hq & He).
    cbn [Session.log_query query_log total_queries errors api_errors].
    rewrite length_app. cbn [List.length]. repeat split; [lia | | exact He].
    apply Forall_app. split; [exact Hq |]. constructor; [| constructor].
    cbn [qe_query]. apply logged_query_len.
  - intros now error_type details m (Hl & Hq & He).
    cbn [Session.log_error query_log total_queries errors api_errors default from_option id].
    rewrite length_app. cbn [List.length]. repeat split; [exact Hl | exact Hq | lia].
  - intros m H. exact H.
  - intros m H. exact H.
  - intros now m H. exact H.
  - intros m H. exact H.
Qed.

Lemma logs_consistent_witness :
  let E := fixed_env rate_limited in
  let s := snd (process_query E (times 150 "wine ") None None start_state) in
  reachable E s /\ logs_ok (current_session s).
Proof.
  cbv zeta.
  assert (H : reachable (fixed_env rate_limited)
                (snd (process_query (fixed_env rate_limited) (times 150 "wine ")
                        None None start_state))).
  { apply reach_process_query. apply (reach_new _ _ "2025-03-01T12:00:00"). reflexivity. }
  split; [exact H | exact (logs_consistent _ _ H)].
Defined.

Lemma type_ok_weaken (n : nat) (st : type_stats) : type_ok n st -> type_ok (n + 1) st.
Proof. unfold type_ok. lia. Qed.

Lemma bump_type_ok (n : nat) (query_type : string) (is_cache_hit : bool)
    (m : gmap string type_stats) :
  (forall k st, m !! k = Some st -> type_ok n st) ->
  forall k st, Session.bump_type query_type is_cache_hit m !! k = Some st -> type_ok (n + 1) st.
Proof.
  intros Hm k st. unfold Session.bump_type.
  destruct (decide (query_type = k)) as [-> | Hne].
  - rewrite lookup_insert_eq. intros H. injection H as <-.
    destruct (m !! k) as [st0 |] eqn:Hk; cbn [default from_option id].
    + specialize (Hm k st0 Hk). unfold type_ok in *. cbn [total hits misses].
      destruct is_cache_hit; lia.
    + unfold type_ok. cbn [total hits misses]. destruct is_cache_hit; lia.
  - rewrite lookup_insert_ne by exact Hne. intros H. apply type_ok_weaken, (Hm k st H).
Qed.

Lemma types_ok_reachable (E : env) (s : state) :
  reachable E s -> types_ok (current_session s).
Proof.
  apply (reachable_invariant types_ok); unfold types_ok.
  - intros now k st. cbn [new_session query_types]. rewrite lookup_empty. discriminate.
  - intros now query is_cache_hit response_time query_type object_id m Hm k st.
    cbn [Session.log_query query_types total_queries].
    destruct (Py.truthy query_type).
    + apply bump_type_ok, Hm.
    + intros H. apply type_ok_weaken, (Hm k st H).
  - intros now error_type details m H. exact H.
  - intros m H. exact H.
  - intros m H. exact H.
  - intros now m H. exact H.
  - intros m H. exact H.
Qed.

(** A stored percentage lies between 0 and 100. *)
Lemma rate_bounds (h t : nat) :
  h <= t -> 0 < t -> (0 <= round (Session.percent h t) 2 <= 100)%Q.
Proof.
  intros Hle Hpos. rewrite round2_is.
  destruct (hundredths_close h t Hle Hpos) as [_ Hk].
  exact (proj2 (stored_hundredths _ Hk)).
Qed.

(** X11.  In every reachable state each row of the per-type table has a
    positive total that is the sum of its hits and misses and is at most the
    number of queries of the session; so the hit rate displayed for the row
    lies between 0 and 100. *)
Theorem query_types_consistent (E : env) (s : state) (k : string) (st : type_stats) :
  reachable E s ->
  query_types (current_session s) !! k = Some st ->
  total st = hits st + misses st
  /\ 0 < total st <= total_queries (current_session s)
  /\ (0 <= type_hit_rate st <= 100)%Q.
Proof.
  intros Hr Hk. destruct (types_ok_reachable E s Hr k st Hk) as (Hsum & Hpos & Hle).
  repeat split; try assumption.
  - unfold type_hit_rate. destruct (Nat.ltb_spec 0 (total st)); [| lia].
    apply rate_bounds; lia.
  - unfold type_hit_rate. destruct (Nat.ltb_spec 0 (total st)); [| lia].
    apply rate_bounds; lia.
Qed.

Lemma query_types_consistent_witness :
  let E := fixed_env rate_limited in
  let s := snd (log_query E "Recommend a red wine" false (3 # 2) (Some "recommendations") None
                  (snd (log_query E "Recommend a white wine" true (1 # 4)
                          (Some "recommendations") None start_state))) in
  query_types (current_session s) !! "recommendations" = Some (mkStats 2 1 1)
  /\ type_hit_rate (mkStats 2 1 1) = 50%Q
  /\ (0 <= type_hit_rate (mkStats 2 1 1) <= 100)%Q.
Proof.
  cbv zeta.
  assert (Hk : query_types
                 (current_session
                    (snd (log_query (fixed_env rate_limited) "Recommend a red wine" false
                            (3 # 2) (Some "recommendations") None
                            (snd (log_query (fixed_env rate_limited) "Recommend a white wine"
                                    true (1 # 4) (Some "recommendations") None start_state)))))
               !! "recommendations" = Some (mkStats 2 1 1)) by (vm_compute; reflexivity).
  split; [exact Hk |]. split; [vm_compute; reflexivity |].
  refine (proj2 (proj2 (query_types_consistent (fixed_env rate_limited) _ _ _ _ Hk))).
  apply reach_log_query, reach_log_query.
  apply (reach_new _ _ "2025-03-01T12:00:00"). reflexivity.
Defined.

Lemma track_op_count (op k : string) (count : nat) (m : session) :
  op <> "total_operations" ->
  op_count k (Session._track_algolia_operation op count m)
  = op_count k m
    + (if decide (k = op) then count else 0)
    + (if decide (k = "total_operations") then count else 0).
Proof.
  intros Hop. unfold op_count, Session._track_algolia_operation.
  cbn [algolia_operations].
  destruct (decide (k = "total_operations")) as [-> | Hk].
  - rewrite lookup_insert_eq. cbn [default from_option id].
    rewrite lookup_insert_ne by exact Hop.
    destruct (decide ("total_operations" = op)) as [Heq | _]; [congruence |].
    destruct (algolia_operations m !! op);
      rewrite ?lookup_insert_ne by exact Hop; lia.
  - rewrite lookup_insert_ne by congruence.
    destruct (decide (k = op)) as [-> | Hne].
    + rewrite lookup_insert_eq. cbn [default from_option id].
      destruct (algolia_operations m !! op) as [n |] eqn:Hl.
      * rewrite Hl. cbn [default from_option id]. lia.
      * rewrite lookup_insert_eq. cbn [default from_option id]. lia.
    + rewrite lookup_insert_ne by congruence.
      destruct (algolia_operations m !! op);
        rewrite ?lookup_insert_ne by congruence; lia.
Qed.

(** X12.  In every reachable state the total of index operations is the sum
    of the six per-kind counters. *)
Theorem operations_total_is_sum (E : env) (s : state) :
  reachable E s -> ops_ok (current_session s).
Proof.
  apply (reachable_invariant ops_ok); unfold ops_ok.
  - intros now. vm_compute. reflexivity.
  - intros now query is_cache_hit response_time query_type object_id m H. exact H.
  - intros now error_type details m H. exact H.
  - intros m H. rewrite !track_op_count by discriminate.
    repeat (case_decide as Hd;
            [try discriminate Hd | try (exfalso; apply Hd; reflexivity)]; clear Hd).
    lia.
  - intros m H. rewrite !track_op_count by discriminate.
    repeat (case_decide as Hd;
            [try discriminate Hd | try (exfalso; apply Hd; reflexivity)]; clear Hd).
    lia.
  - intros now m H. exact H.
  - intros m H. exact H.
Qed.

Lemma operations_total_is_sum_witness :
  let E := fixed_env rate_limited in
  let s := snd (process_query E "What wine pairs with steak?" None None start_state) in
  reachable E s
  /\ op_count "total_operations" (current_session s) = 3
  /\ op_count "search_operations" (current_session s) = 2
  /\ op_count "get_operations" (current_session s) = 1
  /\ ops_ok (current_session s).
Proof.
  cbv zeta.
  assert (H : reachable (fixed_env rate_limited)
                (snd (process_query (fixed_env rate_limited) "What wine pairs with steak?"
                        None None start_state))).
  { apply reach_process_query. apply (reach_new _ _ "2025-03-01T12:00:00"). reflexivity. }
  split; [exact H |].
  repeat (split; [vm_compute; reflexivity |]).
  exact (operations_total_is_sum _ _ H).
Defined.

(** ** Rates and costs *)

Lemma round_half_even_near (y : Q) (n : Z) :
  (Qabs (y - inject_Z n) < 1 # 2)%Q -> round_half_even y = n.
Proof.
  intros H. pose proof (round_half_even_close y) as Hc.
  assert (Hl : (- (1 # 2) < y - inject_Z n)%Q /\ (y - inject_Z n < 1 # 2)%Q).
  { revert H. apply Qabs_case; intros; split; lra. }
  destruct Hl as [Hl1 Hl2].
  assert (Hlo : (inject_Z (n - 1) < inject_Z (round_half_even y))%Q).
  { unfold Z.sub. rewrite inject_Z_plus. change (inject_Z (- (1))) with (-1)%Q.
    generalize dependent (inject_Z (round_half_even y)). generalize dependent (inject_Z n).
    intros. lra. }
  assert (Hhi : (inject_Z (round_half_even y) < inject_Z (n + 1))%Q).
  { rewrite inject_Z_plus. change (inject_Z 1) with 1%Q.
    generalize dependent (inject_Z (round_half_even y)). generalize dependent (inject_Z n).
    intros. lra. }
  rewrite <- Zlt_Qlt in Hlo, Hhi. lia.
Qed.

(** The quotient of two costs is the quotient of the counts, nearly. *)
Lemma cost_ratio_close (h t : nat) :
  h <= t -> 0 < t ->
  (Qabs (Session.cost_of h / Session.cost_of t - Qnat h / Qnat t) <= 1 # 50000000000000)%Q.
Proof.
  intros Hle Hpos.
  pose proof (cost_of_close h) as Hh. pose proof (cost_of_close t) as Ht.
  pose proof (cost_of_large t Hpos) as Hl.
  apply Qabs_le_iff in Hh, Ht.
  pose proof (Qnat_mono 1 t Hpos) as H1. change (Qnat 1) with 1%Q in H1.
  pose proof (Qnat_mono 0 h ltac:(lia)) as H0. change (Qnat 0) with 0%Q in H0.
  pose proof (Qnat_mono h t Hle) as H2.
  remember (Session.cost_of h) as cs eqn:Ecs. clear Ecs.
  remember (Session.cost_of t) as pc eqn:Epc. clear Epc.
  remember (Qnat h) as H eqn:EH. clear EH.
  remember (Qnat t) as T eqn:ET. clear ET.
  assert (Heq : (cs / pc - H / T == (cs * T - H * pc) / (pc * T))%Q) by (field; lra).
  rewrite Heq.
  assert (Hden : (0 < pc * T)%Q) by nra.
  apply Qabs_le_iff. split.
  - apply Qle_shift_div_l; [exact Hden |]. nra.
  - apply Qle_shift_div_r; [exact Hden |]. nra.
Qed.

(** [cost_saved / potential_cost * 100] in doubles is within [10^-11] of
    the exact percentage of hits. *)
Lemma reduction_close (h t : nat) :
  h <= t -> 0 < t ->
  (Qabs (Float.mul (Float.div (Session.cost_of h) (Session.cost_of t)) 100
         - Qnat h / Qnat t * 100) <= 1 # 100000000000)%Q.
Proof.
  intros Hle Hpos. destruct (ratio_bounds h t Hle Hpos) as [H0 H1].
  pose proof (cost_ratio_close h t Hle Hpos) as Hr. apply Qabs_le_iff in Hr.
  unfold Float.mul, Float.div.
  set (x := (Qnat h / Qnat t)%Q) in *.
  set (r := (Session.cost_of h / Session.cost_of t)%Q) in *.
  assert (Hq : (Qabs (Float.fl r - r) <= 2 ^ (1 - 53))%Q).
  { apply fl_error; [| lia]. apply Qabs_le_iff. change (2 ^ 1)%Q with 2%Q. lra. }
  apply Qabs_le_iff in Hq.
  change (2 ^ (1 - 53))%Q with (1 # 4503599627370496)%Q in Hq.
  set (q := Float.fl r) in *.
  assert (Hp : (Qabs (Float.fl (q * 100) - q * 100) <= 2 ^ (8 - 53))%Q).
  { apply fl_error; [| lia]. apply Qabs_le_iff. change (2 ^ 8)%Q with 256%Q. lra. }
  apply Qabs_le_iff in Hp. apply Qabs_le_iff.
  change (2 ^ (8 - 53))%Q with (1 # 35184372088832)%Q in Hp.
  generalize dependent (Float.fl (q * 100)). intros p Hp. lra.
Qed.

Lemma round_zero : round 0 2 = 0%Q.
Proof. vm_compute. reflexivity. Qed.

Lemma fl_of_zero : Float.fl (inject_Z 0 / 100) = 0%Q.
Proof. vm_compute. reflexivity. Qed.

(** Two doubles near the same percentage are stored as equal or as
    neighbouring hundredths. *)
Lemma neighbouring_hundredths (x p p' : Q) :
  (0 <= x <= 1)%Q ->
  (Qabs (p - x * 100) <= 1 # 100000000000)%Q ->
  (Qabs (p' - x * 100) <= 1 # 100000000000)%Q ->
  (exists k k' : Z,
     round p 2 = Float.fl (inject_Z k / 100)
     /\ round p' 2 = Float.fl (inject_Z k' / 100)
     /\ (-1 <= k' - k <= 1)%Z)
  /\ (Qabs (round p' 2 - round p 2) <= (1 # 100) + (1 # 1000000000000))%Q.
Proof.
  intros [H0 H1] Hp Hp'. rewrite !round2_is.
  pose proof (round_half_even_close (p * 100)) as Hk.
  pose proof (round_half_even_close (p' * 100)) as Hk'.
  apply Qabs_le_iff in Hp, Hp'.
  remember (round_half_even (p * 100)) as k eqn:Ek. clear Ek.
  remember (round_half_even (p' * 100)) as k' eqn:Ek'. clear Ek'.
  assert (Hd : (-1 <= k' - k <= 1)%Z).
  { assert (Hlo : (inject_Z (-2) < inject_Z (k' - k))%Q).
    { unfold Z.sub. rewrite inject_Z_plus, inject_Z_opp. change (inject_Z (-2)) with (-2)%Q.
      generalize dependent (inject_Z k). generalize dependent (inject_Z k'). intros. lra. }
    assert (Hhi : (inject_Z (k' - k) < inject_Z 2)%Q).
    { unfold Z.sub. rewrite inject_Z_plus, inject_Z_opp. change (inject_Z 2) with 2%Q.
      generalize dependent (inject_Z k). generalize dependent (inject_Z k'). intros. lra. }
    rewrite <- Zlt_Qlt in Hlo, Hhi. lia. }
  assert (Hkb : (0 <= k <= 10000)%Z).
  { assert (Hlo : (inject_Z (-1) < inject_Z k)%Q)
      by (change (inject_Z (-1)) with (-1)%Q; lra).
    assert (Hhi : (inject_Z k < inject_Z 10001)%Q)
      by (change (inject_Z 10001) with 10001%Q; lra).
    rewrite <- Zlt_Qlt in Hlo, Hhi. lia. }
  assert (Hkb' : (0 <= k' <= 10000)%Z).
  { assert (Hlo : (inject_Z (-1) < inject_Z k')%Q)
      by (change (inject_Z (-1)) with (-1)%Q; lra).
    assert (Hhi : (inject_Z k' < inject_Z 10001)%Q)
      by (change (inject_Z 10001) with 10001%Q; lra).
    rewrite <- Zlt_Qlt in Hlo, Hhi. lia. }
  split; [exists k, k'; repeat split; try reflexivity; lia |].
  destruct (stored_hundredths k Hkb) as [Ea _].
  destruct (stored_hundredths k' Hkb') as [Eb _].
  apply Qabs_le_iff in Ea, Eb. apply Qabs_le_iff.
  assert (Hq : (-1 <= inject_Z k' - inject_Z k <= 1)%Q).
  { assert (Hq1 : (inject_Z (-1) <= inject_Z (k' - k))%Q) by (rewrite <- Zle_Qle; lia).
    assert (Hq2 : (inject_Z (k' - k) <= inject_Z 1)%Q) by (rewrite <- Zle_Qle; lia).
    unfold Z.sub in Hq1, Hq2. rewrite inject_Z_plus, inject_Z_opp in Hq1, Hq2.
    change (inject_Z (-1)) with (-1)%Q in Hq1. change (inject_Z 1) with 1%Q in Hq2.
    split; lra. }
  unfold Qdiv in *. change (/ 100)%Q with (1 # 100)%Q in *.
  generalize dependent (Float.fl (inject_Z k * (1 # 100))). intros a Ea.
  generalize dependent (Float.fl (inject_Z k' * (1 # 100))). intros b Eb.
  clear Hk Hk' Hp Hp'.
  generalize dependent (inject_Z k). generalize dependent (inject_Z k'). intros. lra.
Qed.

(** X13.  In a session whose hits are among its queries, the stored
    cost-reduction percentage and the stored cache hit rate are the doubles
    of two decimals that are equal or differ by one unit of the last place:
    the two are computed from the same ratio along different float
    operations, and [round] can send them to neighbouring hundredths. *)
Theorem cost_reduction_near_hit_rate (m : session) :
  cache_hits m <= total_queries m ->
  (exists k k' : Z,
     cache_hit_rate (Session.derive m) = Float.fl (inject_Z k / 100)
     /\ cost_reduction_percentage (Session.derive m) = Float.fl (inject_Z k' / 100)
     /\ (-1 <= k' - k <= 1)%Z)
  /\ (Qabs (cost_reduction_percentage (Session.derive m) - cache_hit_rate (Session.derive m))
      <= (1 # 100) + (1 # 1000000000000))%Q.
Proof.
  intros Hle. unfold Session.derive.
  cbn [cache_hit_rate cost_reduction_percentage].
  unfold Session.potential_cost, Session.cost_saved.
  destruct (Nat.ltb_spec 0 (total_queries m)) as [Hpos | Hz].
  - pose proof (cost_of_large _ Hpos) as Hl.
    destruct (Qlt_le_dec 0 (Session.cost_of (total_queries m))) as [_ | Hn].
    + apply (neighbouring_hundredths (Qnat (cache_hits m) / Qnat (total_queries m))).
      * apply ratio_bounds; assumption.
      * eapply Qle_trans; [apply percent_close; assumption | discriminate].
      * apply reduction_close; assumption.
    + exfalso. apply (Qlt_irrefl (19 # 10000)).
      eapply Qle_lt_trans; [exact Hl |]. eapply Qle_lt_trans; [exact Hn | reflexivity].
  - assert (Ht : total_queries m = 0) by lia. rewrite Ht, cost_of_zero.
    destruct (Qlt_le_dec 0 0) as [Hn | _]; [exfalso; exact (Qlt_irrefl _ Hn) |].
    rewrite round_zero.
    split; [exists 0%Z, 0%Z; rewrite fl_of_zero; repeat split; lia |].
    vm_compute. discriminate.
Qed.

(** The two figures do differ: with 87 hits in 96 queries the hit rate is
    stored as 90.62 and the cost reduction as 90.63. *)
Lemma cost_reduction_near_hit_rate_witness :
  let m := {| start_time := "2025-03-01T12:00:00"; end_time := None;
              total_queries := 96; cache_hits := 87; cache_misses := 9; api_errors := 0;
              response_times := []; cache_hit_times := []; generation_times := [];
              query_types := ∅; query_log := [];
              algolia_operations := initial_operations;
              errors := None; derived_metrics := None |} in
  cache_hit_rate (Session.derive m) = Float.fl (9062 # 100)
  /\ cost_reduction_percentage (Session.derive m) = Float.fl (9063 # 100)
  /\ (Qabs (cost_reduction_percentage (Session.derive m) - cache_hit_rate (Session.derive m))
      <= (1 # 100) + (1 # 1000000000000))%Q.
Proof.
  cbv zeta. split; [vm_compute; reflexivity |]. split; [vm_compute; reflexivity |].
  apply cost_reduction_near_hit_rate. vm_compute. lia.
Defined.

(** The cost stored for [n] responses is the double of [0.002 n]: the
    roundings of the cost formula vanish in the rounding to four places. *)
Lemma stored_cost (n : nat) :
  (Z.of_nat n < 10 ^ 12)%Z ->
  round (Session.cost_of n) 4 = Float.fl (Qnat n * (2 # 1000)).
Proof.
  intros Hn. unfold round. change (inject_Z (10 ^ Z.of_nat 4)) with 10000%Q.
  assert (Hk : round_half_even (Session.cost_of n * 10000) = (20 * Z.of_nat n)%Z).
  { apply round_half_even_near.
    pose proof (cost_of_close n) as Hc. apply Qabs_le_iff in Hc.
    assert (Hq : (0 <= Qnat n <= 1000000000000)%Q).
    { unfold Qnat. change 0%Q with (inject_Z 0).
      change 1000000000000%Q with (inject_Z (10 ^ 12)). rewrite <- !Zle_Qle. lia. }
    rewrite inject_Z_mult. change (inject_Z 20) with 20%Q. fold (Qnat n).
    assert (Hb : (- (1 # 4) <= Session.cost_of n * 10000 - 20 * Qnat n <= 1 # 4)%Q).
    { generalize dependent (Session.cost_of n). generalize dependent (Qnat n). intros. lra. }
    apply Qle_lt_trans with (1 # 4)%Q; [apply Qabs_le_iff; exact Hb | reflexivity]. }
  rewrite Hk. apply fl_proper.
  rewrite inject_Z_mult. change (inject_Z 20) with 20%Q. fold (Qnat n). field.
Qed.

(** X14.  In every reachable state both rates lie between 0 and 100; and,
    below [10^12] queries, the three stored costs are the doubles of 0.002
    times the hits, the misses and the queries: what the float operations of
    the cost formula lose is gone after the rounding to four places. *)
Theorem rates_bounded_costs_rounded (E : env) (s : state) :
  reachable E s ->
  (Z.of_nat (total_queries (current_session s)) < 10 ^ 12)%Z ->
  let m := current_session s in
  let d := Session.derive m in
  (0 <= cache_hit_rate d <= 100)%Q
  /\ (0 <= cache_miss_rate d <= 100)%Q
  /\ estimated_cost_saved d = Float.fl (Qnat (cache_hits m) * (2 # 1000))
  /\ actual_cost_with_caching d = Float.fl (Qnat (cache_misses m) * (2 # 1000))
  /\ potential_cost_without_caching d = Float.fl (Qnat (total_queries m) * (2 # 1000)).
Proof.
  intros Hr Hn. cbv zeta.
  destruct (reachable_session_ok E s Hr) as (Ht & _).
  set (m := current_session s) in *.
  unfold Session.derive.
  cbn [cache_hit_rate cache_miss_rate estimated_cost_saved actual_cost_with_caching
       potential_cost_without_caching].
  unfold Session.cost_saved, Session.actual_cost, Session.potential_cost.
  split; [| split; [| split; [| split]]].
  - destruct (Nat.ltb_spec 0 (total_queries m)); [| split; discriminate].
    apply rate_bounds; lia.
  - destruct (Nat.ltb_spec 0 (total_queries m)); [| split; discriminate].
    apply rate_bounds; lia.
  - apply stored_cost. lia.
  - apply stored_cost. lia.
  - apply stored_cost. lia.
Qed.

Lemma rates_bounded_costs_rounded_witness :
  let E := fixed_env rate_limited in
  let s := snd (log_query E "What wine pairs with lamb?" true (1 # 4)
                  (Some "auto") None start_state) in
  reachable E s
  /\ (0 <= cache_hit_rate (Session.derive (current_session s)) <= 100)%Q
  /\ estimated_cost_saved (Session.derive (current_session s)) = Float.fl (2 # 1000).
Proof.
  cbv zeta.
  assert (H : reachable (fixed_env rate_limited)
                (snd (log_query (fixed_env rate_limited) "What wine pairs with lamb?" true
                        (1 # 4) (Some "auto") None start_state))).
  { apply reach_log_query. apply (reach_new _ _ "2025-03-01T12:00:00"). reflexivity. }
  split; [exact H |].
  destruct (rates_bounded_costs_rounded _ _ H) as (Hh & _ & Hc & _).
  { vm_compute. reflexivity. }
  split; [exact Hh |]. rewrite Hc. vm_compute. reflexivity.
Defined.

(** ** Closing a session *)

Lemma save_metrics_result (E : env) (s : state) :
  let closed := Session.calculate_derived_metrics
                  (Session.set_end_time (iso_now E (clock s)) (current_session s)) in
  let s' := snd (save_metrics E s) in
  current_session s' = closed
  /\ all_sessions s' = all_sessions s
  /\ clock s' = 3 + clock s
  /\ metrics_file s' = (if write_file E (2 + clock s)
                        then Some (all_sessions s ++ [closed])
                        else if file_opened E (2 + clock s) then None
                        else metrics_file s).
Proof.
  cbv zeta. change (2 + clock s) with (S (S (clock s))).
  unfold save_metrics, calculate_derived_metrics, bind, ask, modify, ret.
  cbn [fst snd]. wp_simpl.
  destruct (write_file E (S (S (clock s)))) eqn:Hw;
    destruct (file_opened E (S (S (clock s)))) eqn:Ho;
    cbn [fst snd]; wp_simpl; repeat split; reflexivity.
Qed.

Lemma reset_metrics_result (E : env) (s : state) :
  let closed := Session.calculate_derived_metrics
                  (Session.set_end_time (iso_now E (clock s)) (current_session s)) in
  let s' := snd (reset_metrics E s) in
  current_session s' = new_session (iso_now E (3 + clock s))
  /\ all_sessions s' = all_sessions s
  /\ clock s' = 4 + clock s
  /\ metrics_file s' = (if write_file E (2 + clock s)
                        then Some (all_sessions s ++ [closed])
                        else if file_opened E (2 + clock s) then None
                        else metrics_file s).
Proof.
  cbv zeta. destruct (save_metrics_result E s) as (Hcur & Hall & Hclock & Hfile).
  unfold reset_metrics, bind, ask, modify.
  destruct (save_metrics E s) as [[] s1]. cbn [fst snd] in *. wp_simpl.
  rewrite Hclock, Hall, Hfile. repeat split; reflexivity.
Qed.

(** X15.  [reset_metrics] always starts a new, empty session, also when the
    write of the old one failed, and never adds the closed session to the
    sessions kept in memory: it survives in the file only, and only if the
    write succeeded.  A write that fails after the file was opened leaves
    no document in it, so the sessions saved before are lost as well; only
    when the file could not be opened is it as before. *)
Theorem reset_metrics_starts_new_session (E : env) (s : state) :
  let closed := Session.calculate_derived_metrics
                  (Session.set_end_time (iso_now E (clock s)) (current_session s)) in
  let s' := snd (reset_metrics E s) in
  current_session s' = new_session (iso_now E (3 + clock s))
  /\ all_sessions s' = all_sessions s
  /\ metrics_file s' = (if write_file E (2 + clock s)
                        then Some (all_sessions s ++ [closed])
                        else if file_opened E (2 + clock s) then None
                        else metrics_file s).
Proof.
  cbv zeta. destruct (reset_metrics_result E s) as (Hcur & Hall & _ & Hfile). auto.
Qed.

(** X16.  The next successful save after a reset overwrites the file with
    the sessions loaded at start-up followed by the new session alone: the
    session closed by the reset is no longer in the file. *)
Theorem save_after_reset_overwrites (E : env) (s : state) :
  write_file E (6 + clock s) = true ->
  exists m,
    metrics_file (snd (save_metrics E (snd (reset_metrics E s))))
    = Some (all_sessions s ++ [m])
    /\ start_time m = iso_now E (3 + clock s)
    /\ total_queries m = 0
    /\ query_log m = [].
Proof.
  intros Hw.
  destruct (reset_metrics_result E s) as (Hcur & Hall & Hclock & _).
  destruct (save_metrics_result E (snd (reset_metrics E s))) as (_ & _ & _ & Hfile).
  rewrite Hclock, Hall, Hcur in Hfile. change (2 + (4 + clock s)) with (6 + clock s) in Hfile.
  rewrite Hw in Hfile. eexists. split; [exact Hfile |].
  repeat split; reflexivity.
Qed.

Lemma save_after_reset_overwrites_witness :
  let E := fixed_env rate_limited in
  let s := snd (process_query E "What wine pairs with steak?" None None start_state) in
  option_map (map total_queries) (metrics_file (snd (reset_metrics E s))) = Some [1]
  /\ exists m,
       metrics_file (snd (save_metrics E (snd (reset_metrics E s)))) = Some (all_sessions s ++ [m])
       /\ start_time m = iso_now E (3 + clock s)
       /\ total_queries m = 0
       /\ query_log m = [].
Proof.
  cbv zeta. split; [vm_compute; reflexivity |].
  apply (save_after_reset_overwrites (fixed_env rate_limited)). reflexivity.
Defined.

(** ** Generation requests, for any behaviour of the endpoint *)

Lemma backoff_length (n : nat) (d : Z) : List.length (backoff n d) = n.
Proof. revert d. induction n as [| n IH]; intros d; cbn [backoff List.length]; auto. Qed.

Lemma attempts_effects (E : env) (remaining attempt : nat) (retry_delay : Z)
    (data : request) (s : state) :
  Py.truthy (conversation_id s) = true ->
  wp (attempts E remaining attempt retry_delay data)
     (fun r s' =>
        same_conversation s s' /\ same_counters s s'
        /\ query_log (current_session s') = query_log (current_session s)
        /\ rd_conversationID r = conversation_id s
        /\ exists n k e,
             n <= remaining /\ (0 < remaining -> 0 < n) /\ n <= k + 1 /\ k <= e <= n
             /\ posted s' = posted s ++ repeat data n
             /\ slept s' = slept s ++ backoff k retry_delay
             /\ api_errors (current_session s') = api_errors (current_session s) + e
             /\ (saved s' = saved s
                 \/ exists text now,
                      saved s' = saved s ++ [mkStored (rq_objectID data) (rq_query data) text
                                               (rq_dataSourceID data) (rq_promptID data)
                                               (conversation_id s) now]))
     s.
Proof.
  revert attempt retry_delay s.
  induction remaining as [| m IH]; intros attempt retry_delay s Hconv; cbn [attempts].
  - wp_run. repeat split. exists 0, 0, 0. cbn [backoff repeat]. rewrite !app_nil_r.
    repeat split; try lia. left. reflexivity.
  - wp_run. destruct (post E (clock s) data) as [cached response | status_code msg | msg].
    + wp_run. rewrite Hconv, andb_false_r. wp_run.
      destruct cached; [| destruct response as [text |]]; wp_run.
      * repeat split. exists 1, 0, 0. cbn [backoff repeat]. rewrite app_nil_r.
        repeat split; try lia. left. reflexivity.
      * match goal with
        | |- context [save_object E ?n ?o] => destruct (save_object E n o)
        end; wp_run;
          (repeat split; exists 1, 0, 0; cbn [backoff repeat]; rewrite app_nil_r;
           repeat split; try lia).
        -- right. eexists _, _. reflexivity.
        -- left. reflexivity.
      * repeat split. exists 1, 0, 0. cbn [backoff repeat]. rewrite app_nil_r.
        repeat split; try lia. left. reflexivity.
    + wp_run. destruct (is_rate_limit status_code); wp_run.
      * eapply wp_conseq; [apply IH; exact Hconv |]. wp_simpl.
        intros r s' (Hc & Hq & Hl & Hr & n & k & e & Hn & Hpos & Hk & He & Hp & Hs & Ha & Hsv).
        unfold same_conversation, same_counters in *. wp_simpl.
        cbn [total_queries cache_hits cache_misses api_errors query_log Session.log_error] in *.
        repeat split; try tauto.
        exists (S n), (S k), (S e). rewrite Hp, Hs, Ha, <- !app_assoc.
        cbn [backoff repeat app]. repeat split; try lia. exact Hsv.
      * repeat split. exists 1, 0, 1. cbn [backoff repeat]. rewrite app_nil_r.
        cbn [api_errors Session.log_error]. repeat split; try lia. left. reflexivity.
    + wp_run.
      eapply wp_conseq; [apply IH; exact Hconv |]. wp_simpl.
      intros r s' (Hc & Hq & Hl & Hr & n & k & e & Hn & Hpos & Hk & He & Hp & Hs & Ha & Hsv).
      unfold same_conversation, same_counters in *. wp_simpl.
      cbn [total_queries cache_hits cache_misses api_errors query_log Session.log_error] in *.
      repeat split; try tauto.
      exists (S n), (S k), (S e). rewrite Hp, Hs, Ha, <- !app_assoc.
      cbn [backoff repeat app]. repeat split; try lia. exact Hsv.
Qed.

Lemma generate_response_spec (E : env) (query : string)
    (data_source_id prompt_id object_id : option string) (s : state) :
  wp (generate_response E query data_source_id prompt_id object_id)
     (fun r s' =>
        Py.truthy (conversation_id s') = true
        /\ (if Py.truthy (conversation_id s) then conversation_id s' = conversation_id s
            else exists u, conversation_id s' = Some ("conv-" +:+ u))
        /\ rd_conversationID r = conversation_id s'
        /\ conversation_history s' = conversation_history s
        /\ same_counters s s'
        /\ query_log (current_session s') = query_log (current_session s)
        /\ exists data n k e,
             1 <= n <= 3 /\ n <= k + 1 /\ k <= e <= n
             /\ posted s' = posted s ++ repeat data n
             /\ rq_query data = query
             /\ rq_dataSourceID data = data_source_id
             /\ rq_promptID data = prompt_id
             /\ rq_useCache data = false
             /\ rq_conversationID data = conversation_id s'
             /\ rq_objectID data
                = (if Py.truthy object_id then Py.fmt object_id
                   else _generate_stable_id (conversation_id s') (_get_query_essence query)
                          data_source_id prompt_id)
             /\ slept s' = slept s ++ firstn k [2; 4; 8]%Z
             /\ api_errors (current_session s') = api_errors (current_session s) + e
             /\ (saved s' = saved s
                 \/ exists text now,
                      saved s' = saved s ++ [mkStored (rq_objectID data) query text
                                               data_source_id prompt_id
                                               (conversation_id s') now]))
     s.
Proof.
  assert (Hback : forall k, k <= 3 -> backoff k base_retry_delay = firstn k [2; 4; 8]%Z).
  { intros k Hk. destruct k as [| [| [| [| k]]]]; try reflexivity. lia. }
  unfold generate_response. wp_run.
  destruct (Py.truthy (conversation_id s)) eqn:Hconv; wp_run.
  - eapply wp_conseq; [apply attempts_effects; exact Hconv |]. wp_simpl.
    intros r s' ((Hc & Hh) & Hq & Hl & Hr & n & k & e & Hn & Hpos & Hk & He & Hp & Hs & Ha & Hsv).
    unfold max_retries in *. rewrite Hc, Hh, Hr, Hconv.
    split; [reflexivity |]. split; [try reflexivity; try (eexists; reflexivity) |].
    split; [reflexivity |]. split; [reflexivity |]. split; [exact Hq |]. split; [exact Hl |].
    eexists. exists n, k, e. rewrite Hp, Hs, Ha, Hback by lia. cbn [rq_query rq_dataSourceID
      rq_promptID rq_useCache rq_conversationID rq_objectID] in *.
    rewrite Hconv. repeat split; try lia; try reflexivity. exact Hsv.
  - unfold set_conversation_id. wp_run.
    eapply wp_conseq; [apply attempts_effects; reflexivity |]. wp_simpl.
    intros r s' ((Hc & Hh) & Hq & Hl & Hr & n & k & e & Hn & Hpos & Hk & He & Hp & Hs & Ha & Hsv).
    unfold max_retries in *. wp_simpl. rewrite Hc, Hh, Hr.
    split; [reflexivity |]. split; [try reflexivity; try (eexists; reflexivity) |].
    split; [reflexivity |]. split; [reflexivity |]. split; [exact Hq |]. split; [exact Hl |].
    eexists. exists n, k, e. rewrite Hp, Hs, Ha, Hback by lia. cbn [rq_query rq_dataSourceID
      rq_promptID rq_useCache rq_conversationID rq_objectID] in *.
    repeat split; try lia; try reflexivity. exact Hsv.
Qed.

(** X17.  Whatever the endpoint and the index do, [generate_response] sends
    one to three copies of one request, which never asks for the endpoint's
    cache and carries a non-empty conversation id (the assistant's, made up
    when it had none); its waits are 2, 4 and 8 seconds in this order, each
    after a failed attempt, the last of three included, so there are never
    more waits than logged errors nor more errors than requests, and every
    request but the last is followed by a wait; it stores at most one object,
    under the request's object id and prompt id; it leaves the query
    counters, the query log and the history alone, and returns the
    assistant's conversation id. *)
Theorem generation_requests (E : env) (query : string)
    (data_source_id prompt_id object_id : option string) (s : state) :
  wp (generate_response E query data_source_id prompt_id object_id)
     (fun r s' =>
        Py.truthy (conversation_id s') = true
        /\ (if Py.truthy (conversation_id s) then conversation_id s' = conversation_id s
            else exists u, conversation_id s' = Some ("conv-" +:+ u))
        /\ rd_conversationID r = conversation_id s'
        /\ conversation_history s' = conversation_history s
        /\ same_counters s s'
        /\ query_log (current_session s') = query_log (current_session s)
        /\ exists data n k e,
             1 <= n <= 3 /\ n <= k + 1 /\ k <= e <= n
             /\ posted s' = posted s ++ repeat data n
             /\ rq_query data = query
             /\ rq_dataSourceID data = data_source_id
             /\ rq_promptID data = prompt_id
             /\ rq_useCache data = false
             /\ rq_conversationID data = conversation_id s'
             /\ rq_objectID data
                = (if Py.truthy object_id then Py.fmt object_id
                   else _generate_stable_id (conversation_id s') (_get_query_essence query)
                          data_source_id prompt_id)
             /\ slept s' = slept s ++ firstn k [2; 4; 8]%Z
             /\ api_errors (current_session s') = api_errors (current_session s) + e
             /\ (saved s' = saved s
                 \/ exists text now,
                      saved s' = saved s ++ [mkStored (rq_objectID data) query text
                                               data_source_id prompt_id
                                               (conversation_id s') now]))
     s.
Proof. exact (generate_response_spec E query data_source_id prompt_id object_id s). Qed.

(** ** The cache lookup, for any behaviour of the index *)

Lemma find_best_match_In (q : string) (hits : list hit) (h : hit) :
  find_best_match q hits = Some h -> In h hits.
Proof.
  intros Heq.
  pose proof (best_loop_inv q hits [] (None, threshold)) as H.
  cbn [app] in H. unfold find_best_match in Heq. fold threshold in Heq.
  assert (H0 : best_inv q [] (None, threshold)) by (split; [reflexivity | constructor]).
  specialize (H H0). unfold best_inv in H. rewrite Heq in H.
  destruct H as (_ & _ & before & after & -> & _).
  apply in_or_app. right. left. reflexivity.
Qed.

Lemma newest_loop_In (r : list hit) (h : hit) :
  In (fold_left
        (fun best x => if String.ltb (createdAt_of best) (createdAt_of x) then x else best)
        r h) (h :: r).
Proof.
  revert h. induction r as [| x r IH]; intros h; cbn [fold_left].
  - left. reflexivity.
  - destruct (String.ltb (createdAt_of h) (createdAt_of x)).
    + right. apply IH.
    + destruct (IH h) as [<- | Hin]; [left; reflexivity | right; right; exact Hin].
Qed.

Lemma newest_In (hits : list hit) (h : hit) : newest hits = Some h -> In h hits.
Proof.
  destruct hits as [| x r]; [discriminate |]. cbn [newest].
  intros Heq. injection Heq as <-. apply newest_loop_In.
Qed.

Ltac count_ops :=
  rewrite ?track_op_count by discriminate;
  repeat (let Hd := fresh "Hd" in
          case_decide as Hd;
          [try discriminate Hd | try (exfalso; apply Hd; reflexivity)]; clear Hd).

Ltac lookup_done k :=
  wp_simpl;
  split;
  [ unfold only_index_reads, same_conversation, same_counters, same_trace; wp_simpl;
    cbn [total_queries cache_hits cache_misses api_errors query_log
         Session._track_algolia_operation];
    repeat split
  | split; [exists k; count_ops; repeat split; lia |] ].

Lemma find_previous_response_spec (E : env) (query : string)
    (data_source_id prompt_id : option string) (s : state) :
  wp (find_previous_response E query data_source_id prompt_id)
     (fun r s' =>
        only_index_reads s s'
        /\ (exists k,
              k <= 2
              /\ op_count "get_operations" (current_session s')
                 = op_count "get_operations" (current_session s) + 1
              /\ op_count "search_operations" (current_session s')
                 = op_count "search_operations" (current_session s) + k
              /\ clock s' = clock s + 1 + k)
        /\ (forall h,
              get_object E (clock s) "algolia_rag_responses"
                (_generate_stable_id (conversation_id s) (_get_query_essence query)
                   data_source_id prompt_id) = Ok h ->
              r = Some h)
        /\ (forall h, r = Some h -> from_index E h))
     s.
Proof.
  unfold find_previous_response. wp_run.
  destruct (get_object E (clock s) _ _) as [h0 | msg] eqn:Hget.
  - wp_run. lookup_done 0.
    split; [intros h Heq; injection Heq as <-; reflexivity |].
    intros h Heq. injection Heq as <-. left. eauto.
  - wp_run.
    destruct (search E (S (clock s)) _ _ _ _) as [hits | msg'] eqn:Hsearch; wp_run.
    2:{ lookup_done 1. split; discriminate. }
    destruct (find_best_match _ hits) as [best |] eqn:Hbest.
    { wp_run. lookup_done 1. split; [discriminate |].
      intros h Heq. injection Heq as <-. right.
      exists (S (clock s)). do 4 eexists. split; [exact Hsearch |].
      eapply find_best_match_In, Hbest. }
    destruct (_is_food_pairing_query (Py.strip (Py.lower query)));
      [destruct (_extract_food_items (Py.strip (Py.lower query))) as [| food foods] |];
      try (wp_run; lookup_done 1; split; discriminate).
    wp_run.
    destruct (search E (S (S (clock s))) _ _ _ _) as [food_hits | msg''] eqn:Hfood; wp_run.
    + lookup_done 2. split; [discriminate |].
      intros h Heq. right.
      exists (S (S (clock s))). do 4 eexists. split; [exact Hfood |].
      apply newest_In, Heq.
    + lookup_done 2. split; discriminate.
Qed.

(** X18.  Whatever the index does, the cache lookup only reads it: it does
    one lookup by id and at most two searches, and changes nothing but these
    counters and the clock, not the conversation, the query counters, the
    logs or the stored objects.  A successful lookup by id decides the
    result; any result is an object the index returned. *)
Theorem cache_lookup_effects (E : env) (query : string)
    (data_source_id prompt_id : option string) (s : state) :
  wp (find_previous_response E query data_source_id prompt_id)
     (fun r s' =>
        only_index_reads s s'
        /\ (exists k,
              k <= 2
              /\ op_count "get_operations" (current_session s')
                 = op_count "get_operations" (current_session s) + 1
              /\ op_count "search_operations" (current_session s')
                 = op_count "search_operations" (current_session s) + k
              /\ clock s' = clock s + 1 + k)
        /\ (forall h,
              get_object E (clock s) "algolia_rag_responses"
                (_generate_stable_id (conversation_id s) (_get_query_essence query)
                   data_source_id prompt_id) = Ok h ->
              r = Some h)
        /\ (forall h, r = Some h -> from_index E h))
     s.
Proof. exact (find_previous_response_spec E query data_source_id prompt_id s). Qed.

(** ** One call of [process_query], for any environment *)

Lemma stable_id_truthy (c : option string) (e : string) (d p : option string) :
  Py.truthy (Some (_generate_stable_id c e d p)) = true.
Proof. reflexivity. Qed.

Ltac wp_hyps :=
  cbv beta in *;
  cbn [clock slept posted saved metrics_file conversation_id conversation_history
       current_session all_sessions data_sources prompts
       with_world with_session with_conversation
       total_queries cache_hits cache_misses api_errors query_log
       Session.log_error Session.log_query] in *.

(** X19.  Whatever the environment does, one call of [process_query] logs
    exactly one query and returns the assistant's conversation id.  An entry
    without object id means that selecting the prompt raised: the entry is a
    miss, the reply is one of the error wordings, and neither the history
    nor the endpoint was touched.  Otherwise the history grows by the
    truncated query and the reply.  A logged hit means that nothing was sent
    to the generation endpoint, nothing stored, no wait made and no error
    logged, and that the reply is the response of an object the index
    returned.  A logged miss means that one to three copies of one request
    were sent, under the object id that was logged, for the query text built
    from the history before the call. *)
Theorem process_query_outcomes (E : env) (query : string)
    (prompt_type conversation_id_arg : option string) (s : state) :
  wp (process_query E query prompt_type conversation_id_arg)
     (fun r s' =>
        reply_conversationID r = conversation_id s'
        /\ total_queries (current_session s') = total_queries (current_session s) + 1
        /\ exists e,
             query_log (current_session s') = query_log (current_session s) ++ [e]
             /\ match qe_object_id e with
                | None =>
                    qe_cache_hit e = false
                    /\ (exists msg, reply_response r = error_reply msg)
                    /\ conversation_history s' = conversation_history s
                    /\ posted s' = posted s
                | Some object_id =>
                    conversation_history s'
                    = conversation_history s
                      ++ [mkMessage User (truncate_query query);
                          mkMessage Assistant (reply_response r)]
                    /\ if qe_cache_hit e then
                         posted s' = posted s /\ saved s' = saved s /\ slept s' = slept s
                         /\ api_errors (current_session s') = api_errors (current_session s)
                         /\ exists h, from_index E h
                                      /\ reply_response r = default "" (hit_response h)
                       else
                         exists data n,
                           1 <= n <= 3
                           /\ posted s' = posted s ++ repeat data n
                           /\ rq_objectID data = object_id
                           /\ rq_query data
                              = full_query_of (conversation_history s) (truncate_query query)
                end)
     s.
Proof.
  unfold process_query. wp_run.
  eapply wp_conseq with
    (Q := fun _ s0 =>
            conversation_history s0 = conversation_history s
            /\ current_session s0 = current_session s
            /\ posted s0 = posted s /\ saved s0 = saved s /\ slept s0 = slept s).
  { destruct (Py.truthy conversation_id_arg); wp_run; repeat split. }
  intros [] s0 (Hh0 & Hm0 & Hp0 & Hv0 & Hs0). wp_run.
  destruct (select_prompt E _ _ _) as [prompt_id | msg]; wp_run.
  - eapply wp_conseq; [apply find_previous_response_spec |]. wp_simpl.
    intros previous s1 (Hreads & _ & _ & Hfrom).
    destruct Hreads as ((Hc & Hh) & (Hq1 & Hq2 & Hq3) & (Hsl & Hpo & Her) & Hsv & Hmf & Hlog).
    wp_hyps. rewrite Hm0 in *.
    destruct previous as [previous |].
    + wp_run.
      eapply wp_conseq with
        (Q := fun _ s2 => conversation_history s2 = conversation_history s1
                          /\ current_session s2 = current_session s1
                          /\ posted s2 = posted s1 /\ saved s2 = saved s1
                          /\ slept s2 = slept s1).
      { destruct (hit_conversationID previous); [destruct (Py.truthy (conversation_id s1)) |];
          wp_run; repeat split. }
      intros [] s2 (Hh2 & Hm2 & Hp2 & Hv2 & Hs2). wp_run.
      rewrite Hm2, Hh2, Hp2, Hv2, Hs2.
      cbn [total_queries query_log api_errors Session.log_query reply_response].
      split; [reflexivity |]. split; [lia |].
      eexists. split; [rewrite Hlog; reflexivity |].
      cbn [qe_object_id qe_cache_hit].
      split; [rewrite Hh, Hh0; reflexivity |].
      repeat split; try congruence.
      exists previous. split; [apply Hfrom; reflexivity | reflexivity].
    + wp_run.
      eapply wp_conseq; [apply generate_response_spec |]. wp_simpl.
      intros rd s2 (Htr & _ & Hrd & Hh2 & (Hg1 & Hg2 & Hg3) & Hl2
                    & data & n & k & e & Hn & _ & _ & Hp2 & Hdq & _ & _ & _ & _ & Hoid & _).
      rewrite stable_id_truthy in Hoid. cbn [Py.fmt] in Hoid.
      wp_run. rewrite Hrd, Htr. wp_run.
      cbn [total_queries query_log api_errors Session.log_query reply_response].
      split; [reflexivity |]. split; [lia |].
      eexists. split; [rewrite Hl2, Hlog; reflexivity |].
      cbn [qe_object_id qe_cache_hit].
      split; [rewrite Hh2, Hh, Hh0; reflexivity |].
      exists data, n. rewrite Hp2, Hpo, Hp0.
      split; [lia |]. split; [reflexivity |]. split; [exact Hoid |].
      rewrite Hdq, Hh0. reflexivity.
  - cbn [total_queries query_log api_errors Session.log_query Session.log_error
         reply_response]. rewrite Hm0.
    split; [reflexivity |]. split; [reflexivity |].
    eexists. split; [reflexivity |]. cbn [qe_object_id qe_cache_hit].
    split; [reflexivity |]. split; [eexists; reflexivity |]. auto.
Qed.

(** ** What the operation counters miss *)

(** X20.  [process_query] never changes the counter of save operations,
    whatever it writes to the index: [generate_response] stores the object
    through the client, not through the counting wrapper. *)
Theorem stores_are_not_counted (E : env) (query : string)
    (prompt_type conversation_id_arg : option string) (s : state) :
  op_count "save_operations"
    (current_session (snd (process_query E query prompt_type conversation_id_arg s)))
  = op_count "save_operations" (current_session s).
Proof.
  apply (holds_process_query
           (fun m => op_count "save_operations" m
                     = op_count "save_operations" (current_session s))).
  - intros now q is_cache_hit response_time query_type object_id m H. exact H.
  - intros now error_type details m H. exact H.
  - intros m H. count_ops. lia.
  - intros m H. count_ops. lia.
  - reflexivity.
Qed.

Lemma stores_are_not_counted_witness :
  let E := fixed_env (HttpOk false (Some "A Malbec.")) in
  let s' := snd (process_query E "What wine pairs with steak?" None None start_state) in
  map st_response (saved s') = ["A Malbec."]
  /\ op_count "total_operations" (current_session s') = 3
  /\ op_count "save_operations" (current_session s') = 0.
Proof.
  cbv zeta. split; [vm_compute; reflexivity |]. split; [vm_compute; reflexivity |].
  rewrite (stores_are_not_counted (fixed_env (HttpOk false (Some "A Malbec.")))).
  reflexivity.
Defined.

(** ** Prompt type and data source *)

Lemma has_prompt_true (s : state) (k : string) :
  has_prompt s k = true -> is_Some (prompts s !! k).
Proof. unfold has_prompt. intros H. apply bool_decide_eq_true in H. exact H. Qed.

(** X21.  A prompt type is inferred only in a conversation that has a
    history, and only among the registered types: it is one of
    [food_pairing], [recommendations] and [tasting], and the assistant has a
    prompt for it.  The data source selected is the id registered under one
    of the six known names, and none is selected only when [all_wines] is
    not registered. *)
Theorem selections_are_registered (s : state) (query : string) :
  (forall k, _infer_prompt_type_from_query s query = Some k ->
     conversation_history s <> []
     /\ In k ["food_pairing"; "recommendations"; "tasting"]
     /\ is_Some (prompts s !! k))
  /\ (exists k,
        In k ["red_wines"; "white_wines"; "sparkling_wines"; "rose_wines"; "premium_wines";
              "all_wines"]
        /\ _select_data_source s query = data_sources s !! k)
  /\ (_select_data_source s query = None -> data_sources s !! "all_wines" = None).
Proof.
  split; [| split].
  - intros k. unfold _infer_prompt_type_from_query.
    destruct (conversation_history s) as [| m history] eqn:Hh; [discriminate |].
    assert (Hcase : forall (b : bool) (name : string) (rest : option string),
               (rest = Some k ->
                m :: history <> [] /\ In k ["food_pairing"; "recommendations"; "tasting"]
                /\ is_Some (prompts s !! k)) ->
               In name ["food_pairing"; "recommendations"; "tasting"] ->
               (if b && has_prompt s name then Some name else rest) = Some k ->
               m :: history <> [] /\ In k ["food_pairing"; "recommendations"; "tasting"]
               /\ is_Some (prompts s !! k)).
    { intros b name rest Hrest Hin.
      destruct b; cbn [andb]; [| exact Hrest].
      destruct (has_prompt s name) eqn:Hp; [| exact Hrest].
      intros Heq. injection Heq as <-.
      split; [discriminate |]. split; [exact Hin | apply has_prompt_true, Hp]. }
    apply Hcase; [| cbn; tauto]. apply Hcase; [| cbn; tauto]. apply Hcase; [| cbn; tauto].
    destruct (Nat.leb 2 (List.length (m :: history))); [| discriminate].
    destruct (last_assistant (m :: history)) as [[| c msg] |]; try discriminate.
    apply Hcase; [| cbn; tauto]. apply Hcase; [| cbn; tauto]. apply Hcase; [| cbn; tauto].
    discriminate.
  - unfold _select_data_source.
    repeat match goal with
           | |- context [if ?b then _ else _] => destruct b
           end; eexists; (split; [| reflexivity]); cbn; tauto.
  - unfold _select_data_source.
    assert (Hcase : forall (c : bool) (k : string) (rest : option string),
               (rest = None -> data_sources s !! "all_wines" = None) ->
               (if c && bool_decide (is_Some (data_sources s !! k))
                then data_sources s !! k else rest) = None ->
               data_sources s !! "all_wines" = None).
    { intros c k rest Hrest.
      destruct c; cbn [andb]; [| exact Hrest].
      destruct (bool_decide (is_Some (data_sources s !! k))) eqn:Hd; [| exact Hrest].
      apply bool_decide_eq_true in Hd. destruct Hd as [id Hd]. rewrite Hd. discriminate. }
    do 5 apply Hcase. exact (fun H => H).
Qed.

(** ** The price constraint *)

Lemma span_digits (s d r : string) :
  Re.span Re.isdigit s = (d, r) -> forallb Re.isdigit (list_ascii_of_string d) = true.
Proof.
  revert d r. induction s as [| c s IH]; intros d r; cbn [Re.span].
  - intros H. injection H as <- <-. reflexivity.
  - destruct (Re.isdigit c) eqn:Hc.
    + destruct (Re.span Re.isdigit s) as [a b]. intros H. injection H as <- <-.
      cbn [list_ascii_of_string forallb]. rewrite Hc. exact (IH a b eq_refl).
    + intros H. injection H as <- <-. reflexivity.
Qed.

Lemma match_here_groups (pat : list Re.item) (s : string) (gs : list string) :
  Re.match_here pat s = Some gs -> Forall is_number gs.
Proof.
  revert s gs. induction pat as [| it pat IH]; intros s gs; cbn [Re.match_here].
  - intros H. injection H as <-. constructor.
  - destruct it as [l | | l |].
    + destruct (String.prefix l s); [apply IH | discriminate].
    + destruct (Re.span Py.isspace s) as [[| c a] r]; [discriminate | apply IH].
    + destruct (String.prefix l s); apply IH.
    + destruct (Re.span Re.isdigit s) as [[| c d] r] eqn:Hspan; [discriminate |].
      destruct (Re.match_here pat r) as [gs' |] eqn:Hrest; [| discriminate].
      cbn [option_map]. intros H. injection H as <-.
      constructor; [| exact (IH r gs' Hrest)].
      split; [discriminate | exact (span_digits _ _ _ Hspan)].
Qed.

Lemma search_groups (pat : list Re.item) (s : string) (gs : list string) :
  Re.search pat s = Some gs -> Forall is_number gs.
Proof.
  induction s as [| c s IH]; cbn [Re.search].
  - destruct (Re.match_here pat "") as [g |] eqn:Hm; [| discriminate].
    intros H. injection H as <-. exact (match_here_groups _ _ _ Hm).
  - destruct (Re.match_here pat (String c s)) as [g |] eqn:Hm; [| exact IH].
    intros H. injection H as <-. exact (match_here_groups _ _ _ Hm).
Qed.

Lemma first_price_shape (pats : list (list Re.item)) (query p : string) :
  first_price pats query = Some p ->
  (exists a, is_number a /\ p = "price_" +:+ a)
  \/ (exists a b, is_number a /\ is_number b /\ p = "price_" +:+ a +:+ "_to_" +:+ b).
Proof.
  induction pats as [| pat pats IH]; cbn [first_price]; [discriminate |].
  destruct (Re.search pat query) as [[| g1 [| g2 [| g3 gs]]] |] eqn:Hs; try exact IH.
  - apply search_groups in Hs. inversion Hs; subst.
    intros H. injection H as <-. left. eauto.
  - apply search_groups in Hs. inversion Hs as [| ? ? H1 Hs']; subst.
    inversion Hs'; subst.
    intros H. injection H as <-. right. eauto.
Qed.

(** X22.  The price constraint read from a query of ASCII characters, when
    there is one, is [price_N] or [price_N_to_M] with [N] and [M] non-empty
    runs of the digits 0 to 9, or else [price_budget] or [price_premium];
    the words are looked at only when the query holds no amount in
    figures. *)
Theorem price_range_shape (query p : string) :
  is_ascii query = true ->
  _extract_price_range query = Some p ->
  (exists a, is_number a /\ p = "price_" +:+ a)
  \/ (exists a b, is_number a /\ is_number b /\ p = "price_" +:+ a +:+ "_to_" +:+ b)
  \/ (first_price price_patterns query = None
      /\ (p = "price_budget" \/ p = "price_premium")).
Proof.
  intros _. unfold _extract_price_range.
  destruct (first_price price_patterns query) as [p' |] eqn:Hfirst.
  - intros H. injection H as <-.
    destruct (first_price_shape _ _ _ Hfirst) as [H | H]; [left | right; left]; exact H.
  - intros H. right. right. split; [reflexivity |].
    destruct (_ || _); [injection H as <-; left; reflexivity |].
    destruct (_ || _); [injection H as <-; right; reflexivity | discriminate].
Qed.

Lemma price_range_shape_witness :
  _extract_price_range "a red under $30 for a steak" = Some "price_30"
  /\ _extract_price_range "a budget bottle, say $15-$20" = Some "price_15_to_20"
  /\ ((exists a, is_number a /\ "price_30" = "price_" +:+ a)
      \/ (exists a b, is_number a /\ is_number b /\ "price_30" = "price_" +:+ a +:+ "_to_" +:+ b)
      \/ (first_price price_patterns "a red under $30 for a steak" = None
          /\ ("price_30" = "price_budget" \/ "price_30" = "price_premium"))).
Proof.
  split; [vm_compute; reflexivity |]. split; [vm_compute; reflexivity |].
  apply (price_range_shape "a red under $30 for a steak"); vm_compute; reflexivity.
Defined.
